(** * AI-analyst backend (src/backend/main.py): session pipeline and follow-up engine

    A shallow embedding of the staged analysis graph
    (load_data_node, analyze_data_node, categorize_insight_node,
    parse_insights_node, respond_node), of the JSON extraction helper
    extract_json_from_text and of the HTTP handlers invoke_graph,
    chat_with_insight, get_session_data and get_all_sessions.

    Python text is modelled as [string], a character standing for the
    code point below 256 of its number (the whitespace and case tables
    below are Unicode's on that range), Python values as [value],
    Python dictionaries as association lists in insertion order whose
    keys are strings or other hashable scalars (a spreadsheet's numeric
    header cells stay numbers in the records pandas makes of it), the
    session table and the blob buckets as finite maps, and the effects of
    a handler (store, storage, model and agent calls, clock, globals,
    console) as an explicit state with an exception result. *)

From Stdlib Require Import ZArith Lia String Ascii List Bool DecimalString.
From stdpp Require Import base option list gmap strings.

Set Warnings "-register-all".

Local Open Scope string_scope.
Local Open Scope list_scope.
Local Open Scope nat_scope.

(* ===================================================================== *)
(** ** Python str methods used by the source                              *)
(* ===================================================================== *)

Module PyStr.

(** [c.isspace()] for a code point below 256: TAB..CR, FS..US, the
    blank, NEL (U+0085) and the no-break space (U+00A0). The same table
    is the class [\s] of [re] and what [str.strip()] removes. *)
Definition isspace (c : ascii) : bool :=
  let n := nat_of_ascii c in
  ((9 <=? n) && (n <=? 13)) || ((28 <=? n) && (n <=? 32)) || (n =? 133) || (n =? 160).

(** [c.lower()] for a code point below 256: A..Z, and the capital
    letters U+00C0..U+00DE but the multiplication sign U+00D7. *)
Definition lower (c : ascii) : ascii :=
  let n := nat_of_ascii c in
  if ((65 <=? n) && (n <=? 90))
     || ((192 <=? n) && (n <=? 222) && negb (n =? 215))
  then ascii_of_nat (n + 32) else c.

Fixpoint lstrip (s : string) : string :=
  match s with
  | String c s' => if isspace c then lstrip s' else s
  | EmptyString => EmptyString
  end.

Fixpoint rstrip (s : string) : string :=
  match s with
  | EmptyString => EmptyString
  | String c s' =>
      match rstrip s' with
      | EmptyString => if isspace c then EmptyString else String c EmptyString
      | r => String c r
      end
  end.

(** [s.strip()] *)
Definition strip (s : string) : string := rstrip (lstrip s).

(** [s.startswith(p)] *)
Definition startswith (p s : string) : bool := String.prefix p s.

(** [s.endswith(p)]: [p] is one of the suffixes of [s]. *)
Fixpoint endswith (p s : string) : bool :=
  String.eqb p s ||
  match s with
  | String _ s' => endswith p s'
  | EmptyString => false
  end.

(** [s.find(sub)]: the least index at which [sub] occurs, [-1] if none. *)
Fixpoint find_from (sub s : string) (i : Z) : Z :=
  if String.prefix sub s then i
  else match s with
       | String _ s' => find_from sub s' (i + 1)
       | EmptyString => (-1)%Z
       end.

Definition find (sub s : string) : Z := find_from sub s 0.

(** [s.rfind(sub)]: the greatest index at which [sub] occurs, [-1] if none. *)
Fixpoint rfind_from (sub s : string) (i : Z) : Z :=
  match s with
  | EmptyString => if String.prefix sub s then i else (-1)%Z
  | String _ s' =>
      let r := rfind_from sub s' (i + 1) in
      if (r =? -1)%Z then (if String.prefix sub s then i else (-1)%Z) else r
  end.

Definition rfind (sub s : string) : Z := rfind_from sub s 0.

(** [s.count(c)] for a one-character needle, the only use in the source. *)
Fixpoint count (c : ascii) (s : string) : nat :=
  match s with
  | EmptyString => 0
  | String a s' => (if Ascii.eqb a c then 1 else 0) + count c s'
  end.

(** [s[a:b]] for indices [0 <= a]. *)
Definition slice (s : string) (a b : Z) : string :=
  substring (Z.to_nat a) (Z.to_nat (b - a)) s.

(** [s[n:]] *)
Fixpoint drop (n : nat) (s : string) : string :=
  match n, s with
  | S n', String _ s' => drop n' s'
  | _, _ => s
  end.

(** [sep.join(parts)] *)
Fixpoint join (sep : string) (parts : list string) : string :=
  match parts with
  | [] => ""
  | [p] => p
  | p :: ps => p +:+ sep +:+ join sep ps
  end.

(** [str(n)] for a natural number: its decimal digits. *)
Definition of_nat (n : nat) : string := NilEmpty.string_of_uint (Nat.to_uint n).

End PyStr.

(* ===================================================================== *)
(** ** The fragment of Python's [re] the source uses                      *)
(* ===================================================================== *)

(** Every pattern of main.py is a sequence of literals, one capture
    group, and greedy ([*]) or lazy ([*?]) repetitions of a one-character
    class. [re] is a backtracking matcher: alternatives are tried in
    priority order and the first complete match is the answer. *)
Module Re.

Inductive cclass :=
| CDot                 (* .    *)
| CSpace               (* \s   *)
| CNot (c : ascii).    (* [^c] *)

Inductive ritem :=
| RLit (s : string)    (* literal text *)
| RStar (k : cclass)   (* k*  : as many as possible first *)
| RLazy (k : cclass)   (* k*? : as few as possible first *)
| ROpen                (* (    *)
| RClose.              (* )    *)

Definition regex := list ritem.

Record flags := mkFlags { DOTALL : bool; IGNORECASE : bool }.

Definition no_flags : flags := mkFlags false false.
Definition re_DOTALL : flags := mkFlags true false.
Definition re_IGNORECASE : flags := mkFlags false true.
Definition flags_or (a b : flags) : flags :=
  mkFlags (DOTALL a || DOTALL b) (IGNORECASE a || IGNORECASE b).

Definition cclass_match (fl : flags) (k : cclass) (c : ascii) : bool :=
  match k with
  | CDot => DOTALL fl || negb (Ascii.eqb c "010"%char)
  | CSpace => PyStr.isspace c
  | CNot x => negb (Ascii.eqb c x)
  end.

Definition char_eq (fl : flags) (a b : ascii) : bool :=
  if IGNORECASE fl then Ascii.eqb (PyStr.lower a) (PyStr.lower b)
  else Ascii.eqb a b.

(** The text left after the literal [l], when [s] starts with it. *)
Fixpoint lit_match (fl : flags) (l s : string) : option string :=
  match l with
  | EmptyString => Some s
  | String a l' =>
      match s with
      | String b s' => if char_eq fl a b then lit_match fl l' s' else None
      | EmptyString => None
      end
  end.

(** The span (start, end) of group 1, as indices into the whole text. *)
Definition span := (nat * nat)%type.

(** What is left to match after an item: [cont s pos g] matches the rest
    of the pattern against [s], the text from index [pos] on, and gives
    the index after the match and the span of the group. *)
Definition continuation := string -> nat -> span -> option (nat * span).

(** [k*]: take a character of the class and go on; when that fails, or
    at a character outside the class, match the rest. *)
Fixpoint greedy (fl : flags) (k : cclass) (cont : continuation)
  (s : string) (pos : nat) (g : span) : option (nat * span) :=
  match s with
  | String c s' =>
      if cclass_match fl k c then
        match greedy fl k cont s' (S pos) g with
        | Some res => Some res
        | None => cont s pos g
        end
      else cont s pos g
  | EmptyString => cont s pos g
  end.

(** [k*?]: match the rest; when that fails, take a character of the
    class and try again. *)
Fixpoint lazy (fl : flags) (k : cclass) (cont : continuation)
  (s : string) (pos : nat) (g : span) : option (nat * span) :=
  match cont s pos g with
  | Some res => Some res
  | None =>
      match s with
      | String c s' => if cclass_match fl k c then lazy fl k cont s' (S pos) g else None
      | EmptyString => None
      end
  end.

(** [match_here fl r s pos g]: match the pattern [r] against [s], the
    text from index [pos] on. *)
Fixpoint match_here (fl : flags) (r : regex) : continuation :=
  match r with
  | [] => fun _ pos g => Some (pos, g)
  | RLit l :: r' => fun s pos g =>
      match lit_match fl l s with
      | Some s' => match_here fl r' s' (pos + String.length l) g
      | None => None
      end
  | RStar k :: r' => greedy fl k (match_here fl r')
  | RLazy k :: r' => lazy fl k (match_here fl r')
  | ROpen :: r' => fun s pos g => match_here fl r' s pos (pos, snd g)
  | RClose :: r' => fun s pos g => match_here fl r' s pos (fst g, pos)
  end.

(** A match object: where the match starts and ends, and group 1. *)
Record rmatch := mkMatch { m_start : nat; m_end : nat; m_span : span }.

(** The leftmost match at or after index [pos]; [s] is the text from
    [pos] on. *)
Fixpoint search_from (fl : flags) (r : regex) (s : string) (pos : nat)
  : option rmatch :=
  match match_here fl r s pos (pos, pos) with
  | Some (e, g) => Some (mkMatch pos e g)
  | None =>
      match s with
      | String _ s' => search_from fl r s' (S pos)
      | EmptyString => None
      end
  end.

(** [re.search(r, text, fl)] *)
Definition search (fl : flags) (r : regex) (text : string) : option rmatch :=
  search_from fl r text 0.

(** [m.group(0)] and [m.group(1)] *)
Definition group0 (text : string) (m : rmatch) : string :=
  substring (m_start m) (m_end m - m_start m) text.

Definition group1 (text : string) (m : rmatch) : string :=
  substring (fst (m_span m)) (snd (m_span m) - fst (m_span m)) text.

(** [re.findall(r, text, fl)] for a pattern with one group: group 1 of
    the successive matches, each search resuming where the last match
    ended (one further on after an empty match). There are at most
    [length text + 1] matches. *)
Fixpoint findall_from (fuel : nat) (fl : flags) (r : regex) (text : string)
  (pos : nat) : list string :=
  match fuel with
  | 0 => []
  | S fuel' =>
      match search_from fl r (PyStr.drop pos text) pos with
      | None => []
      | Some m =>
          group1 text m ::
          (if String.length text <? m_end m + (if m_end m =? m_start m then 1 else 0)
           then []
           else findall_from fuel' fl r text
                  (m_end m + (if m_end m =? m_start m then 1 else 0)))
      end
  end.

Definition findall (fl : flags) (r : regex) (text : string) : list string :=
  findall_from (S (String.length text)) fl r text 0.

End Re.

(* ===================================================================== *)
(** ** extract_json_from_text                                             *)
(* ===================================================================== *)

Import Re.

(** r'```json\s*(.*?)\s*```' and r'```\s*(.*?)\s*```' *)
Definition code_block_patterns : list regex :=
  [ [RLit "```json"; RStar CSpace; ROpen; RLazy CDot; RClose; RStar CSpace; RLit "```"];
    [RLit "```"; RStar CSpace; ROpen; RLazy CDot; RClose; RStar CSpace; RLit "```"] ].

Definition dq : string := String "034"%char EmptyString.

(** r'(\{[^}]*"insights"[^}]*\[[^\]]*\][^}]*\})' and r'(\{.*?"insights".*?\})' *)
Definition json_patterns : list regex :=
  [ [ROpen; RLit "{"; RStar (CNot "}"); RLit (dq +:+ "insights" +:+ dq);
     RStar (CNot "}"); RLit "["; RStar (CNot "]"); RLit "]";
     RStar (CNot "}"); RLit "}"; RClose];
    [ROpen; RLit "{"; RLazy CDot; RLit (dq +:+ "insights" +:+ dq);
     RLazy CDot; RLit "}"; RClose] ].

(** Strategy 1, the loop over [code_block_patterns]: the first match of a
    pattern is taken when, stripped, it starts with an opening and ends
    with a closing brace. *)
Fixpoint code_block_loop (patterns : list regex) (text : string) : option string :=
  match patterns with
  | [] => None
  | pattern :: rest =>
      match findall (flags_or re_DOTALL re_IGNORECASE) pattern text with
      | m0 :: _ =>
          let candidate := PyStr.strip m0 in
          if PyStr.startswith "{" candidate && PyStr.endswith "}" candidate
          then Some candidate
          else code_block_loop rest text
      | [] => code_block_loop rest text
      end
  end.

(** Strategy 2: from the first opening to the last closing brace, when
    the two kinds of brace occur equally often in between. *)
Definition brace_span (text : string) : option string :=
  let first_brace := PyStr.find "{" text in
  let last_brace := PyStr.rfind "}" text in
  if negb (first_brace =? -1)%Z && negb (last_brace =? -1)%Z
     && (first_brace <? last_brace)%Z
  then
    let candidate := PyStr.slice text first_brace (last_brace + 1) in
    let open_count := PyStr.count "{" candidate in
    let close_count := PyStr.count "}" candidate in
    if open_count =? close_count then Some candidate else None
  else None.

(** Strategy 3, the loop over [json_patterns]: the first match of the
    first pattern that matches at all. *)
Fixpoint json_pattern_loop (patterns : list regex) (text : string) : option string :=
  match patterns with
  | [] => None
  | pattern :: rest =>
      match findall re_DOTALL pattern text with
      | m0 :: _ => Some m0
      | [] => json_pattern_loop rest text
      end
  end.

Definition extract_json_from_text (text : string) : string :=
  match code_block_loop code_block_patterns text with
  | Some candidate => candidate
  | None =>
      match brace_span text with
      | Some candidate => candidate
      | None =>
          match json_pattern_loop json_patterns text with
          | Some m0 => m0
          | None => ""
          end
      end
  end.

(* ===================================================================== *)
(** ** Python values, dictionaries and exceptions                          *)
(* ===================================================================== *)

Inductive pyfloat :=
| FFinite (mantissa exponent : Z)   (* mantissa * 2 ^ exponent *)
| FInf (negative : bool)
| FNaN.

(** A dictionary key, which is also what a column label of a DataFrame
    can be: a string, or another hashable object. JSON objects and store
    rows have string keys only; the records of a DataFrame have its
    column labels for keys, and pandas keeps a header cell that holds a
    number, a date or nothing as such. Of an object that is none of the
    scalars below the model keeps the name of its type. *)
Inductive key :=
| KStr (s : string)
| KInt (n : Z)
| KFloat (f : pyfloat)
| KBool (b : bool)
| KNone
| KOther (type_name : string).

(** A string stands for the key it is, also inside the pairs and lists
    of a dictionary display. *)
Coercion KStr : string >-> key.
Arguments pair {A B}%_type_scope & x y.
Arguments cons {A}%_type_scope & a l.

(** The values that JSON payloads, store rows, table records and literal
    expressions are made of. A dictionary keeps its keys in insertion
    order. *)
Inductive value :=
| VNone
| VBool (b : bool)
| VInt (n : Z)
| VFloat (f : pyfloat)
| VStr (s : string)
| VList (l : list value)
| VDict (d : list (key * value)).

Definition dict := list (key * value).

#[global] Instance pyfloat_eq_dec : EqDecision pyfloat.
Proof. solve_decision. Defined.

#[global] Instance key_eq_dec : EqDecision key.
Proof. solve_decision. Defined.

(** [isinstance(k, str)] and [type(k).__name__] *)
Definition key_is_str (k : key) : bool := match k with KStr _ => true | _ => false end.

Definition key_type_name (k : key) : string :=
  match k with
  | KStr _ => "str"
  | KInt _ => "int"
  | KFloat _ => "float"
  | KBool _ => "bool"
  | KNone => "NoneType"
  | KOther type_name => type_name
  end.

(** [k' == k] for a string [k]: only a string equals a string. *)
Definition key_eqb (k' : key) (k : string) : bool :=
  match k' with KStr s => String.eqb s k | _ => false end.

(** [k in d] and [d.get(k)], for a string [k] *)
Fixpoint dict_get (k : string) (d : dict) : option value :=
  match d with
  | [] => None
  | (k', v) :: d' => if key_eqb k' k then Some v else dict_get k d'
  end.

Definition dict_has (k : string) (d : dict) : bool :=
  match dict_get k d with Some _ => true | None => false end.

(** [d[k] = v]: the value is replaced where the key stands, a new key goes
    last. *)
Fixpoint dict_set (k : string) (v : value) (d : dict) : dict :=
  match d with
  | [] => [(KStr k, v)]
  | (k', v') :: d' =>
      if key_eqb k' k then (k', v) :: d' else (k', v') :: dict_set k v d'
  end.

(** [list(d.keys())] *)
Definition dict_keys (d : dict) : list key := map fst d.

(** Truth value testing, as [if v:] and [not v] do it. *)
Definition truthy (v : value) : bool :=
  match v with
  | VNone => false
  | VBool b => b
  | VInt n => negb (n =? 0)%Z
  | VFloat (FFinite m _) => negb (m =? 0)%Z
  | VFloat _ => true
  | VStr s => negb (String.eqb s "")
  | VList l => match l with [] => false | _ => true end
  | VDict d => match d with [] => false | _ => true end
  end.

(** [isinstance(v, dict)], [isinstance(v, list)], [isinstance(v, str)] *)
Definition is_dict (v : value) : bool := match v with VDict _ => true | _ => false end.
Definition is_list (v : value) : bool := match v with VList _ => true | _ => false end.
Definition is_str (v : value) : bool := match v with VStr _ => true | _ => false end.

(** [type(v).__name__] *)
Definition type_name (v : value) : string :=
  match v with
  | VNone => "NoneType"
  | VBool _ => "bool"
  | VInt _ => "int"
  | VFloat _ => "float"
  | VStr _ => "str"
  | VList _ => "list"
  | VDict _ => "dict"
  end.

(** [v == s] for a string constant [s] *)
Definition eq_str (v : value) (s : string) : bool :=
  match v with VStr s' => String.eqb s' s | _ => false end.

(** [v in [s1, ..., sn]] for string constants *)
Definition in_strs (v : value) (l : list string) : bool := existsb (eq_str v) l.

Inductive exn :=
| HTTPException (status_code : nat) (detail : string)
| JSONDecodeError (msg : string)
| ValueError (msg : string)
| SyntaxError (msg : string)
| KeyError (key : string)
| TypeError (msg : string)
| AttributeError (msg : string)
| Exception (msg : string).      (* any other exception class *)

Inductive result (A : Type) :=
| Ok (a : A)
| Raise (e : exn).
Arguments Ok {A} a.
Arguments Raise {A} e.

(** [str(e)]: the message; a KeyError shows its key quoted, an
    HTTPException its status and detail. *)
Definition exn_str (e : exn) : string :=
  match e with
  | HTTPException c d => PyStr.of_nat c +:+ ": " +:+ d
  | KeyError k => "'" +:+ k +:+ "'"
  | JSONDecodeError m | ValueError m | SyntaxError m
  | TypeError m | AttributeError m | Exception m => m
  end.

(** [d[k]] *)
Definition dict_item (k : string) (d : dict) : result value :=
  match dict_get k d with
  | Some v => Ok v
  | None => Raise (KeyError k)
  end.

(** A pandas DataFrame: labelled columns and rows of cells. *)
Record DataFrame := mkDataFrame {
  df_columns : list key;
  df_rows : list (list value)
}.

(** [df.empty]: some axis has length 0. *)
Definition df_empty (df : DataFrame) : bool :=
  match df_columns df, df_rows df with
  | _ :: _, _ :: _ => false
  | _, _ => true
  end.

(** [df.to_dict(orient='records')]: one dictionary per row, its keys the
    column labels as they are. *)
Definition to_dict_records (df : DataFrame) : list value :=
  map (fun row => VDict (combine (df_columns df) row)) (df_rows df).

(** LangChain messages. The content is a string, or a list of strings
    and dictionaries; a string stands for the content it is. *)
Coercion VStr : string >-> value.

Inductive message :=
| SystemMessage (content : value)
| HumanMessage (content : value)
| AIMessage (content : value).

(** What the message classes accept as content. *)
Definition is_content (v : value) : bool :=
  match v with
  | VStr _ => true
  | VList blocks => forallb (fun b => is_str b || is_dict b) blocks
  | _ => false
  end.

(* ===================================================================== *)
(** ** The collaborators                                                   *)
(* ===================================================================== *)

(** What the record store does with a call: it raises, it answers without
    data, or it carries the call out. *)
Inductive db_reply :=
| DbRaises (e : exn)
| DbRefuses
| DbAnswers.

(** What the object storage does with a call: it raises, it returns [res]
    without having stored or found anything, or it carries the call out
    (an upload then returns [res]). *)
Inductive storage_reply :=
| StRaises (e : exn)
| StRefuses (res : value)
| StDone (res : value).

Inductive db_call :=
| DbInsert (row : dict)
| DbUpdate (sid : string) (fields : dict)
| DbSelectOne (columns : option (list string)) (sid : string)
| DbSelectAll (columns : list string).

Inductive storage_call :=
| Download (bucket path : string)
| Upload (bucket path bytes : string).

(** The libraries and services main.py calls and does not define. The
    services answer their k-th call as the environment decides. *)
Class Env := {
  (* Python and library functions *)
  py_str : value -> string;                      (* str(v), v not a str *)
  format_exc : exn -> string;                    (* traceback.format_exc() *)
  json_loads : string -> result value;           (* json.loads *)
  literal_eval : string -> result value;         (* ast.literal_eval *)
  read_excel : string -> result DataFrame;       (* pd.read_excel(io.BytesIO(b)) *)
  pd_DataFrame : list value -> result DataFrame; (* pd.DataFrame(records) *)
  to_parquet : DataFrame -> result string;       (* df.to_parquet(buffer, index=False) *)
  read_parquet : string -> result DataFrame;     (* pd.read_parquet(io.BytesIO(b)) *)
  isoformat : Z -> string;                       (* datetime.isoformat() *)
  (* services *)
  llm_reply : nat -> list message -> result string;
  agent_reply : nat -> DataFrame -> list message -> string -> result (option string);
  db_reply_at : nat -> db_reply;
  storage_reply_at : nat -> storage_reply;
  uuid4 : nat -> string;
  clock : nat -> Z                               (* datetime.now(), in microseconds *)
}.

(** [str(v)] and [f"{v}"] *)
Definition str_of `{Env} (v : value) : string :=
  match v with VStr s => s | _ => py_str v end.

(** What a handler can read and change. *)
Record World := mkWorld {
  sessions : gmap string dict;              (* table analysis_sessions, by session_id *)
  blobs : gmap (string * string) string;    (* (bucket, path) to bytes *)
  llm_log : list (list message);            (* completion requests, oldest first *)
  agent_log : list string;                  (* questions put to the DataFrame agent *)
  db_log : list db_call;                    (* calls on the record store *)
  storage_log : list storage_call;          (* calls on the object storage *)
  uuids_drawn : nat;
  clock_reads : nat;
  console : list string;                    (* lines printed *)
  global_last_processed_df : option DataFrame;
  global_last_processed_analysis : string;
  global_current_session_id : option string
}.

Definition with_sessions (f : gmap string dict -> gmap string dict) (w : World) : World :=
  mkWorld (f (sessions w)) (blobs w) (llm_log w) (agent_log w) (db_log w)
    (storage_log w) (uuids_drawn w) (clock_reads w) (console w)
    (global_last_processed_df w) (global_last_processed_analysis w)
    (global_current_session_id w).

Definition with_blobs (f : gmap (string * string) string -> gmap (string * string) string)
  (w : World) : World :=
  mkWorld (sessions w) (f (blobs w)) (llm_log w) (agent_log w) (db_log w)
    (storage_log w) (uuids_drawn w) (clock_reads w) (console w)
    (global_last_processed_df w) (global_last_processed_analysis w)
    (global_current_session_id w).

Definition log_llm (msgs : list message) (w : World) : World :=
  mkWorld (sessions w) (blobs w) (llm_log w ++ [msgs]) (agent_log w) (db_log w)
    (storage_log w) (uuids_drawn w) (clock_reads w) (console w)
    (global_last_processed_df w) (global_last_processed_analysis w)
    (global_current_session_id w).

Definition log_agent (q : string) (w : World) : World :=
  mkWorld (sessions w) (blobs w) (llm_log w) (agent_log w ++ [q]) (db_log w)
    (storage_log w) (uuids_drawn w) (clock_reads w) (console w)
    (global_last_processed_df w) (global_last_processed_analysis w)
    (global_current_session_id w).

Definition log_db (c : db_call) (w : World) : World :=
  mkWorld (sessions w) (blobs w) (llm_log w) (agent_log w) (db_log w ++ [c])
    (storage_log w) (uuids_drawn w) (clock_reads w) (console w)
    (global_last_processed_df w) (global_last_processed_analysis w)
    (global_current_session_id w).

Definition log_storage (c : storage_call) (w : World) : World :=
  mkWorld (sessions w) (blobs w) (llm_log w) (agent_log w) (db_log w)
    (storage_log w ++ [c]) (uuids_drawn w) (clock_reads w) (console w)
    (global_last_processed_df w) (global_last_processed_analysis w)
    (global_current_session_id w).

Definition draw_uuid (w : World) : World :=
  mkWorld (sessions w) (blobs w) (llm_log w) (agent_log w) (db_log w)
    (storage_log w) (S (uuids_drawn w)) (clock_reads w) (console w)
    (global_last_processed_df w) (global_last_processed_analysis w)
    (global_current_session_id w).

Definition read_clock (w : World) : World :=
  mkWorld (sessions w) (blobs w) (llm_log w) (agent_log w) (db_log w)
    (storage_log w) (uuids_drawn w) (S (clock_reads w)) (console w)
    (global_last_processed_df w) (global_last_processed_analysis w)
    (global_current_session_id w).

Definition log_console (line : string) (w : World) : World :=
  mkWorld (sessions w) (blobs w) (llm_log w) (agent_log w) (db_log w)
    (storage_log w) (uuids_drawn w) (clock_reads w) (console w ++ [line])
    (global_last_processed_df w) (global_last_processed_analysis w)
    (global_current_session_id w).

(** *** Handlers: state and exceptions *)

Definition M (A : Type) : Type := World -> result A * World.

Definition ret {A} (a : A) : M A := fun w => (Ok a, w).

Definition raise {A} (e : exn) : M A := fun w => (Raise e, w).

Definition bind {A B} (m : M A) (k : A -> M B) : M B :=
  fun w => match m w with
           | (Ok a, w') => k a w'
           | (Raise e, w') => (Raise e, w')
           end.

Notation "'let*' x ':=' m 'in' k" := (bind m (fun x => k))
  (at level 10, x pattern, m at level 100, k at level 200).

(** A pure computation that may raise. *)
Definition lift {A} (r : result A) : M A := fun w => (r, w).

(** [try: body except ...: handler]; [handler e = None] when no clause
    catches [e]. *)
Definition try_except {A} (body : M A) (handler : exn -> option (M A)) : M A :=
  fun w => match body w with
           | (Ok a, w') => (Ok a, w')
           | (Raise e, w') =>
               match handler e with
               | Some h => h w'
               | None => (Raise e, w')
               end
           end.

(** [except Exception as e] catches every exception of the model. *)
Definition except_Exception {A} (h : exn -> M A) : exn -> option (M A) :=
  fun e => Some (h e).

(** [print(line)] *)
Definition print (line : string) : M unit := fun w => (Ok tt, log_console line w).

(** The assignment of the three globals of the last processed session. *)
Definition with_globals (df : option DataFrame) (analysis : string)
  (session_id : option string) (w : World) : World :=
  mkWorld (sessions w) (blobs w) (llm_log w) (agent_log w) (db_log w)
    (storage_log w) (uuids_drawn w) (clock_reads w) (console w)
    df analysis session_id.

Definition set_globals (df : option DataFrame) (analysis : string)
  (session_id : option string) : M unit :=
  fun w => (Ok tt, with_globals df analysis session_id w).

(** The response of the record store. Its attributes are [data] and
    [count]; it has no [error] and no [status_code], and reading one of
    them, as the source does, raises. *)
Record db_response (D : Type) := mkResponse { r_data : D }.
Arguments mkResponse {D} r_data.
Arguments r_data {D} _.

Definition no_attribute {A} (name : string) : M A :=
  raise (AttributeError ("'APIResponse' object has no attribute '" +:+ name +:+ "'")).

Section Services.
Context `{Env}.

(** [await llm.ainvoke(messages)], then the content of the reply. *)
Definition llm_ainvoke (messages : list message) : M string :=
  fun w => (llm_reply (length (llm_log w)) messages, log_llm messages w).

(** [await pandas_agent.ainvoke({"input": question})]; the result is
    [response.get("output")]. *)
Definition agent_ainvoke (df : DataFrame) (memory : list message) (question : string)
  : M (option string) :=
  fun w => (agent_reply (length (agent_log w)) df memory question, log_agent question w).

(** [str(uuid.uuid4())] *)
Definition new_uuid : M string :=
  fun w => (Ok (uuid4 (uuids_drawn w)), draw_uuid w).

(** [datetime.now()] *)
Definition datetime_now : M Z :=
  fun w => (Ok (clock (clock_reads w)), read_clock w).

(** [supabase_client.from_("analysis_sessions").insert(row).execute()].
    The table's primary key is session_id. *)
Definition db_insert (row : dict) : M (db_response (list dict)) :=
  fun w =>
    let w' := log_db (DbInsert row) w in
    match db_reply_at (length (db_log w)) with
    | DbRaises e => (Raise e, w')
    | DbRefuses => (Ok (mkResponse []), w')
    | DbAnswers =>
        match dict_get "session_id" row with
        | Some (VStr sid) =>
            match sessions w !! sid with
            | None => (Ok (mkResponse [row]), with_sessions (insert sid row) w')
            | Some _ => (Raise (Exception "duplicate key value violates unique constraint"), w')
            end
        | _ => (Raise (Exception "null value in column session_id"), w')
        end
    end.

(** The columns of [fields] written over those of [row]. *)
Definition dict_update (row fields : dict) : dict :=
  fold_left (fun acc kv => match fst kv with
                           | KStr k => dict_set k (snd kv) acc
                           | _ => acc
                           end) fields row.

(** [....update(fields).eq("session_id", sid).execute()]: the data of the
    response are the rows changed. *)
Definition db_update (sid : string) (fields : dict) : M (db_response (list dict)) :=
  fun w =>
    let w' := log_db (DbUpdate sid fields) w in
    match db_reply_at (length (db_log w)) with
    | DbRaises e => (Raise e, w')
    | DbRefuses => (Ok (mkResponse []), w')
    | DbAnswers =>
        match sessions w !! sid with
        | Some row =>
            (Ok (mkResponse [dict_update row fields]),
             with_sessions (insert sid (dict_update row fields)) w')
        | None => (Ok (mkResponse []), w')
        end
    end.

(** The columns a select keeps; [None] stands for ["*"]. *)
Definition key_in (k : key) (cols : list string) : bool :=
  match k with KStr s => bool_decide (s ∈ cols) | _ => false end.

Definition project (columns : option (list string)) (row : dict) : dict :=
  match columns with
  | None => row
  | Some cols => filter (fun kv => key_in (fst kv) cols) row
  end.

(** [....select(columns).eq("session_id", sid).single().execute()]: the
    data of the response are the record, or nothing. The source
    provides for both ways a lookup without a matching row can end: the
    call raises (the reply [DbRaises], which is what the client's
    single() does), or it returns a response without data. *)
Definition db_select_one (columns : option (list string)) (sid : string)
  : M (db_response (option dict)) :=
  fun w =>
    let w' := log_db (DbSelectOne columns sid) w in
    match db_reply_at (length (db_log w)) with
    | DbRaises e => (Raise e, w')
    | DbRefuses => (Ok (mkResponse None), w')
    | DbAnswers => (Ok (mkResponse (project columns <$> sessions w !! sid)), w')
    end.

(** [....select(columns).order("created_at", desc=True).execute()]. The
    column created_at is the database's; the model returns the rows in
    the order of the table's keys. *)
Definition db_select_all (columns : list string) : M (db_response (list dict)) :=
  fun w =>
    let w' := log_db (DbSelectAll columns) w in
    match db_reply_at (length (db_log w)) with
    | DbRaises e => (Raise e, w')
    | DbRefuses => (Ok (mkResponse []), w')
    | DbAnswers =>
        (Ok (mkResponse (project (Some columns) <$> (map_to_list (sessions w)).*2)), w')
    end.

(** [supabase_client.storage.from_(bucket).download(path)]: the bytes, or
    nothing. *)
Definition storage_download (bucket path : string) : M (option string) :=
  fun w =>
    let w' := log_storage (Download bucket path) w in
    match storage_reply_at (length (storage_log w)) with
    | StRaises e => (Raise e, w')
    | StRefuses _ => (Ok None, w')
    | StDone _ => (Ok (blobs w !! (bucket, path)), w')
    end.

(** [supabase_client.storage.from_(bucket).upload(path, bytes, options)]:
    the client's response object. *)
Definition storage_upload (bucket path bytes : string) : M value :=
  fun w =>
    let w' := log_storage (Upload bucket path bytes) w in
    match storage_reply_at (length (storage_log w)) with
    | StRaises e => (Raise e, w')
    | StRefuses res => (Ok res, w')
    | StDone res => (Ok res, with_blobs (insert (bucket, path) bytes) w')
    end.

End Services.

(* ===================================================================== *)
(** ** The pipeline state                                                  *)
(* ===================================================================== *)

(** AgentState *)
Record AgentState := mkState {
  data : list value;
  loaded_data : list value;
  dataframe : option DataFrame;
  analysis : string;
  response : string;
  tags : list string;
  structured_insights : list value;
  error : option string;
  session_id : option string
}.

(** A node returns a dictionary of the fields it writes, in the order it
    lists them. *)
Inductive field_update :=
| U_loaded_data (v : list value)
| U_dataframe (v : option DataFrame)
| U_analysis (v : string)
| U_response (v : string)
| U_tags (v : list string)
| U_structured_insights (v : list value)
| U_error (v : option string)
| U_session_id (v : option string).

Definition update := list field_update.

Definition apply_field (st : AgentState) (u : field_update) : AgentState :=
  match u with
  | U_loaded_data v =>
      mkState (data st) v (dataframe st) (analysis st) (response st) (tags st)
        (structured_insights st) (error st) (session_id st)
  | U_dataframe v =>
      mkState (data st) (loaded_data st) v (analysis st) (response st) (tags st)
        (structured_insights st) (error st) (session_id st)
  | U_analysis v =>
      mkState (data st) (loaded_data st) (dataframe st) v (response st) (tags st)
        (structured_insights st) (error st) (session_id st)
  | U_response v =>
      mkState (data st) (loaded_data st) (dataframe st) (analysis st) v (tags st)
        (structured_insights st) (error st) (session_id st)
  | U_tags v =>
      mkState (data st) (loaded_data st) (dataframe st) (analysis st) (response st) v
        (structured_insights st) (error st) (session_id st)
  | U_structured_insights v =>
      mkState (data st) (loaded_data st) (dataframe st) (analysis st) (response st)
        (tags st) v (error st) (session_id st)
  | U_error v =>
      mkState (data st) (loaded_data st) (dataframe st) (analysis st) (response st)
        (tags st) (structured_insights st) v (session_id st)
  | U_session_id v =>
      mkState (data st) (loaded_data st) (dataframe st) (analysis st) (response st)
        (tags st) (structured_insights st) (error st) v
  end.

(** The graph writes a node's dictionary over the state. *)
Definition merge_update (st : AgentState) (upd : update) : AgentState :=
  fold_left apply_field upd st.

(** The initial state invoke_graph builds around the request's data. *)
Definition invoke_inputs (payload : list value) : AgentState :=
  mkState payload [] None "" "" [] [] None None.

(** [if session_id:] *)
Definition present (session_id : option string) : option string :=
  match session_id with
  | Some sid => if String.eqb sid "" then None else Some sid
  | None => None
  end.

Definition nl : string := String "010"%char EmptyString.

(** The prompt of analyze_data_node for one chunk. *)
Definition analyze_prompt (table_string : string) : string :=
  "
        You are an expert business data analyst. Analyze the following chunk of tabular business data and provide a clear, concise, and actionable summary for a non-technical business audience.

        DATA CHUNK:
        "
  +:+ table_string +:+
  "

        Structure your analysis using:
        - Key Trends
        - Notable Changes or Patterns
        - Possible Causes or Explanations
        - Actionable Insights & Recommendations

        Be specific. Use numbers or percentages where relevant. Avoid generic advice. Keep your summary under 200 words.
        ".

(** The prompt of categorize_insight_node. *)
Definition categorize_prompt (analysis_text : string) : string :=
  "
    Given the business analysis below, extract and return a concise list of high-level tags that represent the core insights.

    Analysis:
    " +:+ dq +:+ dq +:+ dq
  +:+ analysis_text +:+
  dq +:+ dq +:+ dq +:+ "

    STRICT INSTRUCTIONS:
    - Return ONLY a valid Python list of lowercase strings, nothing else.
    - List must contain at least 3 and no more than 10 unique tags.
    - Each tag must be in snake_case format.
    - NO explanations, comments, print statements, formatting, or additional text.
    - Example of an ideal response: [" +:+ dq +:+ "market_trends" +:+ dq +:+ ", " +:+ dq +:+ "profitability" +:+ dq +:+ ", " +:+ dq +:+ "customer_segmentation" +:+ dq +:+ "]
    ".

(** The prompt of parse_insights_node. *)
Definition insights_prompt (analysis : string) : string :=
  "Extract key business insights from this analysis and return them as a JSON object.

        Return only valid JSON in this exact format:
        {
        " +:+ dq +:+ "insights" +:+ dq +:+ ": [
            {
            " +:+ dq +:+ "label" +:+ dq +:+ ": " +:+ dq +:+ "Revenue Growth" +:+ dq +:+ ",
            " +:+ dq +:+ "value" +:+ dq +:+ ": " +:+ dq +:+ "$15,000" +:+ dq +:+ ",
            " +:+ dq +:+ "trend" +:+ dq +:+ ": " +:+ dq +:+ "up" +:+ dq +:+ ",
            " +:+ dq +:+ "context" +:+ dq +:+ ": " +:+ dq +:+ "last quarter" +:+ dq +:+ ",
            " +:+ dq +:+ "data" +:+ dq +:+ ": [
                {" +:+ dq +:+ "name" +:+ dq +:+ ": " +:+ dq +:+ "Q1" +:+ dq +:+ ", " +:+ dq +:+ "value" +:+ dq +:+ ": 5000},
                {" +:+ dq +:+ "name" +:+ dq +:+ ": " +:+ dq +:+ "Q2" +:+ dq +:+ ", " +:+ dq +:+ "value" +:+ dq +:+ ": 10000}
            ]
            }
        ]
        }

        Rules:
        - " +:+ dq +:+ "trend" +:+ dq +:+ " must be exactly " +:+ dq +:+ "up" +:+ dq +:+ ", " +:+ dq +:+ "down" +:+ dq +:+ ", or " +:+ dq +:+ "stable" +:+ dq +:+ "
        - " +:+ dq +:+ "data" +:+ dq +:+ " should contain 2-5 items with " +:+ dq +:+ "name" +:+ dq +:+ " (string) and " +:+ dq +:+ "value" +:+ dq +:+ " (number)
        - If no data breakdown exists, use empty array: []
        - Maximum 5 insights
        - Return only the JSON, no other text

        Analysis to extract from:
        "
  +:+ analysis.

(** [range(start, stop, step)] for a step of at least 1: at most [stop]
    numbers. *)
Fixpoint range_from (fuel i stop step : nat) : list nat :=
  match fuel with
  | 0 => []
  | S fuel' => if i <? stop then i :: range_from fuel' (i + step) stop step else []
  end.

Definition py_range (start stop step : nat) : list nat :=
  range_from stop start stop step.

(** [l[a:b]] for [0 <= a <= b] *)
Definition list_slice {A} (l : list A) (a b : nat) : list A := take (b - a) (drop a l).

(** timedelta(hours=h), in microseconds *)
Definition timedelta_hours (h : Z) : Z := (h * 3600 * 1000000)%Z.

Section Nodes.
Context `{Env}.

(* --------------------------------------------------------------------- *)
(** *** load_data_node                                                     *)
(* --------------------------------------------------------------------- *)

(** The test for a Supabase file input: one record of type
    "supabase_excel" with a path; the result is the path. *)
Definition supabase_file_input (input_data_payload : list value) : result (option value) :=
  match input_data_payload with
  | [VDict d] =>
      if eq_str (default VNone (dict_get "type" d)) "supabase_excel"
         && truthy (default VNone (dict_get "path" d))
      then Ok (dict_get "path" d)
      else Ok None
  | [_] => Raise (AttributeError "object has no attribute 'get'")
  | _ => Ok None
  end.

(** What the first half of load_data_node ends with: an early return, or
    the rows, the DataFrame and the description of the source. *)
Definition loaded := (list value * option DataFrame * string)%type.

Definition download_table (file_path_in_supabase : value) : M (update + loaded) :=
  try_except
    (let* response_bytes := storage_download "uploads" (str_of file_path_in_supabase) in
     match response_bytes with
     | Some (String c b) =>
         try_except
           (let* df := lift (read_excel (String c b)) in
            ret (inr (to_dict_records df, Some df,
                      "Supabase Storage: " +:+ str_of file_path_in_supabase)))
           (except_Exception (fun pandas_err =>
              ret (inl [U_error (Some ("ERROR: Pandas failed to read Excel bytes: "
                                       +:+ exn_str pandas_err))])))
     | _ =>
         ret (inl [U_error (Some ("ERROR: Supabase download returned empty or None for file: "
                     +:+ str_of file_path_in_supabase
                     +:+ ". Check file path and RLS policies (use Service Role Key)."))])
     end)
    (except_Exception (fun e =>
       ret (inl [U_error (Some ("CRITICAL ERROR: Exception during Supabase download or file processing: "
                                +:+ exn_str e +:+ nl +:+ format_exc e))]))).

Definition direct_table (input_data_payload : list value) : M (update + loaded) :=
  if forallb is_dict input_data_payload then
    try_except
      (let* df := lift (pd_DataFrame input_data_payload) in
       ret (inr (input_data_payload, Some df, "Directly provided data")))
      (except_Exception (fun e =>
         ret (inl [U_error (Some ("ERROR: Failed to create DataFrame from direct data: "
                                  +:+ exn_str e))])))
  else
    ret (inl [U_loaded_data []; U_dataframe None; U_session_id None;
              U_error (Some "ERROR: Input data format not recognized. Expected either a Supabase Excel path or a list of dictionaries (tabular data).")]).

(** The checks on the client's answer to the upload. *)
Definition check_upload (upload_res : value) : M unit :=
  match upload_res with
  | VDict d =>
      match dict_get "error" d with
      | Some err =>
          if truthy upload_res && truthy err then
            match err with
            | VDict e =>
                let* message := lift (dict_item "message" e) in
                raise (Exception ("Supabase Storage upload error: " +:+ str_of message))
            | _ => raise (TypeError "indices must be integers")
            end
          else if negb (truthy upload_res) then
            raise (Exception ("Supabase Storage upload returned empty/falsy response: "
                              +:+ str_of upload_res))
          else ret tt
      | None =>
          if negb (truthy upload_res) then
            raise (Exception ("Supabase Storage upload returned empty/falsy response: "
                              +:+ str_of upload_res))
          else ret tt
      end
  | _ =>
      if negb (truthy upload_res) then
        raise (Exception ("Supabase Storage upload returned empty/falsy response: "
                          +:+ str_of upload_res))
      else ret tt
  end.

(** The record load_data_node inserts. *)
Definition session_record (session_id original_source_description df_storage_path : string)
  (now : Z) : dict :=
  [ ("session_id", VStr session_id);
    ("original_file_path", VStr original_source_description);
    ("dataframe_storage_path", VStr df_storage_path);
    ("initial_analysis", VNone);
    ("expires_at", VStr (isoformat (now + timedelta_hours 24)%Z));
    ("chat_history", VList []) ].

(** The body of the try block of the session management: the new
    session id. The message of the last exception reads the response's
    [status_code], which it does not have. *)
Definition create_session (df_result : DataFrame) (original_source_description : string)
  : M string :=
  let* session_id := new_uuid in
  let* parquet := lift (to_parquet df_result) in
  let df_storage_path := "processed_data/" +:+ session_id +:+ ".parquet" in
  let* upload_res := storage_upload "processeddfs" df_storage_path parquet in
  let* _ := check_upload upload_res in
  let* now := datetime_now in
  let session_data :=
    session_record session_id original_source_description df_storage_path now in
  let* db_insert_res := db_insert session_data in
  match r_data db_insert_res with
  | [] => no_attribute "status_code"
  | _ => ret session_id
  end.

(** The first half of load_data_node: from the payload to the table. *)
Definition load_table (input_data_payload : list value) : M (update + loaded) :=
  let* file_path_in_supabase := lift (supabase_file_input input_data_payload) in
  match file_path_in_supabase with
  | Some path => download_table path
  | None => direct_table input_data_payload
  end.

Definition load_data_node (state : AgentState) : M update :=
  let input_data_payload := data state in
  match input_data_payload with
  | [] =>
      ret [U_loaded_data []; U_dataframe None; U_session_id None;
           U_error (Some "No input data provided.")]
  | _ =>
      let* table := load_table input_data_payload in
      match table with
      | inl early_return => ret early_return
      | inr (loaded_data_for_analysis, df_result, original_source_description) =>
          match df_result with
          | Some df =>
              if negb (df_empty df) then
                let* created :=
                  try_except
                    (let* session_id := create_session df original_source_description in
                     ret (inr session_id))
                    (except_Exception (fun e =>
                       ret (inl [U_error (Some ("ERROR: Failed during DataFrame serialization/storage or DB session creation: " +:+ exn_str e));
                                 U_loaded_data []; U_dataframe None; U_session_id None]))) in
                match created with
                | inl failure => ret failure
                | inr session_id =>
                    ret [U_loaded_data loaded_data_for_analysis; U_dataframe df_result;
                         U_session_id (Some session_id); U_error None]
                end
              else
                ret [U_error (Some "ERROR: No data loaded or DataFrame is empty after processing. Cannot create session.");
                     U_loaded_data []; U_dataframe None; U_session_id None]
          | None =>
              ret [U_error (Some "ERROR: No data loaded or DataFrame is empty after processing. Cannot create session.");
                   U_loaded_data []; U_dataframe None; U_session_id None]
          end
      end
  end.

(* --------------------------------------------------------------------- *)
(** *** analyze_data_node                                                  *)
(* --------------------------------------------------------------------- *)

Definition CHUNK_SIZE : nat := 100.

(** [sep.join(items)] asks every item to be a string: the names of the
    items, or the TypeError for the first that is none. *)
Fixpoint str_items (i : nat) (items : list key) : result (list string) :=
  match items with
  | [] => Ok []
  | KStr s :: rest =>
      match str_items (S i) rest with
      | Ok names => Ok (s :: names)
      | Raise e => Raise e
      end
  | k :: _ =>
      Raise (TypeError ("sequence item " +:+ PyStr.of_nat i +:+ ": expected str instance, "
                        +:+ key_type_name k +:+ " found"))
  end.

(** One line of the table: the fields of the row under the headers, a
    missing one as the empty string. *)
Definition row_str (headers : list string) (row : dict) : string :=
  PyStr.join ", " (map (fun h => str_of (default (VStr "") (dict_get h row))) headers).

(** The header line, then one line per row that is a dictionary. *)
Definition table_rows (headers : list string) (chunk : list value) : list string :=
  PyStr.join ", " headers ::
  omap (fun row => match row with
                   | VDict d => Some (row_str headers d)
                   | _ => None
                   end) chunk.

Definition table_string (headers : list string) (chunk : list value) : string :=
  PyStr.join nl (table_rows headers chunk).

(** The loop over [enumerate(chunks)], from position [index] on. The
    first line of the body joins the headers, outside the try block of
    the request: a header that is no string ends the stage there. Past
    it the headers are strings. *)
Fixpoint analyze_chunks (headers : list key) (index : nat) (chunks : list (list value))
  (combined_analysis : list string) : M (list string) :=
  match chunks with
  | [] => ret combined_analysis
  | chunk :: rest =>
      let* names := lift (str_items 0 headers) in
      let prompt := analyze_prompt (table_string names chunk) in
      let* combined_analysis :=
        try_except
          (let* chunk_analysis := llm_ainvoke [HumanMessage prompt] in
           ret (combined_analysis ++
                ["Chunk " +:+ PyStr.of_nat (index + 1) +:+ " Summary:" +:+ nl
                 +:+ chunk_analysis +:+ nl]))
          (except_Exception (fun e =>
             let error_msg :=
               "Error processing chunk " +:+ PyStr.of_nat (index + 1) +:+ ": " +:+ exn_str e in
             let* _ := print error_msg in
             ret (combined_analysis ++
                  ["Chunk " +:+ PyStr.of_nat (index + 1) +:+ " Error: " +:+ error_msg +:+ nl]))) in
      analyze_chunks headers (S index) rest combined_analysis
  end.

Definition analyze_data_node (state : AgentState) : M update :=
  let data := loaded_data state in
  match data with
  | [] => ret [U_analysis "No data provided for analysis."]
  | first :: _ =>
      (* the debugging line prints list(data[0].keys()) *)
      let* _ :=
        match first with
        | VDict _ => ret tt
        | _ => raise (AttributeError ("'" +:+ type_name first
                                      +:+ "' object has no attribute 'keys'"))
        end in
      let headers := match first with VDict d => dict_keys d | _ => [] end in
      match headers with
      | [] => ret [U_analysis "Data loaded, but could not extract headers for initial analysis."]
      | _ =>
          let chunks :=
            map (fun i => list_slice data i (i + CHUNK_SIZE))
                (py_range 0 (length data) CHUNK_SIZE) in
          let* combined_analysis := analyze_chunks headers 0 chunks [] in
          let full_analysis := PyStr.join (nl +:+ nl) combined_analysis in
          let* _ :=
            match present (session_id state) with
            | Some sid =>
                try_except
                  (let* db_update_res :=
                     db_update sid [("initial_analysis", VStr full_analysis)] in
                   match r_data db_update_res with
                   | [] => raise (Exception ("Failed to update initial analysis for session "
                                             +:+ sid +:+ ": []"))
                   | _ => ret tt
                   end)
                  (except_Exception (fun e =>
                     print ("ERROR: Could not update initial analysis in database: "
                            +:+ exn_str e)))
            | None => ret tt
            end in
          ret [U_analysis full_analysis]
      end
  end.

(* --------------------------------------------------------------------- *)
(** *** categorize_insight_node                                            *)
(* --------------------------------------------------------------------- *)

(** r'\[(.*?)\]' *)
Definition list_pattern : regex := [RLit "["; ROpen; RLazy CDot; RClose; RLit "]"].

(** [[str(item).strip() for item in parsed_list
      if isinstance(item, str) and item.strip()]] *)
Definition clean_tags (parsed_list : list value) : list string :=
  omap (fun item =>
          match item with
          | VStr s => if String.eqb (PyStr.strip s) "" then None else Some (PyStr.strip s)
          | _ => None
          end) parsed_list.

(** [except (ValueError, SyntaxError)]; a JSONDecodeError is a ValueError. *)
Definition except_ValueError_SyntaxError {A} (h : exn -> M A) : exn -> option (M A) :=
  fun e => match e with
           | ValueError _ | SyntaxError _ | JSONDecodeError _ => Some (h e)
           | _ => None
           end.

Definition categorize_insight_node (state : AgentState) : M update :=
  let analysis_text := analysis state in
  if String.eqb analysis_text "" then ret [U_tags []]
  else
    try_except
      (let* output_text := llm_ainvoke [HumanMessage (categorize_prompt analysis_text)] in
       match Re.search re_DOTALL list_pattern output_text with
       | None => ret [U_tags []]
       | Some m =>
           let list_str := group0 output_text m in
           try_except
             (let* parsed_list := lift (literal_eval list_str) in
              match parsed_list with
              | VList items => ret [U_tags (clean_tags items)]
              | _ => ret [U_tags []]
              end)
             (except_ValueError_SyntaxError (fun e => ret [U_tags []]))
       end)
      (except_Exception (fun e => ret [U_tags []])).

(* --------------------------------------------------------------------- *)
(** *** parse_insights_node                                                *)
(* --------------------------------------------------------------------- *)

Definition required_fields : list string := ["label"; "value"; "trend"; "context"; "data"].

(** One turn of the validation loop: [None] when the item is skipped,
    the item as appended to validated_insights otherwise. The item is
    changed in place: [insight["trend"] = "stable"], [insight["data"] = []]. *)
Definition validate_insight (insight : value) : option value :=
  match insight with
  | VDict d =>
      if forallb (fun field => dict_has field d) required_fields then
        let d1 :=
          match dict_get "trend" d with
          | Some trend =>
              if in_strs trend ["up"; "down"; "stable"] then d
              else dict_set "trend" (VStr "stable") d
          | None => d
          end in
        let d2 :=
          match dict_get "data" d1 with
          | Some points => if is_list points then d1 else dict_set "data" (VList []) d1
          | None => d1
          end in
        Some (VDict d2)
      else None
  | _ => None
  end.

(** The loop [for i, insight in enumerate(insights)]. *)
Fixpoint validate_loop (insights : list value) (validated_insights : list value)
  : list value :=
  match insights with
  | [] => validated_insights
  | insight :: rest =>
      match validate_insight insight with
      | Some ok => validate_loop rest (validated_insights ++ [ok])
      | None => validate_loop rest validated_insights
      end
  end.

(** From the extracted JSON text to final_insights. *)
Definition insights_of_json (json_str : string) : M (list value) :=
  if String.eqb json_str "" then ret []
  else
    let* data := lift (json_loads json_str) in
    match data with
    | VDict d =>
        match dict_get "insights" d with
        | Some (VList insights) => ret (validate_loop insights [])
        | Some _ => ret []
        | None => ret []
        end
    | _ => ret []
    end.

(** The update on the error paths: the response is not looked at. *)
Definition save_empty_insights (session_id : option string) (final_insights : list value)
  (complaint : string) : M unit :=
  match present session_id with
  | Some sid =>
      try_except
        (let* _ := db_update sid [("categorized_insights", VList final_insights)] in
         ret tt)
        (except_Exception (fun e =>
           print ("ERROR: Failed to update session " +:+ sid +:+ complaint +:+ exn_str e)))
  | None => ret tt
  end.

(** The update on the main path. *)
Definition save_insights (session_id : option string) (final_insights : list value)
  : M unit :=
  match present session_id with
  | Some sid =>
      try_except
        (let* update_res := db_update sid [("categorized_insights", VList final_insights)] in
         match r_data update_res with
         | [] => no_attribute "error"   (* the line printed reads update_res.error *)
         | _ => ret tt
         end)
        (except_Exception (fun e =>
           print ("ERROR: Could not update categorized_insights in database: "
                  +:+ exn_str e)))
  | None => ret tt
  end.

Definition parse_insights_node (state : AgentState) : M update :=
  let analysis := analysis state in
  let session_id := session_id state in
  if String.eqb analysis "" then
    let* _ := save_empty_insights session_id [] " with empty insights: " in
    ret [U_structured_insights []]
  else
    try_except
      (let* resp := llm_ainvoke [HumanMessage (insights_prompt analysis)] in
       let content := PyStr.strip resp in
       let json_str := extract_json_from_text content in
       let* final_insights := insights_of_json json_str in
       let* _ := save_insights session_id final_insights in
       ret [U_structured_insights final_insights])
      (fun e =>
         match e with
         | JSONDecodeError _ =>
             Some (let* _ := save_empty_insights session_id []
                               " with empty insights after JSON error: " in
                   ret [U_structured_insights []])
         | _ =>
             Some (let* _ := save_empty_insights session_id []
                               " with empty insights after general error: " in
                   ret [U_structured_insights []])
         end).

(* --------------------------------------------------------------------- *)
(** *** respond_node, the graph                                            *)
(* --------------------------------------------------------------------- *)

Definition respond_node (state : AgentState) : M update :=
  ret [U_response (analysis state)].

(** graph.ainvoke: load_data, analyze_data, categorize_insight,
    parse_insights, respond, each node's dictionary written over the
    state. *)
Definition run_node (node : AgentState -> M update) (state : AgentState) : M AgentState :=
  let* upd := node state in ret (merge_update state upd).

Definition graph_ainvoke (inputs : AgentState) : M AgentState :=
  let* s1 := run_node load_data_node inputs in
  let* s2 := run_node analyze_data_node s1 in
  let* s3 := run_node categorize_insight_node s2 in
  let* s4 := run_node parse_insights_node s3 in
  run_node respond_node s4.

(* --------------------------------------------------------------------- *)
(** *** chat_with_insight                                                  *)
(* --------------------------------------------------------------------- *)

Record ChatRequest := mkChatRequest {
  req_session_id : string;
  req_question : string;
  req_history : list value
}.

(** What the first try block leaves in current_df,
    initial_analysis_context and existing_db_history. *)
Definition chat_context := (option DataFrame * value * value)%type.

Definition fetch_chat_context (session_id : string) : M chat_context :=
  try_except
    (let* db_fetch_res := db_select_one None session_id in
     match r_data db_fetch_res with
     | Some ((k, v) :: row) =>
         let session_data := (k, v) :: row in
         let* df_storage_path := lift (dict_item "dataframe_storage_path" session_data) in
         let initial_analysis_context :=
           default (VStr "") (dict_get "initial_analysis" session_data) in
         let existing_db_history :=
           default (VList []) (dict_get "chat_history" session_data) in
         let* df_bytes := storage_download "processeddfs" (str_of df_storage_path) in
         match df_bytes with
         | Some (String c b) =>
             let* current_df := lift (read_parquet (String c b)) in
             ret (Some current_df, initial_analysis_context, existing_db_history)
         | _ =>
             raise (HTTPException 500
                      ("Failed to retrieve DataFrame from storage for session "
                       +:+ session_id +:+ "."))
         end
     | _ =>
         raise (HTTPException 404 ("Session " +:+ session_id +:+ " not found or expired."))
     end)
    (fun e =>
       match e with
       | HTTPException _ _ => Some (raise e)
       | _ => Some (raise (HTTPException 500
                             ("Error retrieving session context: " +:+ exn_str e)))
       end).

(** One stored turn as a message of the agent's memory; a turn of
    another role adds nothing. *)
Definition history_message (msg : value) : result (option message) :=
  match msg with
  | VDict d =>
      match dict_item "role" d with
      | Raise e => Raise e
      | Ok role =>
          if eq_str role "user" then
            match dict_item "content" d with
            | Ok content =>
                if is_content content then Ok (Some (HumanMessage content))
                else Raise (ValueError "validation error for HumanMessage")
            | Raise e => Raise e
            end
          else if eq_str role "assistant" then
            match dict_item "content" d with
            | Ok content =>
                if is_content content then Ok (Some (AIMessage content))
                else Raise (ValueError "validation error for AIMessage")
            | Raise e => Raise e
            end
          else Ok None
      end
  | _ => Raise (TypeError "indices must be integers")
  end.

Fixpoint history_messages (turns : list value) : result (list message) :=
  match turns with
  | [] => Ok []
  | msg :: rest =>
      match history_message msg with
      | Raise e => Raise e
      | Ok m =>
          match history_messages rest with
          | Raise e => Raise e
          | Ok ms => Ok (match m with Some x => x :: ms | None => ms end)
          end
      end
  end.

(** [for msg in existing_db_history: ...] *)
Definition iterate_history (existing_db_history : value) : result (list message) :=
  match existing_db_history with
  | VList turns => history_messages turns
  | VStr EmptyString => Ok []
  | VDict [] => Ok []
  | VStr _ => Raise (TypeError "string indices must be integers")
  | VDict ((k, _) :: _) =>
      if key_is_str k then Raise (TypeError "string indices must be integers")
      else Raise (TypeError ("'" +:+ key_type_name k +:+ "' object is not subscriptable"))
  | _ => Raise (TypeError "object is not iterable")
  end.

(** [existing_db_history + [...]] *)
Definition history_plus (existing_db_history : value) (turns : list value) : result value :=
  match existing_db_history with
  | VList old => Ok (VList (old ++ turns))
  | _ => Raise (TypeError "unsupported operand type(s) for +")
  end.

Definition chat_turn (role content : string) : value :=
  VDict [("role", VStr role); ("content", VStr content)].

(** The second try block: the answer. The agent is given the DataFrame,
    the memory and the question; its fixed instructions (the prefix) and
    its iteration cap are the agent's own. *)
Definition answer_question (session_id user_question : string) (current_df : DataFrame)
  (initial_analysis_context existing_db_history : value) : M string :=
  try_except
    (let context_messages :=
       if truthy initial_analysis_context
       then [SystemMessage ("Initial Data Analysis: " +:+ str_of initial_analysis_context)]
       else [] in
     let* history := lift (iterate_history existing_db_history) in
     let messages_for_memory := context_messages ++ history in
     let* output := agent_ainvoke current_df messages_for_memory user_question in
     let response_content :=
       default "I could not process your request with the available data or found no relevant information."
               output in
     let* updated_db_history :=
       lift (history_plus existing_db_history
               [chat_turn "user" user_question; chat_turn "assistant" response_content]) in
     let* update_res := db_update session_id [("chat_history", updated_db_history)] in
     let* _ :=
       match r_data update_res with
       | [] => no_attribute "error"   (* the line printed reads update_res.error *)
       | _ => print ("DEBUG: Chat history for session " +:+ session_id
                     +:+ " updated successfully in DB.")
       end in
     ret response_content)
    (except_Exception (fun e =>
       let* _ := print ("Error during Pandas Agent chat: " +:+ exn_str e) in
       raise (HTTPException 500 ("Error processing chat question: " +:+ exn_str e)))).

(** The fallback on the globals of the last invocation, taken when
    current_df is None after the first block. *)
Definition global_fallback (session_id : string) : M (DataFrame * value) :=
  fun w =>
    match global_last_processed_df w with
    | Some df =>
        if bool_decide (Some session_id = global_current_session_id w)
        then (Ok (df, VStr (global_last_processed_analysis w)),
              log_console "DEBUG: Using global DataFrame for chat (development mode)." w)
        else (Raise (HTTPException 400 "No data context available for chat. Please upload and invoke analysis first via /invoke."), w)
    | None =>
        (Raise (HTTPException 400 "No data context available for chat. Please upload and invoke analysis first via /invoke."), w)
    end.

Definition chat_with_insight (payload : ChatRequest) : M string :=
  let session_id := req_session_id payload in
  let user_question := req_question payload in
  let* ctx := fetch_chat_context session_id in
  let '(current_df, initial_analysis_context, existing_db_history) := ctx in
  let* grounded :=
    match current_df with
    | None => global_fallback session_id
    | Some df => ret (df, initial_analysis_context)
    end in
  answer_question session_id user_question (fst grounded) (snd grounded)
    existing_db_history.

(* --------------------------------------------------------------------- *)
(** *** get_session_data, get_all_sessions                                 *)
(* --------------------------------------------------------------------- *)

(** SessionDataResponse, as built: the five fields hold what the handler
    passes, and the constructor checks them against the declared types
    (str, str, Optional[str], List[Dict[str, str]], List[Dict[str, Any]]).
    The dictionaries that reach it come from JSON columns of the store,
    so the check looks at their values only. *)
Record SessionDataResponse := mkSessionDataResponse {
  sdr_session_id : value;
  sdr_dataframe_storage_path : value;
  sdr_initial_analysis : value;
  sdr_chat_history : value;
  sdr_categorized_insights : value
}.

Definition is_optional_str (v : value) : bool :=
  match v with VNone | VStr _ => true | _ => false end.

Definition is_list_of (p : value -> bool) (v : value) : bool :=
  match v with VList l => forallb p l | _ => false end.

Definition is_dict_of_str (v : value) : bool :=
  match v with VDict d => forallb (fun kv => is_str (snd kv)) d | _ => false end.

Definition new_SessionDataResponse
  (session_id dataframe_storage_path initial_analysis chat_history categorized_insights : value)
  : result SessionDataResponse :=
  if is_str session_id && is_str dataframe_storage_path
     && is_optional_str initial_analysis
     && is_list_of is_dict_of_str chat_history
     && is_list_of is_dict categorized_insights
  then Ok (mkSessionDataResponse session_id dataframe_storage_path initial_analysis
             chat_history categorized_insights)
  else Raise (ValueError "validation error for SessionDataResponse").

Definition session_columns : list string :=
  ["session_id"; "dataframe_storage_path"; "initial_analysis"; "chat_history";
   "categorized_insights"].

Definition get_session_data (session_id : string) : M SessionDataResponse :=
  try_except
    (let* db_fetch_res := db_select_one (Some session_columns) session_id in
     match r_data db_fetch_res with
     | Some ((k, v) :: row) =>
         let session_data := (k, v) :: row in
         let chat_history_from_db :=
           default (VList []) (dict_get "chat_history" session_data) in
         let* chat_history_from_db :=
           if is_list chat_history_from_db then ret chat_history_from_db
           else
             let* _ := print ("WARNING: chat_history for session " +:+ session_id
                              +:+ " is not a list. Returning empty list.") in
             ret (VList []) in
         let categorized_insights_from_db :=
           default (VList []) (dict_get "categorized_insights" session_data) in
         let* categorized_insights_from_db :=
           if is_list categorized_insights_from_db then ret categorized_insights_from_db
           else
             let* _ := print ("WARNING: categorized_insights for session " +:+ session_id
                              +:+ " is not a list. Returning empty list.") in
             ret (VList []) in
         let* sid := lift (dict_item "session_id" session_data) in
         let* path := lift (dict_item "dataframe_storage_path" session_data) in
         lift (new_SessionDataResponse sid path
                 (default VNone (dict_get "initial_analysis" session_data))
                 chat_history_from_db categorized_insights_from_db)
     | _ => raise (HTTPException 404 ("Session " +:+ session_id +:+ " not found."))
     end)
    (except_Exception (fun e =>
       let* _ := print ("ERROR: Failed to fetch session data for " +:+ session_id
                        +:+ ": " +:+ exn_str e) in
       raise (HTTPException 500 ("Error fetching session data: " +:+ exn_str e)))).

Definition all_session_columns : list string :=
  ["session_id"; "original_file_path"; "created_at"; "initial_analysis";
   "categorized_insights"; "chat_history"; "dataframe_storage_path"].

(** One turn of the loop of get_all_sessions. *)
Definition session_response (session_data_raw : dict) : result SessionDataResponse :=
  let chat_history := default (VList []) (dict_get "chat_history" session_data_raw) in
  let chat_history := if is_list chat_history then chat_history else VList [] in
  let categorized_insights :=
    default (VList []) (dict_get "categorized_insights" session_data_raw) in
  let categorized_insights :=
    if is_list categorized_insights then categorized_insights else VList [] in
  match dict_item "session_id" session_data_raw with
  | Raise e => Raise e
  | Ok sid =>
      new_SessionDataResponse sid
        (default (VStr "") (dict_get "dataframe_storage_path" session_data_raw))
        (default (VStr "") (dict_get "initial_analysis" session_data_raw))
        chat_history categorized_insights
  end.

Fixpoint session_responses (rows : list dict) (all_sessions : list SessionDataResponse)
  : result (list SessionDataResponse) :=
  match rows with
  | [] => Ok all_sessions
  | session_data_raw :: rest =>
      match session_response session_data_raw with
      | Raise e => Raise e
      | Ok r => session_responses rest (all_sessions ++ [r])
      end
  end.

Definition get_all_sessions : M (list SessionDataResponse) :=
  try_except
    (let* db_fetch_res := db_select_all all_session_columns in
     match r_data db_fetch_res with
     | [] => ret []
     | rows => lift (session_responses rows [])
     end)
    (except_Exception (fun e =>
       let* _ := print ("ERROR: Failed to fetch all sessions: " +:+ exn_str e) in
       raise (HTTPException 500 ("Error fetching all sessions: " +:+ exn_str e)))).

(* --------------------------------------------------------------------- *)
(** *** invoke_graph                                                       *)
(* --------------------------------------------------------------------- *)

(** InvokeResponse, as built. The state's analysis, tags, response,
    error and session id have their declared types already; the
    constructor checks the insights against List[Dict[str, Any]]. *)
Record InvokeResponse := mkInvokeResponse {
  ir_session_id : option string;
  ir_analysis : string;
  ir_insights : list value;
  ir_tags : list string;
  ir_response : string;
  ir_error : option string
}.

Definition new_InvokeResponse (session_id : option string) (analysis : string)
  (insights : list value) (tags : list string) (response : string) (error : option string)
  : result InvokeResponse :=
  if forallb is_dict insights
  then Ok (mkInvokeResponse session_id analysis insights tags response error)
  else Raise (ValueError "validation error for InvokeResponse").

(** [f"{session_id}"] for an Optional[str] *)
Definition optional_str (session_id : option string) : string :=
  match session_id with Some s => s | None => "None" end.

Definition invoke_graph (payload_data : list value) : M InvokeResponse :=
  try_except
    (let inputs := invoke_inputs payload_data in
     let* final_state := graph_ainvoke inputs in
     let* _ :=
       match dataframe final_state with
       | Some df =>
           let* _ := set_globals (Some df) (analysis final_state) (session_id final_state) in
           print ("DEBUG: Stored last processed DF, analysis, and session ID: "
                  +:+ optional_str (session_id final_state)
                  +:+ " in globals for dev testing.")
       | None => ret tt
       end in
     let session_id_returned := session_id final_state in
     lift (new_InvokeResponse session_id_returned (analysis final_state)
             (structured_insights final_state) (tags final_state)
             (response final_state) (error final_state)))
    (except_Exception (fun e =>
       let* _ := print ("Unhandled error during graph invocation: " +:+ exn_str e
                        +:+ nl +:+ format_exc e) in
       raise (HTTPException 500 ("Internal Server Error: " +:+ exn_str e)))).

End Nodes.

(* ===================================================================== *)
(** ** Concrete environments                                               *)
(* ===================================================================== *)

(** Enough of the libraries and services to run the handlers on sample
    inputs. *)
Module Sample.

(** [str(v)] for None, booleans and integers. *)
Definition scalar_str (v : value) : string :=
  match v with
  | VNone => "None"
  | VBool true => "True"
  | VBool false => "False"
  | VInt n => NilEmpty.string_of_int (Z.to_int n)
  | _ => "<object>"
  end.

(** A column label as the Parquet writer names the column. *)
Definition label_str (k : key) : string :=
  match k with
  | KStr s => s
  | KInt n => NilEmpty.string_of_int (Z.to_int n)
  | KBool true => "True"
  | KBool false => "False"
  | KNone => "None"
  | _ => "<object>"
  end.

(** The text of a double-quoted literal without escapes, and what
    follows its closing quote; [s] starts after the opening quote. *)
Fixpoint read_quoted (s : string) : option (string * string) :=
  match s with
  | EmptyString => None
  | String c s' =>
      if Ascii.eqb c "034"%char then Some ("", s')
      else if Ascii.eqb c "\"%char then None
      else match read_quoted s' with
           | Some (body, rest) => Some (String c body, rest)
           | None => None
           end
  end.

(** The items of a list display, [s] starting after the bracket or a
    comma. *)
Fixpoint read_items (fuel : nat) (s : string) : option (list value) :=
  match fuel with
  | 0 => None
  | S fuel' =>
      match PyStr.lstrip s with
      | String q s1 =>
          if Ascii.eqb q "034"%char then
            match read_quoted s1 with
            | Some (body, rest) =>
                match PyStr.lstrip rest with
                | String sep rest' =>
                    if Ascii.eqb sep ","%char then
                      match read_items fuel' rest' with
                      | Some items => Some (VStr body :: items)
                      | None => None
                      end
                    else if Ascii.eqb sep "]"%char then
                      match PyStr.lstrip rest' with
                      | EmptyString => Some [VStr body]
                      | _ => None
                      end
                    else None
                | EmptyString => None
                end
            | None => None
            end
          else None
      | EmptyString => None
      end
  end.

(** ast.literal_eval on a list display of plain double-quoted strings,
    the form the tag prompt asks for. Other expressions are not in this
    environment's reach and count as syntax errors. *)
Definition literal_eval_strings (s : string) : result value :=
  match PyStr.strip s with
  | String open rest =>
      if Ascii.eqb open "["%char then
        match PyStr.lstrip rest with
        | String close EmptyString =>
            if Ascii.eqb close "]"%char then Ok (VList [])
            else Raise (SyntaxError "invalid syntax")
        | _ =>
            match read_items (String.length rest) rest with
            | Some items => Ok (VList items)
            | None => Raise (SyntaxError "invalid syntax")
            end
        end
      else Raise (SyntaxError "invalid syntax")
  | EmptyString => Raise (SyntaxError "invalid syntax")
  end.

(** The columns of pd.DataFrame(records): the keys in order of first
    appearance. *)
Definition columns_of (records : list value) : list key :=
  fold_left
    (fun cols r =>
       match r with
       | VDict d =>
           fold_left (fun cs k => if bool_decide (k ∈ cs) then cs else cs ++ [k])
                     (dict_keys d) cols
       | _ => cols
       end) records [].

Definition frame_of (records : list value) : DataFrame :=
  let cols := columns_of records in
  mkDataFrame cols
    (map (fun r => match r with
                   | VDict d =>
                       map (fun c => default (VFloat FNaN)
                                       (snd <$> find (fun kv => bool_decide (fst kv = c)) d))
                           cols
                   | _ => []
                   end) records).

(** Scenario A of the specification: two months of revenue. *)
Definition revenue_rows : list value :=
  [ VDict [("month", VStr "Jan"); ("revenue", VInt 100)];
    VDict [("month", VStr "Feb"); ("revenue", VInt 150)] ].

(** Scenario C of the specification: two insights, the second with the
    trend "sideways". *)
Definition growth_insight : value :=
  VDict [("label", VStr "Revenue Growth"); ("value", VStr "$150"); ("trend", VStr "up");
         ("context", VStr "last month");
         ("data", VList [VDict [("name", VStr "Jan"); ("value", VInt 100)];
                         VDict [("name", VStr "Feb"); ("value", VInt 150)]])].

Definition sideways_insight : value :=
  VDict [("label", VStr "Margin"); ("value", VStr "12%"); ("trend", VStr "sideways");
         ("context", VStr "last month"); ("data", VStr "n/a")].

Definition insights_reply : string := "{" +:+ dq +:+ "insights" +:+ dq +:+ ": [two items]}".

Definition eleven_tags : string :=
  "[" +:+ dq +:+ "a" +:+ dq +:+ ", " +:+ dq +:+ "b" +:+ dq +:+ ", " +:+ dq +:+ "c" +:+ dq
  +:+ ", " +:+ dq +:+ "d" +:+ dq +:+ ", " +:+ dq +:+ "e" +:+ dq +:+ ", " +:+ dq +:+ "f" +:+ dq
  +:+ ", " +:+ dq +:+ "g" +:+ dq +:+ ", " +:+ dq +:+ "h" +:+ dq +:+ ", " +:+ dq +:+ "i" +:+ dq
  +:+ ", " +:+ dq +:+ "j" +:+ dq +:+ ", " +:+ dq +:+ "k" +:+ dq +:+ "]".

(** An environment in which every collaborator works: the model answers
    [reply] to every request, the agent answers "42", the store and the
    storage carry every call out. *)
Definition env_with (reply : string) (db : nat -> db_reply) : Env := {|
  py_str := scalar_str;
  format_exc := fun e => "Traceback (most recent call last): " +:+ exn_str e;
  json_loads := fun s =>
    if String.eqb s insights_reply
    then Ok (VDict [("insights", VList [growth_insight; sideways_insight])])
    else Raise (JSONDecodeError "Expecting value");
  literal_eval := literal_eval_strings;
  read_excel := fun _ => Raise (ValueError "Excel file format cannot be determined");
  pd_DataFrame := fun records => Ok (frame_of records);
  to_parquet := fun df => Ok ("PAR1" +:+ PyStr.join "," (map label_str (df_columns df)));
  read_parquet := fun b =>
    if String.prefix "PAR1" b then Ok (frame_of revenue_rows)
    else Raise (ValueError "not a parquet file");
  isoformat := fun t => NilEmpty.string_of_int (Z.to_int t);
  llm_reply := fun _ _ => Ok reply;
  agent_reply := fun _ _ _ _ => Ok (Some "42");
  db_reply_at := db;
  storage_reply_at := fun _ => StDone (VBool true);
  uuid4 := fun k => "session-" +:+ PyStr.of_nat k;
  clock := fun k => (1700000000000000 + Z.of_nat k)%Z
|}.

Definition env : Env := env_with "Revenue grew by 50% from Jan to Feb." (fun _ => DbAnswers).

(** The model answers with eleven tags. *)
Definition env_eleven_tags : Env := env_with eleven_tags (fun _ => DbAnswers).

(** The model answers with the two insights of scenario C. *)
Definition env_insights : Env := env_with insights_reply (fun _ => DbAnswers).

(** The store answers its first call and raises on the second. *)
Definition env_update_raises : Env :=
  env_with "Revenue grew by 50% from Jan to Feb."
    (fun k => match k with
              | 1 => DbRaises (Exception "connection reset")
              | _ => DbAnswers
              end).

(** The store refuses every call: its responses carry no data. *)
Definition env_store_refuses : Env :=
  env_with "Revenue grew by 50% from Jan to Feb." (fun _ => DbRefuses).

(** The store answers its first call and answers the second without
    data. *)
Definition env_update_refused : Env :=
  env_with "Revenue grew by 50% from Jan to Feb."
    (fun k => match k with
              | 1 => DbRefuses
              | _ => DbAnswers
              end).

(** The store's client raises on the first call, as the lookup of one
    record does when no row matches. *)
Definition env_lookup_raises : Env :=
  env_with "Revenue grew by 50% from Jan to Feb."
    (fun k => match k with
              | 0 => DbRaises (Exception "JSON object requested, multiple (or no) rows returned")
              | _ => DbAnswers
              end).

(** A spreadsheet whose header cells are the numbers 2021 and 2022, and
    its one row. *)
Definition year_frame : DataFrame :=
  mkDataFrame [KInt 2021; KInt 2022] [[VInt 1; VInt 2]].

Definition year_rows : list value := [ VDict [(KInt 2021, VInt 1); (KInt 2022, VInt 2)] ].

(** Every upload reads as that spreadsheet. *)
Definition env_year_sheet : Env := {|
  py_str := scalar_str;
  format_exc := fun e => "Traceback (most recent call last): " +:+ exn_str e;
  json_loads := fun _ => Raise (JSONDecodeError "Expecting value");
  literal_eval := literal_eval_strings;
  read_excel := fun _ => Ok year_frame;
  pd_DataFrame := fun records => Ok (frame_of records);
  to_parquet := fun df => Ok ("PAR1" +:+ PyStr.join "," (map label_str (df_columns df)));
  read_parquet := fun _ => Ok year_frame;
  isoformat := fun t => NilEmpty.string_of_int (Z.to_int t);
  llm_reply := fun _ _ => Ok "Revenue doubled from 2021 to 2022.";
  agent_reply := fun _ _ _ _ => Ok (Some "42");
  db_reply_at := fun _ => DbAnswers;
  storage_reply_at := fun _ => StDone (VBool true);
  uuid4 := fun k => "session-" +:+ PyStr.of_nat k;
  clock := fun k => (1700000000000000 + Z.of_nat k)%Z
|}.

Definition year_sheet_payload : list value :=
  [ VDict [("type", VStr "supabase_excel"); ("path", VStr "years.xlsx")] ].

Definition world_with_upload : World :=
  mkWorld ∅ {[ ("uploads", "years.xlsx") := "PK-years" ]} [] [] [] [] 0 0 [] None "" None.

Definition year_state : AgentState :=
  mkState year_sheet_payload year_rows (Some year_frame) "" "" [] [] None (Some "session-0").

Definition empty_world : World :=
  mkWorld ∅ ∅ [] [] [] [] 0 0 [] None "" None.

(** A store that holds one session, and its table. *)
Definition stored_session : dict :=
  [ ("session_id", VStr "session-0");
    ("original_file_path", VStr "Directly provided data");
    ("dataframe_storage_path", VStr "processed_data/session-0.parquet");
    ("initial_analysis", VStr "Revenue grew by 50% from Jan to Feb.");
    ("expires_at", VStr "1700086400000000");
    ("chat_history", VList [VDict [("role", VStr "user"); ("content", VStr "Best month?")];
                            VDict [("role", VStr "assistant"); ("content", VStr "Feb")]]) ].

Definition world_with_session : World :=
  mkWorld {[ "session-0" := stored_session ]}
          {[ ("processeddfs", "processed_data/session-0.parquet") := "PAR1month,revenue" ]}
          [] [] [] [] 1 1 [] None "" None.

(** A store whose one record has lost its session id. *)
Definition broken_session : dict := [ ("chat_history", VList []) ].

Definition world_with_broken_session : World :=
  mkWorld {[ "broken" := broken_session ]} ∅ [] [] [] [] 0 0 [] None "" None.

(** The stored session with a null chat history. *)
Definition session_without_history : dict :=
  [ ("session_id", VStr "session-0");
    ("original_file_path", VStr "Directly provided data");
    ("dataframe_storage_path", VStr "processed_data/session-0.parquet");
    ("initial_analysis", VStr "Revenue grew by 50% from Jan to Feb.");
    ("expires_at", VStr "1700086400000000");
    ("chat_history", VNone) ].

Definition world_without_history : World :=
  mkWorld {[ "session-0" := session_without_history ]}
          {[ ("processeddfs", "processed_data/session-0.parquet") := "PAR1month,revenue" ]}
          [] [] [] [] 1 1 [] None "" None.

(** A model reply that is a plain JSON object. *)
Definition plain_object : string := "{" +:+ dq +:+ "insights" +:+ dq +:+ ": []}".

(** The state of the graph after the loader, and after the analyzer. *)
Definition loaded_state : AgentState :=
  mkState revenue_rows revenue_rows (Some (frame_of revenue_rows)) "" "" [] [] None
    (Some "session-0").

Definition analysed_state : AgentState :=
  mkState revenue_rows revenue_rows (Some (frame_of revenue_rows))
    "Revenue grew by 50% from Jan to Feb." "" [] [] None (Some "session-0").

(** A follow-up question on the stored session, and one on a session
    the store does not hold. *)
Definition question : ChatRequest := mkChatRequest "session-0" "Total?" [].

Definition unknown_question : ChatRequest := mkChatRequest "nope" "Total?" [].

End Sample.

(* ===================================================================== *)
(** ** The vocabulary of the specification                                 *)
(* ===================================================================== *)

(** *** Chunked Analyzer *)

(** ceil(n / d) *)
Definition ceil_div (n d : nat) : nat := (n + d - 1) / d.

(** The k-th chunk of the rows, counted from 0: rows 100k .. 100k+99. *)
Definition chunk_of (data : list value) (k : nat) : list value :=
  take CHUNK_SIZE (drop (k * CHUNK_SIZE) data).

(** The entry of the combined analysis for chunk number [n], counted
    from 1: a summary when the model answered, an error marker when the
    request failed. *)
Definition chunk_entry (n : nat) (outcome : result string) : string :=
  match outcome with
  | Ok summary => "Chunk " +:+ PyStr.of_nat n +:+ " Summary:" +:+ nl +:+ summary +:+ nl
  | Raise e =>
      "Chunk " +:+ PyStr.of_nat n +:+ " Error: "
      +:+ ("Error processing chunk " +:+ PyStr.of_nat n +:+ ": " +:+ exn_str e) +:+ nl
  end.

(** Every key of the record is a string, as in a JSON object and in a
    row of a table whose header cells are texts. *)
Definition str_keyed (d : dict) : Prop := forallb key_is_str (dict_keys d) = true.

(** The keys of a record that are strings, in order. *)
Definition key_names (d : dict) : list string :=
  omap (fun k => match k with KStr s => Some s | _ => None end) (dict_keys d).

(** *** The texts a pattern describes *)

Module ReSpec.

Fixpoint lit_eq (fl : flags) (l s : string) : Prop :=
  match l, s with
  | EmptyString, EmptyString => True
  | String a l', String b s' => char_eq fl a b = true /\ lit_eq fl l' s'
  | _, _ => False
  end.

Fixpoint all_in (fl : flags) (k : cclass) (s : string) : Prop :=
  match s with
  | EmptyString => True
  | String c s' => cclass_match fl k c = true /\ all_in fl k s'
  end.

Fixpoint matches (fl : flags) (r : regex) (m : string) : Prop :=
  match r with
  | [] => m = ""
  | RLit l :: r' => exists m1 m2, m = m1 +:+ m2 /\ lit_eq fl l m1 /\ matches fl r' m2
  | RStar k :: r' | RLazy k :: r' =>
      exists m1 m2, m = m1 +:+ m2 /\ all_in fl k m1 /\ matches fl r' m2
  | ROpen :: r' | RClose :: r' => matches fl r' m
  end.

(** A continuation is sound for the texts [P] when each of its matches
    consumes one of them. *)
Definition sound (P : string -> Prop) (cont : continuation) : Prop :=
  forall s pos g e g', cont s pos g = Some (e, g') ->
    exists m rest, s = m +:+ rest /\ P m /\ e = pos + String.length m.

End ReSpec.

(** *** JSON extraction *)

(** The extraction chain as the specification words it: three
    strategies, each a success or a failure, the first success wins. *)
Module ExtractSpec.

Definition strategy := string -> option string.

Fixpoint first_success (chain : list strategy) (text : string) : option string :=
  match chain with
  | [] => None
  | s :: rest =>
      match s text with
      | Some found => Some found
      | None => first_success rest text
      end
  end.

(** "looks like a JSON object" *)
Definition object_like (c : string) : bool :=
  PyStr.startswith "{" c && PyStr.endswith "}" c.

(** The trimmed contents of the first block a fence pattern finds, when
    they look like an object. *)
Definition fenced (fence : regex) : strategy := fun text =>
  match findall (flags_or re_DOTALL re_IGNORECASE) fence text with
  | block :: _ =>
      if object_like (PyStr.strip block) then Some (PyStr.strip block) else None
  | [] => None
  end.

(** (a) a fenced code block, labelled json or not *)
Definition strategy_a : strategy := first_success (map fenced code_block_patterns).

(** (b) from the first opening to the last closing brace, the counts of
    the two braces being equal *)
Definition strategy_b : strategy := fun text =>
  let i := PyStr.find "{" text in
  let j := PyStr.rfind "}" text in
  if ((0 <=? i) && (i <? j))%Z then
    let c := PyStr.slice text i (j + 1) in
    if PyStr.count "{" c =? PyStr.count "}" c then Some c else None
  else None.

(** (c) the patterns anchored on the insights keyword *)
Definition keyword_search (pattern : regex) : strategy := fun text =>
  head (findall re_DOTALL pattern text).

Definition strategy_c : strategy := first_success (map keyword_search json_patterns).

Definition extract_json : string -> string := fun text =>
  default "" (first_success [strategy_a; strategy_b; strategy_c] text).

End ExtractSpec.

(** *** Tag Extractor *)

(** The text contains a bracketed list-like substring: an opening
    bracket with a closing bracket somewhere after it. *)
Definition has_bracketed_list (text : string) : Prop :=
  exists pre body post, text = pre +:+ "[" +:+ body +:+ "]" +:+ post.

(** *** Insight Extractor *)

(** An insight that may be persisted: a record with the five fields, a
    trend of the enumeration and a list of chart points. *)
Definition complete_insight (item : value) : Prop :=
  exists d, item = VDict d
    /\ (forall field, In field required_fields -> exists v, dict_get field d = Some v)
    /\ (exists trend, dict_get "trend" d = Some (VStr trend)
                      /\ In trend ["up"; "down"; "stable"])
    /\ (exists points, dict_get "data" d = Some (VList points)).

(** The record lacks one of the five fields. *)
Definition lacks_a_field (d : dict) : Prop :=
  exists field, In field required_fields /\ dict_get field d = None.

(** *** Data Loader *)

(** The three shapes of a dictionary load_data_node returns on failure. *)
Definition failure_update (upd : update) : Prop :=
  exists msg,
    upd = [U_error (Some msg)]
    \/ upd = [U_loaded_data []; U_dataframe None; U_session_id None; U_error (Some msg)]
    \/ upd = [U_error (Some msg); U_loaded_data []; U_dataframe None; U_session_id None].

(** The state after the stage carries an error message and no session id. *)
Definition reports_failure (st : AgentState) (upd : update) : Prop :=
  (exists msg, error (merge_update st upd) = Some msg)
  /\ session_id (merge_update st upd) = None.

(** The parts of the world the first half of the loader leaves alone. *)
Definition same_store (w w' : World) : Prop :=
  sessions w' = sessions w /\ db_log w' = db_log w
  /\ uuids_drawn w' = uuids_drawn w /\ clock_reads w' = clock_reads w.

(** The client's answer to an upload that the loader takes for a
    failure: a falsy response, or a dictionary with a truthy error. *)
Definition upload_refused (res : value) : Prop :=
  truthy res = false
  \/ exists d err, res = VDict d /\ dict_get "error" d = Some err /\ truthy err = true.

(** *** Session fetch *)

(** A stored field as the fetch operations return it: the list when it
    is one, the empty list when it is missing, null or anything else. *)
Definition list_or_empty (stored : option value) : value :=
  match stored with
  | Some (VList l) => VList l
  | _ => VList []
  end.

(** The other fields of a stored record are what the response model
    accepts. *)
Definition other_fields_valid (row : dict) : Prop :=
  (exists s, dict_get "session_id" row = Some (VStr s))
  /\ (exists p, dict_get "dataframe_storage_path" row = Some (VStr p))
  /\ (dict_get "initial_analysis" row = None
      \/ dict_get "initial_analysis" row = Some VNone
      \/ exists a, dict_get "initial_analysis" row = Some (VStr a)).

(** The elements of a stored list field are what the response model
    accepts; a field that is no list asks for nothing. *)
Definition elements_valid (p : value -> bool) (stored : option value) : Prop :=
  match stored with
  | Some (VList l) => forallb p l = true
  | _ => True
  end.

Section Vocabulary.
Context `{Env}.

(** The completion request for one chunk. *)
Definition chunk_request (headers : list string) (chunk : list value) : list message :=
  [HumanMessage (analyze_prompt (table_string headers chunk))].

(** The completion request of the Tag Extractor. *)
Definition tags_request (st : AgentState) : list message :=
  [HumanMessage (categorize_prompt (analysis st))].

(** The completion request of the Insight Extractor. *)
Definition insights_request (st : AgentState) : list message :=
  [HumanMessage (insights_prompt (analysis st))].

(** The list the Insight Extractor ends with, read off the model's
    reply: empty on every path but the one on which the reply holds a
    JSON object with an insights list. *)
Definition final_insights_of (st : AgentState) (w : World) : list value :=
  if String.eqb (analysis st) "" then []
  else
    match llm_reply (length (llm_log w)) (insights_request st) with
    | Raise _ => []
    | Ok resp =>
        let json_str := extract_json_from_text (PyStr.strip resp) in
        if String.eqb json_str "" then []
        else
          match json_loads json_str with
          | Ok (VDict d) =>
              match dict_get "insights" d with
              | Some (VList items) => omap validate_insight items
              | _ => []
              end
          | _ => []
          end
    end.

(** What one update of categorized_insights leaves in the store: the
    call is logged, and a store that carries it out holds the list. *)
Definition insights_recorded (session_id : option string) (final : list value)
  (w w' : World) : Prop :=
  match present session_id with
  | Some sid =>
      db_log w' = db_log w ++ [DbUpdate sid [("categorized_insights", VList final)]]
      /\ (db_reply_at (length (db_log w)) = DbAnswers ->
          forall row, sessions w !! sid = Some row ->
            sessions w'
            = <[sid := dict_set "categorized_insights" (VList final) row]> (sessions w))
  | None => db_log w' = db_log w /\ sessions w' = sessions w
  end.

(** The blob write of a session creation started in [w] fails: the
    storage raises, or answers with a refusal. *)
Definition upload_fails (w : World) : Prop :=
  match storage_reply_at (length (storage_log w)) with
  | StRaises _ => True
  | StRefuses res | StDone res => upload_refused res
  end.

(** The failures of the loader the specification names: the table is
    empty, parsing fails (inline records or spreadsheet), the blob write
    fails, the record insert fails. *)
Inductive load_fails (payload : list value) (w : World) : Prop :=
| table_empty rows df descr w1 :
    load_table payload w = (Ok (inr (rows, df, descr)), w1) ->
    match df with Some df => df_empty df = true | None => True end ->
    load_fails payload w
| parsing_fails_direct e :
    supabase_file_input payload = Ok None ->
    forallb is_dict payload = true ->
    pd_DataFrame payload = Raise e ->
    load_fails payload w
| parsing_fails_excel path c bytes w1 e :
    supabase_file_input payload = Ok (Some path) ->
    storage_download "uploads" (str_of path) w = (Ok (Some (String c bytes)), w1) ->
    read_excel (String c bytes) = Raise e ->
    load_fails payload w
| blob_write_fails rows df descr w1 :
    load_table payload w = (Ok (inr (rows, Some df, descr)), w1) ->
    df_empty df = false ->
    upload_fails w1 ->
    load_fails payload w
| record_insert_fails rows df descr w1 :
    load_table payload w = (Ok (inr (rows, Some df, descr)), w1) ->
    df_empty df = false ->
    db_reply_at (length (db_log w1)) <> DbAnswers ->
    load_fails payload w.

(** The memory the agent is given: the stored analysis, then the stored
    turns. *)
Definition agent_memory (row : dict) (history : list message) : list message :=
  (if truthy (default (VStr "") (dict_get "initial_analysis" row))
   then [SystemMessage ("Initial Data Analysis: "
                        +:+ str_of (default (VStr "") (dict_get "initial_analysis" row)))]
   else []) ++ history.

(** The answer of the agent as the handler returns it. *)
Definition answer_of (output : option string) : string :=
  default "I could not process your request with the available data or found no relevant information." output.

End Vocabulary.

(* ===================================================================== *)
(** ** Further vocabulary                                                  *)
(* ===================================================================== *)

(** The three globals of the last processed session. *)
Definition globals_of (w : World) : option DataFrame * string * option string :=
  (global_last_processed_df w, global_last_processed_analysis w,
   global_current_session_id w).

(** The world after a run differs from the world before at most in the
    log of completion requests and in the console. *)
Definition only_talked (w w' : World) : Prop :=
  sessions w' = sessions w /\ blobs w' = blobs w /\ db_log w' = db_log w
  /\ storage_log w' = storage_log w /\ agent_log w' = agent_log w
  /\ uuids_drawn w' = uuids_drawn w /\ clock_reads w' = clock_reads w
  /\ globals_of w' = globals_of w.

(** A handler keeps the part [f] of the world when no run of it changes
    that part. *)
Definition keeps {A B : Type} (f : World -> B) (m : M A) : Prop :=
  forall w, f (snd (m w)) = f w.

(** A handler ignores the globals: run with other values assigned to
    them it returns the same result and changes the rest of the world
    in the same way. *)
Definition ignores_globals {A : Type} (m : M A) : Prop :=
  forall df analysis session_id w,
    m (with_globals df analysis session_id w)
    = (fst (m w), with_globals df analysis session_id (snd (m w))).

(** The elements are records with string keys, as the records of a
    JSON payload are. *)
Definition str_keyed_records (payload : list value) : Prop :=
  Forall (fun r => exists d, r = VDict d /\ str_keyed d) payload.

(* ===================================================================== *)
(** ** Text and patterns                                                   *)
(* ===================================================================== *)

Import ReSpec.

Lemma string_app_assoc (a b c : string) : (a +:+ b) +:+ c = a +:+ (b +:+ c).
Proof.
  induction a as [|x a IH]; [reflexivity|].
  change (String x ((a +:+ b) +:+ c) = String x (a +:+ (b +:+ c))). congruence.
Qed.

Lemma string_app_length (a b : string) :
  String.length (a +:+ b) = String.length a + String.length b.
Proof.
  induction a as [|x a IH]; [reflexivity|].
  change (S (String.length (a +:+ b)) = S (String.length a + String.length b)). congruence.
Qed.

Lemma find_from_ge sub s : forall i, (0 <= i)%Z ->
  PyStr.find_from sub s i = (-1)%Z \/ (i <= PyStr.find_from sub s i)%Z.
Proof.
  induction s as [|c s IH]; intros i Hi; cbn [PyStr.find_from].
  - destruct (String.prefix sub ""); [right; lia | left; reflexivity].
  - destruct (String.prefix sub (String c s)); [right; lia|].
    destruct (IH (i + 1)%Z) as [Hnone|Hfound]; [lia | left; exact Hnone | right; lia].
Qed.

Lemma rfind_from_ge sub s : forall i, (0 <= i)%Z ->
  PyStr.rfind_from sub s i = (-1)%Z \/ (i <= PyStr.rfind_from sub s i)%Z.
Proof.
  induction s as [|c s IH]; intros i Hi; cbn [PyStr.rfind_from].
  - destruct (String.prefix sub ""); [right; lia | left; reflexivity].
  - cbv zeta. destruct (IH (i + 1)%Z) as [Hnone|Hfound]; [lia | |].
    + rewrite Hnone. change (-1 =? -1)%Z with true. cbv iota.
      destruct (String.prefix sub (String c s)); [right; lia | left; reflexivity].
    + destruct (Z.eqb_spec (PyStr.rfind_from sub s (i + 1)) (-1)); [lia | right; lia].
Qed.

Lemma lit_match_sound fl l : forall s s',
  lit_match fl l s = Some s' ->
  exists m, s = m +:+ s' /\ lit_eq fl l m /\ String.length m = String.length l.
Proof.
  induction l as [|a l IH]; intros s s' Hm; simpl in Hm.
  - inversion Hm; subst. exists "". simpl. auto.
  - destruct s as [|b s]; [discriminate|].
    destruct (char_eq fl a b) eqn:Hc; [|discriminate].
    destruct (IH _ _ Hm) as (m & -> & Hl & Hlen).
    exists (String b m). simpl. auto.
Qed.

Lemma greedy_sound fl k cont P :
  sound P cont ->
  sound (fun m => exists m1 m2, m = m1 +:+ m2 /\ all_in fl k m1 /\ P m2) (greedy fl k cont).
Proof.
  intros Hc s. induction s as [|c s IH]; intros pos g e g' Hm; cbn [greedy] in Hm.
  - destruct (Hc _ _ _ _ _ Hm) as (m & rest & Hs & HP & He).
    exists m, rest. repeat split; auto. exists "", m. simpl. auto.
  - assert (Hstop : cont (String c s) pos g = Some (e, g') ->
      exists m rest, String c s = m +:+ rest
        /\ (exists m1 m2, m = m1 +:+ m2 /\ all_in fl k m1 /\ P m2)
        /\ e = pos + String.length m).
    { intros Hm'. destruct (Hc _ _ _ _ _ Hm') as (m & rest & Hs & HP & He).
      exists m, rest. repeat split; auto. exists "", m. simpl. auto. }
    destruct (cclass_match fl k c) eqn:Hk; [|auto].
    destruct (greedy fl k cont s (S pos) g) as [[e1 g1]|] eqn:Hg; [|auto].
    inversion Hm; subst e1 g1.
    destruct (IH _ _ _ _ Hg) as (m & rest & -> & (m1 & m2 & -> & Hall & HP) & He).
    exists (String c (m1 +:+ m2)), rest. repeat split.
    + exists (String c m1), m2. simpl. auto.
    + simpl. lia.
Qed.

Lemma lazy_sound fl k cont P :
  sound P cont ->
  sound (fun m => exists m1 m2, m = m1 +:+ m2 /\ all_in fl k m1 /\ P m2) (lazy fl k cont).
Proof.
  intros Hc s. induction s as [|c s IH]; intros pos g e g' Hm; cbn [lazy] in Hm.
  - destruct (cont "" pos g) as [[e1 g1]|] eqn:Hk; [|discriminate].
    inversion Hm; subst e1 g1.
    destruct (Hc _ _ _ _ _ Hk) as (m & rest & Hs & HP & He).
    exists m, rest. repeat split; auto. exists "", m. simpl. auto.
  - destruct (cont (String c s) pos g) as [[e1 g1]|] eqn:Hk.
    + inversion Hm; subst e1 g1.
      destruct (Hc _ _ _ _ _ Hk) as (m & rest & Hs & HP & He).
      exists m, rest. repeat split; auto. exists "", m. simpl. auto.
    + destruct (cclass_match fl k c) eqn:Hcl; [|discriminate].
      destruct (IH _ _ _ _ Hm) as (m & rest & -> & (m1 & m2 & -> & Hall & HP) & He).
      exists (String c (m1 +:+ m2)), rest. repeat split.
      * exists (String c m1), m2. simpl. auto.
      * simpl. lia.
Qed.

(** Every match of [match_here] consumes a text the pattern describes. *)
Lemma match_here_sound fl r : sound (matches fl r) (match_here fl r).
Proof.
  induction r as [|item r IH]; [|destruct item as [l|k|k| |]]; cbn [match_here matches].
  - intros s pos g e g' Hm. inversion Hm; subst. exists "", s. simpl. auto.
  - intros s pos g e g' Hm.
    destruct (lit_match fl l s) as [s1|] eqn:Hl; [|discriminate].
    destruct (lit_match_sound _ _ _ _ Hl) as (m1 & -> & Hlit & Hlen).
    destruct (IH _ _ _ _ _ Hm) as (m2 & rest & -> & HP & He).
    exists (m1 +:+ m2), rest. rewrite string_app_assoc, string_app_length.
    repeat split; [|lia]. exists m1, m2. auto.
  - apply greedy_sound, IH.
  - apply lazy_sound, IH.
  - intros s pos g e g' Hm. exact (IH _ _ _ _ _ Hm).
  - intros s pos g e g' Hm. exact (IH _ _ _ _ _ Hm).
Qed.

(** A successful search found a described text somewhere in the text. *)
Lemma search_from_sound fl r : forall s pos m,
  search_from fl r s pos = Some m ->
  exists pre found rest, s = pre +:+ found +:+ rest /\ matches fl r found
    /\ m_start m = pos + String.length pre
    /\ m_end m = m_start m + String.length found.
Proof.
  induction s as [|c s IH]; intros pos m Hs; cbn [search_from] in Hs.
  - destruct (match_here fl r "" pos (pos, pos)) as [[e g]|] eqn:Hm; [|discriminate].
    inversion Hs; subst m.
    destruct (match_here_sound _ _ _ _ _ _ _ Hm) as (f & rest & Hs' & HP & He).
    exists "", f, rest. simpl. repeat split; auto; lia.
  - destruct (match_here fl r (String c s) pos (pos, pos)) as [[e g]|] eqn:Hm.
    + inversion Hs; subst m.
      destruct (match_here_sound _ _ _ _ _ _ _ Hm) as (f & rest & Hs' & HP & He).
      exists "", f, rest. simpl. repeat split; auto; lia.
    + destruct (IH _ _ Hs) as (pre & f & rest & -> & HP & Hst & Hen).
      exists (String c pre), f, rest. simpl. repeat split; auto; lia.
Qed.

Lemma lit_eq_exact l : forall m, lit_eq re_DOTALL l m -> m = l.
Proof.
  induction l as [|a l IH]; intros [|b m]; simpl; try tauto.
  intros [Hc Hl]. unfold char_eq in Hc. simpl in Hc.
  apply Ascii.eqb_eq in Hc. subst. f_equal. auto.
Qed.

(** A match of r'\[(.*?)\]' shows a bracketed list-like substring. *)
Lemma list_pattern_found text m :
  Re.search re_DOTALL list_pattern text = Some m -> has_bracketed_list text.
Proof.
  intros Hs.
  destruct (search_from_sound _ _ _ _ _ Hs) as (pre & found & rest & -> & Hm & _).
  cbn [matches list_pattern] in Hm.
  destruct Hm as (m1 & m2 & -> & Hl1 & body & m3 & -> & _ & m4 & m5 & -> & Hl2 & ->).
  apply lit_eq_exact in Hl1, Hl2. subst.
  exists pre, body, rest. rewrite !string_app_assoc. reflexivity.
Qed.

(* ===================================================================== *)
(** ** extract_json_from_text: the priority chain                          *)
(* ===================================================================== *)

Lemma code_block_loop_chain patterns text :
  code_block_loop patterns text
  = ExtractSpec.first_success (map ExtractSpec.fenced patterns) text.
Proof.
  induction patterns as [|p ps IH]; simpl; [reflexivity|].
  unfold ExtractSpec.fenced at 1, ExtractSpec.object_like.
  destruct (findall _ p text) as [|m0 ms]; [exact IH|].
  destruct (PyStr.startswith "{" (PyStr.strip m0) && PyStr.endswith "}" (PyStr.strip m0));
    [reflexivity | exact IH].
Qed.

Lemma json_pattern_loop_chain patterns text :
  json_pattern_loop patterns text
  = ExtractSpec.first_success (map ExtractSpec.keyword_search patterns) text.
Proof.
  induction patterns as [|p ps IH]; simpl; [reflexivity|].
  unfold ExtractSpec.keyword_search at 1.
  destruct (findall re_DOTALL p text) as [|m0 ms]; [exact IH | reflexivity].
Qed.

(** The three tests of the source on the two indices say: there is an
    opening brace, and the last closing brace comes after the first
    opening one. *)
Lemma brace_span_chain text : brace_span text = ExtractSpec.strategy_b text.
Proof.
  unfold brace_span, ExtractSpec.strategy_b. cbv zeta.
  pose proof (find_from_ge "{" text 0 ltac:(lia)) as Hf.
  pose proof (rfind_from_ge "}" text 0 ltac:(lia)) as Hr.
  fold (PyStr.find "{" text) in Hf. fold (PyStr.rfind "}" text) in Hr.
  destruct (Z.eqb_spec (PyStr.find "{" text) (-1)),
           (Z.eqb_spec (PyStr.rfind "}" text) (-1)),
           (Z.ltb_spec (PyStr.find "{" text) (PyStr.rfind "}" text)),
           (Z.leb_spec 0 (PyStr.find "{" text));
    cbn [negb andb]; try reflexivity; exfalso; lia.
Qed.

(** C9. For every text, extract_json_from_text is the chain of the three
    strategies in the order (a) fenced code block whose trimmed contents
    start and end with a brace, (b) span from the first opening to the
    last closing brace with equal brace counts, (c) pattern search on
    the insights keyword: the first strategy that succeeds gives the
    result, and the result is the empty string when all three fail. *)
Theorem extract_json_from_text_priority_chain (text : string) :
  extract_json_from_text text = ExtractSpec.extract_json text
  /\ (forall c, ExtractSpec.strategy_a text = Some c -> extract_json_from_text text = c)
  /\ (ExtractSpec.strategy_a text = None ->
      forall c, ExtractSpec.strategy_b text = Some c -> extract_json_from_text text = c)
  /\ (ExtractSpec.strategy_a text = None -> ExtractSpec.strategy_b text = None ->
      forall c, ExtractSpec.strategy_c text = Some c -> extract_json_from_text text = c)
  /\ (ExtractSpec.strategy_a text = None -> ExtractSpec.strategy_b text = None ->
      ExtractSpec.strategy_c text = None -> extract_json_from_text text = "").
Proof.
  assert (Heq : extract_json_from_text text = ExtractSpec.extract_json text).
  { unfold extract_json_from_text, ExtractSpec.extract_json.
    rewrite code_block_loop_chain, brace_span_chain, json_pattern_loop_chain.
    cbn [ExtractSpec.first_success].
    fold ExtractSpec.strategy_a ExtractSpec.strategy_c.
    destruct (ExtractSpec.strategy_a text); [reflexivity|].
    destruct (ExtractSpec.strategy_b text); [reflexivity|].
    destruct (ExtractSpec.strategy_c text); reflexivity. }
  split; [exact Heq|]. rewrite Heq. unfold ExtractSpec.extract_json.
  cbn [ExtractSpec.first_success].
  split; [|split; [|split]].
  - intros c ->. reflexivity.
  - intros -> c ->. reflexivity.
  - intros -> -> c ->. reflexivity.
  - intros -> -> ->. reflexivity.
Qed.

(* ===================================================================== *)
(** ** categorize_insight_node                                             *)
(* ===================================================================== *)

Lemma clean_tags_nonempty items : Forall (fun t => t <> "") (clean_tags items).
Proof.
  unfold clean_tags.
  induction items as [|item items IH]; cbn [omap list_omap]; [constructor|].
  destruct item as [| | | |s| |]; try exact IH.
  destruct (String.eqb_spec (PyStr.strip s) ""); [exact IH|].
  constructor; assumption.
Qed.

Lemma clean_tags_length items : length (clean_tags items) <= length items.
Proof.
  unfold clean_tags.
  induction items as [|item items IH]; cbn [omap list_omap length]; [lia|].
  destruct item as [| | | |s| |]; try lia.
  destruct (String.eqb (PyStr.strip s) ""); cbn [length]; lia.
Qed.

Section Categorize.
Context `{Env}.

(** C5, as the code has it. For every analysis text and every model
    output, categorize_insight_node returns a list of non-empty tags;
    the list is empty, with no model call, on an empty analysis, and
    empty when the model output contains no bracketed list-like
    substring; a non-empty list is the cleaned list the located literal
    evaluates to, so it has at most as many tags as that list has
    elements. No cap of ten is applied. *)
Theorem categorize_insight_node_tags (st : AgentState) (w : World) :
  exists tags w',
    categorize_insight_node st w = (Ok [U_tags tags], w')
    /\ Forall (fun t => t <> "") tags
    /\ (analysis st = "" -> tags = [] /\ llm_log w' = llm_log w)
    /\ (forall output,
          llm_reply (length (llm_log w)) (tags_request st) = Ok output ->
          ~ has_bracketed_list output -> tags = [])
    /\ (tags <> [] ->
        exists output m items,
          llm_reply (length (llm_log w)) (tags_request st) = Ok output
          /\ Re.search re_DOTALL list_pattern output = Some m
          /\ literal_eval (group0 output m) = Ok (VList items)
          /\ tags = clean_tags items
          /\ length tags <= length items).
Proof.
  unfold categorize_insight_node.
  destruct (String.eqb_spec (analysis st) "") as [He|Hne].
  - exists [], w. unfold ret. repeat split; auto; congruence.
  - unfold try_except at 1, bind at 1, llm_ainvoke, except_Exception, ret.
    fold (tags_request st).
    destruct (llm_reply (length (llm_log w)) (tags_request st)) as [output|e] eqn:Hr.
    + destruct (Re.search re_DOTALL list_pattern output) as [m|] eqn:Hs.
      * unfold try_except, bind, lift, except_ValueError_SyntaxError, ret.
        destruct (literal_eval (group0 output m)) as [parsed|e] eqn:Hl.
        -- destruct parsed as [| | | | |items|];
             try (eexists [], _; repeat split; auto; congruence).
           eexists (clean_tags items), _. split; [reflexivity|].
           split; [apply clean_tags_nonempty|]. split; [congruence|]. split.
           ++ intros output' Ho Hnb. inversion Ho; subst output'.
              exfalso. apply Hnb. eapply list_pattern_found; eauto.
           ++ intros _. exists output, m, items. repeat split; auto.
              apply clean_tags_length.
        -- destruct e; eexists [], _; repeat split; auto; congruence.
      * eexists [], _. repeat split; auto; congruence.
    + eexists [], _. repeat split; auto; congruence.
Qed.

End Categorize.

(* ===================================================================== *)
(** ** analyze_data_node                                                   *)
(* ===================================================================== *)

Lemma ceil_div_0 d : 0 < d -> ceil_div 0 d = 0.
Proof. intros Hd. unfold ceil_div. apply Nat.div_small. lia. Qed.

Lemma ceil_div_step m d : 0 < d -> 0 < m -> ceil_div m d = S (ceil_div (m - d) d).
Proof.
  intros Hd Hm. unfold ceil_div.
  destruct (le_lt_dec d m) as [Hle|Hlt].
  - replace (m + d - 1) with ((m - d + d - 1) + 1 * d) by lia.
    rewrite Nat.div_add by lia. lia.
  - replace (m - d) with 0 by lia. rewrite (Nat.div_small (0 + d - 1)) by lia.
    replace (m + d - 1) with ((m - 1) + 1 * d) by lia.
    rewrite Nat.div_add by lia. rewrite Nat.div_small by lia. reflexivity.
Qed.

(** With enough fuel the range from [i] holds i, i+step, ... below
    [stop]: ceil((stop - i) / step) numbers. *)
Lemma range_from_spec fuel : forall i stop step,
  0 < step -> stop <= fuel + i ->
  range_from fuel i stop step
  = map (fun k => i + k * step) (seq 0 (ceil_div (stop - i) step)).
Proof.
  induction fuel as [|fuel IH]; intros i stop step Hstep Hfuel; simpl.
  - replace (stop - i) with 0 by lia. rewrite ceil_div_0 by lia. reflexivity.
  - destruct (i <? stop) eqn:Hlt.
    + apply Nat.ltb_lt in Hlt.
      rewrite (ceil_div_step (stop - i) step) by lia.
      rewrite IH by lia. simpl. f_equal; [lia|].
      rewrite <- seq_shift, map_map.
      replace (stop - i - step) with (stop - (i + step)) by lia.
      apply map_ext. intros k. lia.
    + apply Nat.ltb_ge in Hlt.
      replace (stop - i) with 0 by lia. rewrite ceil_div_0 by lia. reflexivity.
Qed.

Lemma py_range_spec stop step :
  0 < step ->
  py_range 0 stop step = map (fun k => k * step) (seq 0 (ceil_div stop step)).
Proof.
  intros Hstep. unfold py_range. rewrite range_from_spec by lia.
  rewrite Nat.sub_0_r. apply map_ext. intros; lia.
Qed.

(** The list comprehension of the source yields the ceil(R/100)
    contiguous chunks. *)
Lemma chunks_are_contiguous (data : list value) :
  map (fun i => list_slice data i (i + CHUNK_SIZE)) (py_range 0 (length data) CHUNK_SIZE)
  = map (chunk_of data) (seq 0 (ceil_div (length data) CHUNK_SIZE)).
Proof.
  rewrite py_range_spec by (unfold CHUNK_SIZE; lia).
  rewrite map_map. apply map_ext. intros k. unfold list_slice, chunk_of.
  f_equal. lia.
Qed.

(** Joining keys that are all strings joins their names. *)
Lemma str_items_names (keys : list key) :
  forallb key_is_str keys = true ->
  forall i, str_items i keys
            = Ok (omap (fun k => match k with KStr s => Some s | _ => None end) keys).
Proof.
  induction keys as [|k keys IH]; intros Hall i; [reflexivity|].
  cbn [forallb] in Hall. apply andb_prop in Hall as [Hk Hall].
  destruct k; try discriminate Hk.
  cbn [str_items omap list_omap]. rewrite (IH Hall). reflexivity.
Qed.

(** Joining keys of which one is no string raises a TypeError. *)
Lemma str_items_raises (keys : list key) :
  forallb key_is_str keys = false ->
  forall i, exists msg, str_items i keys = Raise (TypeError msg).
Proof.
  induction keys as [|k keys IH]; intros Hsome i; [discriminate|].
  cbn [forallb] in Hsome.
  destruct k; try (eexists; reflexivity).
  cbn [key_is_str andb] in Hsome. cbn [str_items].
  destruct (IH Hsome (S i)) as (msg & ->). eexists. reflexivity.
Qed.

Lemma str_keyed_names (d : dict) :
  str_keyed d -> forall i, str_items i (dict_keys d) = Ok (key_names d).
Proof. intros Hd i. apply str_items_names. exact Hd. Qed.

Lemma ceil_div_pos m d : 0 < d -> 0 < m -> exists n, ceil_div m d = S n.
Proof. intros Hd Hm. eexists. apply ceil_div_step; assumption. Qed.

Section Analyze.
Context `{Env}.

(** The loop over the chunks, the headers being strings: one request
    per chunk, one entry per request, whatever the outcomes. *)
Lemma analyze_chunks_spec keys headers (f : nat -> list value) (m : nat) :
  str_items 0 keys = Ok headers ->
  forall a index combined w,
  exists w',
    analyze_chunks keys index (map f (seq a m)) combined w
    = (Ok (combined ++
           map (fun j => chunk_entry (index + 1 + j)
                           (llm_reply (length (llm_log w) + j)
                              (chunk_request headers (f (a + j)))))
               (seq 0 m)), w')
    /\ llm_log w' = llm_log w ++ map (fun j => chunk_request headers (f (a + j))) (seq 0 m).
Proof.
  intros Hkeys.
  induction m as [|m IH]; intros a index combined w.
  - exists w. simpl. rewrite !app_nil_r. auto.
  - cbn [seq map analyze_chunks].
    rewrite !Nat.add_0_r.
    unfold bind at 1, lift. rewrite Hkeys. cbn beta iota.
    unfold bind at 1, try_except, llm_ainvoke, bind, except_Exception, print, ret.
    change [HumanMessage (analyze_prompt (table_string headers (f a)))]
      with (chunk_request headers (f a)).
    destruct (llm_reply (length (llm_log w)) (chunk_request headers (f a)))
      as [summary|e] eqn:Hr; cbn beta iota;
      match goal with
      | |- context [analyze_chunks _ _ _ ?c ?w1] =>
          destruct (IH (S a) (S index) c w1) as (w' & Hrun & Hlog)
      end;
      exists w'; rewrite Hrun, Hlog; cbn [llm_log log_llm log_console] in *;
      rewrite <- !seq_shift, !map_map, length_app, <- !app_assoc;
      cbn [length app chunk_entry]; split.
    1,3: do 4 f_equal; apply map_ext; intros j;
      replace (S index + 1 + j) with (index + 1 + S j) by lia;
      replace (length (llm_log w) + 1 + j) with (length (llm_log w) + S j) by lia;
      replace (S a + j) with (a + S j) by lia; reflexivity.
    all: do 2 f_equal; apply map_ext; intros j;
      replace (S a + j) with (a + S j) by lia; reflexivity.
Qed.

Lemma db_update_keeps_llm_log sid fields w :
  llm_log (snd (db_update sid fields w)) = llm_log w.
Proof.
  unfold db_update. destruct (db_reply_at _); simpl; auto.
  destruct (sessions w !! sid); reflexivity.
Qed.

(** The stage on rows whose first row is a record with a key that is
    no string: the join of the headers raises before any request. *)
Lemma analyze_data_node_join_raises
  (st : AgentState) (w : World) (d : dict) (rest : list value) :
  loaded_data st = VDict d :: rest ->
  forallb key_is_str (dict_keys d) = false ->
  exists msg, analyze_data_node st w = (Raise (TypeError msg), w).
Proof.
  intros Hdata Hkeys. unfold analyze_data_node. rewrite !Hdata.
  destruct (str_items_raises _ Hkeys 0) as (msg & Hjoin).
  destruct d as [|[k0 v0] d']; [discriminate Hkeys|].
  set (data := VDict ((k0, v0) :: d') :: rest).
  unfold bind at 1, ret. cbn beta iota. cbn [dict_keys map fst] in *.
  rewrite (chunks_are_contiguous data).
  destruct (ceil_div_pos (length data) CHUNK_SIZE) as (n & ->);
    [unfold CHUNK_SIZE; lia | subst data; cbn [length]; lia |].
  cbn [seq map analyze_chunks].
  unfold bind, lift. rewrite Hjoin. exists msg. reflexivity.
Qed.

(** C1. On a table with a numeric header the stage aborts: for every
    row list whose first row is a record with a key that is no string
    (so it has at least one key and R >= 1), the stage raises a
    TypeError where it joins the headers, outside every try block: it
    issues no completion request, changes nothing, and returns no
    analysis. *)
Theorem analyze_data_node_non_string_header_raises
  (st : AgentState) (w : World) (d : dict) (rest : list value) :
  loaded_data st = VDict d :: rest ->
  ~ str_keyed d ->
  d <> []
  /\ exists msg, analyze_data_node st w = (Raise (TypeError msg), w).
Proof.
  intros Hdata Hkeys.
  assert (Hfalse : forallb key_is_str (dict_keys d) = false).
  { unfold str_keyed in Hkeys. destruct (forallb key_is_str (dict_keys d)); congruence. }
  split.
  - intros ->. discriminate Hfalse.
  - exact (analyze_data_node_join_raises st w d rest Hdata Hfalse).
Qed.

(** X25. For every row list whose first row is a record with at least
    one key, all of its keys strings (so R >= 1), and every outcome of
    every model request, the stage issues exactly ceil(R/100) completion
    requests, the k-th for the k-th contiguous chunk of 100 rows, and
    returns the entries for the chunks 1 .. ceil(R/100) in ascending
    order joined by blank lines, a summary for a request that succeeded
    and an error marker for one that failed. *)
Theorem analyze_data_node_one_request_per_chunk
  (st : AgentState) (w : World) (d : dict) (rest : list value) :
  loaded_data st = VDict d :: rest ->
  d <> [] ->
  str_keyed d ->
  let data := loaded_data st in
  let n := ceil_div (length data) CHUNK_SIZE in
  let request := fun k => chunk_request (key_names d) (chunk_of data k) in
  let outcome := fun k => llm_reply (length (llm_log w) + k) (request k) in
  exists w',
    analyze_data_node st w
    = (Ok [U_analysis (PyStr.join (nl +:+ nl)
                         (map (fun k => chunk_entry (k + 1) (outcome k)) (seq 0 n)))], w')
    /\ llm_log w' = llm_log w ++ map request (seq 0 n).
Proof.
  intros Hdata Hd Hkeys. cbv zeta. unfold analyze_data_node. rewrite !Hdata.
  pose proof (str_keyed_names d Hkeys 0) as Hjoin.
  set (headers := key_names d) in *.
  destruct d as [|[k0 v0] d']; [congruence|].
  set (data := VDict ((k0, v0) :: d') :: rest).
  unfold bind at 1, ret. cbn beta iota. cbn [dict_keys map fst] in *.
  rewrite (chunks_are_contiguous data).
  set (n := ceil_div (length data) CHUNK_SIZE).
  destruct (analyze_chunks_spec _ headers (chunk_of data) n Hjoin 0 0 [] w)
    as (w1 & Hrun & Hlog).
  unfold bind at 1. rewrite Hrun. cbn beta iota.
  cbn [app Nat.add] in *.
  assert (Hentries :
    map (fun j => chunk_entry (S j)
                    (llm_reply (length (llm_log w) + j)
                       (chunk_request headers (chunk_of data j))))
        (seq 0 n)
    = map (fun k => chunk_entry (k + 1)
                      (llm_reply (length (llm_log w) + k)
                         (chunk_request headers (chunk_of data k)))) (seq 0 n)).
  { apply map_ext. intros j. rewrite Nat.add_1_r. reflexivity. }
  rewrite Hentries.
  destruct (present (session_id st)) as [sid|].
  - unfold bind, try_except, except_Exception, ret, raise, print.
    match goal with |- context [db_update ?s ?f w1] =>
      pose proof (db_update_keeps_llm_log s f w1) as Hkeep;
      destruct (db_update s f w1) as [[res|e] w2] end; cbn [snd] in Hkeep.
    + destruct (r_data res); eexists; (split; [reflexivity|]);
        cbn [llm_log log_console]; rewrite Hkeep, Hlog; reflexivity.
    + eexists; split; [reflexivity|].
      cbn [llm_log log_console]; rewrite Hkeep, Hlog; reflexivity.
  - exists w1. split; [reflexivity|]. rewrite Hlog. reflexivity.
Qed.

End Analyze.

(* ===================================================================== *)
(** ** parse_insights_node                                                 *)
(* ===================================================================== *)

Lemma key_eqb_refl k : key_eqb (KStr k) k = true.
Proof. apply String.eqb_refl. Qed.

Lemma key_eqb_str k' k : key_eqb k' k = true <-> k' = KStr k.
Proof.
  destruct k'; cbn [key_eqb]; try (split; [discriminate | congruence]).
  rewrite String.eqb_eq. split; congruence.
Qed.

Lemma dict_get_set_eq k v d : dict_get k (dict_set k v d) = Some v.
Proof.
  induction d as [|[k' v'] d IH]; cbn [dict_set dict_get].
  - rewrite key_eqb_refl. reflexivity.
  - destruct (key_eqb k' k) eqn:Hk; cbn [dict_get]; rewrite Hk; auto.
Qed.

Lemma dict_get_set_ne k k' v d : k <> k' -> dict_get k' (dict_set k v d) = dict_get k' d.
Proof.
  intros Hne. induction d as [|[k1 v1] d IH]; cbn [dict_set dict_get].
  - cbn [key_eqb]. destruct (String.eqb_spec k k'); [contradiction | reflexivity].
  - destruct (key_eqb k1 k) eqn:Hk; cbn [dict_get].
    + apply key_eqb_str in Hk. subst k1. cbn [key_eqb].
      destruct (String.eqb_spec k k'); [contradiction | reflexivity].
    + rewrite IH. reflexivity.
Qed.

(** The validation loop keeps, in order, what [validate_insight] keeps. *)
Lemma validate_loop_omap insights : forall validated,
  validate_loop insights validated = validated ++ omap validate_insight insights.
Proof.
  induction insights as [|insight rest IH]; intros validated;
    cbn [validate_loop omap list_omap].
  - rewrite app_nil_r. reflexivity.
  - destruct (validate_insight insight); rewrite IH; [|reflexivity].
    rewrite <- app_assoc. reflexivity.
Qed.

Lemma has_fields_spec d :
  forallb (fun field => dict_has field d) required_fields = true
  <-> (forall field, In field required_fields -> exists v, dict_get field d = Some v).
Proof.
  rewrite forallb_forall. unfold dict_has. split; intros Hall field Hin.
  - specialize (Hall field Hin). destruct (dict_get field d); [eauto | discriminate].
  - destruct (Hall field Hin) as [v ->]. reflexivity.
Qed.

Lemma in_strs_spec v l : in_strs v l = true <-> exists s, v = VStr s /\ In s l.
Proof.
  unfold in_strs. rewrite existsb_exists. split.
  - intros (s & Hin & Heq). destruct v; try discriminate. cbn in Heq.
    apply String.eqb_eq in Heq. subst. eauto.
  - intros (s & -> & Hin). exists s. split; [auto|]. cbn. apply String.eqb_refl.
Qed.

(** A record that lacks a field is dropped. *)
Lemma validate_insight_dropped d : lacks_a_field d -> validate_insight (VDict d) = None.
Proof.
  intros (field & Hin & Hnone). cbn [validate_insight].
  destruct (forallb _ required_fields) eqn:Hall; [|reflexivity].
  destruct (proj1 (has_fields_spec d) Hall field Hin) as [v Hv]. congruence.
Qed.

(** A record with the five fields is kept: its trend is replaced by
    "stable" when outside the enumeration, its data by the empty list
    when no list, and nothing else changes. *)
Lemma validate_insight_kept d :
  (forall field, In field required_fields -> exists v, dict_get field d = Some v) ->
  exists d', validate_insight (VDict d) = Some (VDict d')
    /\ (forall trend, dict_get "trend" d = Some trend ->
          dict_get "trend" d'
          = Some (if in_strs trend ["up"; "down"; "stable"] then trend else VStr "stable"))
    /\ (forall points, dict_get "data" d = Some points ->
          dict_get "data" d' = Some (if is_list points then points else VList []))
    /\ (forall k, k <> "trend" -> k <> "data" -> dict_get k d' = dict_get k d).
Proof.
  intros Hall.
  destruct (Hall "trend") as [t Ht]; [cbn; tauto|].
  destruct (Hall "data") as [p Hp]; [cbn; tauto|].
  eexists. split.
  { cbn [validate_insight]. rewrite (proj2 (has_fields_spec d) Hall). reflexivity. }
  rewrite Ht. cbv beta iota zeta.
  destruct (in_strs t ["up"; "down"; "stable"]) eqn:Hin.
  - rewrite Hp. cbv beta iota. split; [|split].
    + intros t' Ht'. inversion Ht'; subst t'. rewrite Hin.
      destruct (is_list p); [exact Ht|].
      rewrite dict_get_set_ne by discriminate. exact Ht.
    + intros p' Hp'. inversion Hp'; subst p'.
      destruct (is_list p); [exact Hp | apply dict_get_set_eq].
    + intros k Hkt Hkd. destruct (is_list p); [reflexivity|].
      apply dict_get_set_ne. congruence.
  - rewrite (dict_get_set_ne "trend" "data") by discriminate.
    rewrite Hp. cbv beta iota. split; [|split].
    + intros t' Ht'. inversion Ht'; subst t'. rewrite Hin.
      destruct (is_list p); [apply dict_get_set_eq|].
      rewrite dict_get_set_ne by discriminate. apply dict_get_set_eq.
    + intros p' Hp'. inversion Hp'; subst p'.
      destruct (is_list p); [|apply dict_get_set_eq].
      rewrite dict_get_set_ne by discriminate. exact Hp.
    + intros k Hkt Hkd. destruct (is_list p).
      * apply dict_get_set_ne. congruence.
      * rewrite !dict_get_set_ne by congruence. reflexivity.
Qed.

Lemma validate_insight_complete item ok :
  validate_insight item = Some ok -> complete_insight ok.
Proof.
  destruct item as [| | | | | |d]; try discriminate. intros Hok.
  assert (Hall : forall field, In field required_fields ->
                   exists v, dict_get field d = Some v).
  { apply has_fields_spec. cbn [validate_insight] in Hok.
    destruct (forallb _ required_fields); [reflexivity | discriminate]. }
  destruct (validate_insight_kept d Hall) as (d' & Hv & Ht & Hp & Ho).
  rewrite Hok in Hv. inversion Hv; subst ok. clear Hv Hok.
  exists d'. split; [reflexivity|].
  destruct (Hall "trend") as [t Htd]; [cbn; tauto|].
  destruct (Hall "data") as [p Hpd]; [cbn; tauto|].
  split; [|split].
  - intros field Hin.
    destruct (String.eqb_spec field "trend") as [->|Hnt]; [rewrite (Ht _ Htd); eauto|].
    destruct (String.eqb_spec field "data") as [->|Hnd]; [rewrite (Hp _ Hpd); eauto|].
    rewrite Ho by assumption. auto.
  - rewrite (Ht _ Htd). destruct (in_strs t _) eqn:Hin.
    + apply in_strs_spec in Hin. destruct Hin as (s & -> & Hin). eauto.
    + exists "stable". split; [reflexivity | cbn; tauto].
  - rewrite (Hp _ Hpd). destruct p; cbn [is_list]; eauto.
Qed.

Lemma omap_validate_complete items : Forall complete_insight (omap validate_insight items).
Proof.
  induction items as [|item items IH]; cbn [omap list_omap]; [constructor|].
  destruct (validate_insight item) eqn:Hv; [|exact IH].
  constructor; [eapply validate_insight_complete; eauto | exact IH].
Qed.

Lemma omap_all_kept items :
  Forall (fun item => exists ok, validate_insight item = Some ok) items ->
  length (omap validate_insight items) = length items.
Proof.
  induction 1 as [|item items [ok Hok] _ IH]; cbn [omap list_omap length]; [reflexivity|].
  rewrite Hok. cbn [length]. congruence.
Qed.

Section ParseInsights.
Context `{Env}.

Lemma db_update_recorded sid final w :
  exists r w', db_update sid [("categorized_insights", VList final)] w = (r, w')
    /\ insights_recorded (Some sid) final w w' \/ sid = "".
Proof.
  destruct (String.eqb_spec sid "") as [->|Hne].
  { destruct (db_update "" [("categorized_insights", VList final)] w) as [r w1].
    exists r, w1. right. reflexivity. }
  unfold insights_recorded, present. rewrite (proj2 (String.eqb_neq sid "") Hne).
  unfold db_update.
  destruct (db_reply_at (length (db_log w))) eqn:Hr.
  - eexists _, _. left. split; [reflexivity|]. split; [reflexivity|].
    intros Hno. discriminate Hno.
  - eexists _, _. left. split; [reflexivity|]. split; [reflexivity|].
    intros Hno. discriminate Hno.
  - destruct (sessions w !! sid) as [row|] eqn:Hrow.
    + eexists _, _. left. split; [reflexivity|]. split; [reflexivity|].
      intros _ row' Hrow'. inversion Hrow'; subst. reflexivity.
    + eexists _, _. left. split; [reflexivity|]. split; [reflexivity|].
      intros _ row' Hrow'. discriminate Hrow'.
Qed.

Lemma present_nonempty session_id sid : present session_id = Some sid -> sid <> "".
Proof.
  unfold present. destruct session_id as [s|]; [|discriminate].
  destruct (String.eqb_spec s ""); [discriminate|]. congruence.
Qed.

Lemma insights_recorded_present session_id sid final w w' :
  present session_id = Some sid ->
  insights_recorded (Some sid) final w w' -> insights_recorded session_id final w w'.
Proof.
  intros Hp. unfold insights_recorded. rewrite Hp.
  cbn [present]. rewrite (proj2 (String.eqb_neq sid "") (present_nonempty _ _ Hp)). auto.
Qed.

(** The update of the main path: whatever the store does, the stage goes
    on, and the call is on record. *)
Lemma save_insights_recorded session_id final w :
  exists w', save_insights session_id final w = (Ok tt, w')
             /\ llm_log w' = llm_log w
             /\ insights_recorded session_id final w w'.
Proof.
  unfold save_insights.
  destruct (present session_id) as [sid|] eqn:Hp.
  2:{ exists w. unfold insights_recorded. rewrite Hp. repeat split; auto. }
  unfold try_except, bind, except_Exception, print, ret.
  destruct (db_update_recorded sid final w) as (r & w1 & [[Hrun Hrec] | Hempty]).
  2:{ exfalso. exact (present_nonempty _ _ Hp Hempty). }
  apply (insights_recorded_present _ _ _ _ _ Hp) in Hrec.
  assert (Hl : llm_log w1 = llm_log w).
  { pose proof (db_update_keeps_llm_log sid [("categorized_insights", VList final)] w) as Hk.
    rewrite Hrun in Hk. exact Hk. }
  rewrite Hrun. destruct r as [res|e].
  - destruct (r_data res); eexists; (split; [reflexivity|]); split; auto.
  - eexists; split; [reflexivity|]. split; auto.
Qed.

(** The update of the error paths. *)
Lemma save_empty_insights_recorded session_id final complaint w :
  exists w', save_empty_insights session_id final complaint w = (Ok tt, w')
             /\ llm_log w' = llm_log w
             /\ insights_recorded session_id final w w'.
Proof.
  unfold save_empty_insights.
  destruct (present session_id) as [sid|] eqn:Hp.
  2:{ exists w. unfold insights_recorded. rewrite Hp. repeat split; auto. }
  unfold try_except, bind, except_Exception, print, ret.
  destruct (db_update_recorded sid final w) as (r & w1 & [[Hrun Hrec] | Hempty]).
  2:{ exfalso. exact (present_nonempty _ _ Hp Hempty). }
  apply (insights_recorded_present _ _ _ _ _ Hp) in Hrec.
  assert (Hl : llm_log w1 = llm_log w).
  { pose proof (db_update_keeps_llm_log sid [("categorized_insights", VList final)] w) as Hk.
    rewrite Hrun in Hk. exact Hk. }
  rewrite Hrun. destruct r as [res|e]; eexists; (split; [reflexivity|]); split; auto.
Qed.

Lemma insights_recorded_after_request session_id final msgs w w' :
  insights_recorded session_id final (log_llm msgs w) w' ->
  insights_recorded session_id final w w'.
Proof. unfold insights_recorded. cbn [db_log sessions log_llm]. tauto. Qed.

(** The end of the main path, after the model's reply. *)
Lemma finish_with_insights session_id final msgs w :
  exists w',
    (let* _ := save_insights session_id final in
     ret [U_structured_insights final]) (log_llm msgs w)
    = (Ok [U_structured_insights final], w')
    /\ insights_recorded session_id final w w'.
Proof.
  destruct (save_insights_recorded session_id final (log_llm msgs w)) as (w' & Hrun & _ & Hrec).
  exists w'. unfold bind, ret. rewrite Hrun. split; [reflexivity|].
  exact (insights_recorded_after_request _ _ _ _ _ Hrec).
Qed.

(** The end of an error path, after the model's reply. *)
Lemma finish_with_empty session_id complaint msgs w :
  exists w',
    (let* _ := save_empty_insights session_id [] complaint in
     ret [U_structured_insights []]) (log_llm msgs w)
    = (Ok [U_structured_insights []], w')
    /\ insights_recorded session_id [] w w'.
Proof.
  destruct (save_empty_insights_recorded session_id [] complaint (log_llm msgs w))
    as (w' & Hrun & _ & Hrec).
  exists w'. unfold bind, ret. rewrite Hrun. split; [reflexivity|].
  exact (insights_recorded_after_request _ _ _ _ _ Hrec).
Qed.

(** Every run of the stage: it returns the list read off the model's
    reply and has sent the store one update that carries it. *)
Lemma parse_insights_node_run (st : AgentState) (w : World) :
  exists w',
    parse_insights_node st w
    = (Ok [U_structured_insights (final_insights_of st w)], w')
    /\ insights_recorded (session_id st) (final_insights_of st w) w w'.
Proof.
  unfold parse_insights_node, final_insights_of.
  destruct (String.eqb (analysis st) "") eqn:Ha.
  - destruct (save_empty_insights_recorded (session_id st) [] " with empty insights: " w)
      as (w' & Hrun & _ & Hrec).
    exists w'. unfold bind, ret. rewrite Hrun. split; [reflexivity | exact Hrec].
  - unfold try_except, bind at 1, llm_ainvoke. fold (insights_request st).
    destruct (llm_reply (length (llm_log w)) (insights_request st)) as [resp|e] eqn:Hr.
    + unfold insights_of_json, bind at 1. cbv zeta.
      destruct (String.eqb (extract_json_from_text (PyStr.strip resp)) "") eqn:Hj.
      * unfold ret at 1.
        destruct (finish_with_insights (session_id st) [] (insights_request st) w)
          as (w' & Hrun & Hrec).
        exists w'. rewrite Hrun. split; [reflexivity | exact Hrec].
      * unfold bind at 1, lift.
        destruct (json_loads (extract_json_from_text (PyStr.strip resp)))
          as [parsed|e] eqn:Hl.
        -- assert (Hdone : forall final,
             exists w',
               (let (r, w'0) := ret final (log_llm (insights_request st) w) in
                match r with
                | Ok a => (let* _ := save_insights (session_id st) a in
                           ret [U_structured_insights a]) w'0
                | Raise e => (Raise e, w'0)
                end)
               = (Ok [U_structured_insights final], w')
               /\ insights_recorded (session_id st) final w w').
           { intros final. unfold ret at 1. apply finish_with_insights. }
           destruct parsed as [| | | | | |d];
             try (destruct (Hdone []) as (w' & Hrun & Hrec); exists w';
                  rewrite Hrun; split; [reflexivity | exact Hrec]).
           destruct (dict_get "insights" d) as [[| | | | |items|]|];
             try (destruct (Hdone []) as (w' & Hrun & Hrec); exists w';
                  rewrite Hrun; split; [reflexivity | exact Hrec]).
           rewrite validate_loop_omap. cbn [app].
           destruct (Hdone (omap validate_insight items)) as (w' & Hrun & Hrec).
           exists w'. rewrite Hrun. split; [reflexivity | exact Hrec].
        -- cbn beta iota. destruct e; apply finish_with_empty.
    + cbn beta iota. destruct e; apply finish_with_empty.
Qed.

(** C2. For every model output, every item of the list the stage returns
    and sends to the store is a record with the five fields label,
    value, trend, context and data (its trend one of up, down, stable,
    its data a list); the list is what validation keeps of the model's
    items; a record that lacks one of the five fields is dropped; a
    record that has them is kept, with its trend replaced by "stable"
    when outside the enumeration and its data replaced by the empty
    list when no list. *)
Theorem parse_insights_node_validated_items (st : AgentState) (w : World) :
  exists final w',
    parse_insights_node st w = (Ok [U_structured_insights final], w')
    /\ (forall sid, present (session_id st) = Some sid ->
          db_log w' = db_log w ++ [DbUpdate sid [("categorized_insights", VList final)]])
    /\ Forall complete_insight final
    /\ (forall resp d items,
          analysis st <> "" ->
          llm_reply (length (llm_log w)) (insights_request st) = Ok resp ->
          extract_json_from_text (PyStr.strip resp) <> "" ->
          json_loads (extract_json_from_text (PyStr.strip resp)) = Ok (VDict d) ->
          dict_get "insights" d = Some (VList items) ->
          final = omap validate_insight items)
    /\ (forall d, lacks_a_field d -> validate_insight (VDict d) = None)
    /\ (forall d,
          (forall field, In field required_fields -> exists v, dict_get field d = Some v) ->
          exists d', validate_insight (VDict d) = Some (VDict d')
            /\ (forall trend, dict_get "trend" d = Some trend ->
                  dict_get "trend" d'
                  = Some (if in_strs trend ["up"; "down"; "stable"]
                          then trend else VStr "stable"))
            /\ (forall points, dict_get "data" d = Some points ->
                  dict_get "data" d' = Some (if is_list points then points else VList []))
            /\ (forall k, k <> "trend" -> k <> "data" -> dict_get k d' = dict_get k d)).
Proof.
  destruct (parse_insights_node_run st w) as (w' & Hrun & Hrec).
  exists (final_insights_of st w), w'. split; [exact Hrun|]. split; [|split; [|split]].
  - intros sid Hsid. unfold insights_recorded in Hrec. rewrite Hsid in Hrec. apply Hrec.
  - unfold final_insights_of.
    destruct (String.eqb (analysis st) ""); [constructor|].
    destruct (llm_reply _ _) as [resp|e]; [|constructor]. cbv zeta.
    destruct (String.eqb _ ""); [constructor|].
    destruct (json_loads _) as [[| | | | | |d]|e]; try constructor.
    destruct (dict_get "insights" d) as [[| | | | |items|]|]; try constructor.
    apply omap_validate_complete.
  - intros resp d items Ha Hr Hj Hl Hi. unfold final_insights_of.
    apply String.eqb_neq in Ha, Hj. rewrite Ha, Hr. cbv zeta. rewrite Hj, Hl, Hi.
    reflexivity.
  - split; [exact validate_insight_dropped | exact validate_insight_kept].
Qed.

(** C6. For every session id and every model output, when the stage
    completes it has sent the store one update of categorized_insights
    that carries the list it returns, and a store that carries the
    update out holds that list in place of the previous value. The list
    is empty on an empty analysis, a failed model call, no extractable
    JSON, a JSON parse failure and a wrong top-level structure;
    otherwise it is all that validation keeps of the model's items, as
    many as the model gave when all are valid, with no cap of five. *)
Theorem parse_insights_node_overwrites (st : AgentState) (w : World) (sid : string) :
  present (session_id st) = Some sid ->
  exists final w',
    parse_insights_node st w = (Ok [U_structured_insights final], w')
    /\ db_log w' = db_log w ++ [DbUpdate sid [("categorized_insights", VList final)]]
    /\ (db_reply_at (length (db_log w)) = DbAnswers ->
        forall row, sessions w !! sid = Some row ->
          exists row', sessions w' !! sid = Some row'
            /\ dict_get "categorized_insights" row' = Some (VList final))
    /\ (analysis st = "" -> final = [])
    /\ (forall e, llm_reply (length (llm_log w)) (insights_request st) = Raise e ->
          final = [])
    /\ (forall resp,
          llm_reply (length (llm_log w)) (insights_request st) = Ok resp ->
          extract_json_from_text (PyStr.strip resp) = "" -> final = [])
    /\ (forall resp e,
          llm_reply (length (llm_log w)) (insights_request st) = Ok resp ->
          json_loads (extract_json_from_text (PyStr.strip resp)) = Raise e -> final = [])
    /\ (forall resp parsed,
          llm_reply (length (llm_log w)) (insights_request st) = Ok resp ->
          json_loads (extract_json_from_text (PyStr.strip resp)) = Ok parsed ->
          (forall d items, parsed = VDict d -> dict_get "insights" d <> Some (VList items)) ->
          final = [])
    /\ (forall resp d items,
          analysis st <> "" ->
          llm_reply (length (llm_log w)) (insights_request st) = Ok resp ->
          extract_json_from_text (PyStr.strip resp) <> "" ->
          json_loads (extract_json_from_text (PyStr.strip resp)) = Ok (VDict d) ->
          dict_get "insights" d = Some (VList items) ->
          final = omap validate_insight items
          /\ (Forall (fun item => exists ok, validate_insight item = Some ok) items ->
              length final = length items)).
Proof.
  intros Hsid. destruct (parse_insights_node_run st w) as (w' & Hrun & Hrec).
  unfold insights_recorded in Hrec. rewrite Hsid in Hrec. destruct Hrec as [Hlog Hstore].
  exists (final_insights_of st w), w'. split; [exact Hrun|]. split; [exact Hlog|].
  split; [|split; [|split; [|split; [|split; [|split]]]]].
  - intros Hreply row Hrow. rewrite (Hstore Hreply row Hrow).
    eexists. split; [apply lookup_insert_eq | apply dict_get_set_eq].
  - intros Ha. unfold final_insights_of. rewrite Ha. reflexivity.
  - intros e Hr. unfold final_insights_of. rewrite Hr.
    destruct (String.eqb (analysis st) ""); reflexivity.
  - intros resp Hr Hj. unfold final_insights_of. rewrite Hr. cbv zeta. rewrite Hj.
    destruct (String.eqb (analysis st) ""); reflexivity.
  - intros resp e Hr Hl. unfold final_insights_of. rewrite Hr. cbv zeta. rewrite Hl.
    destruct (String.eqb (analysis st) ""); [reflexivity|].
    destruct (String.eqb _ ""); reflexivity.
  - intros resp parsed Hr Hl Hshape. unfold final_insights_of. rewrite Hr. cbv zeta.
    rewrite Hl.
    destruct (String.eqb (analysis st) ""); [reflexivity|].
    destruct (String.eqb _ ""); [reflexivity|].
    destruct parsed as [| | | | | |d]; try reflexivity.
    destruct (dict_get "insights" d) as [[| | | | |items|]|] eqn:Hi; try reflexivity.
    exfalso. exact (Hshape d items eq_refl Hi).
  - intros resp d items Ha Hr Hj Hl Hi.
    assert (Hfinal : final_insights_of st w = omap validate_insight items).
    { unfold final_insights_of. apply String.eqb_neq in Ha, Hj.
      rewrite Ha, Hr. cbv zeta. rewrite Hj, Hl, Hi. reflexivity. }
    split; [exact Hfinal|]. intros Hall. rewrite Hfinal. apply omap_all_kept, Hall.
Qed.

End ParseInsights.

(** * The Data Loader *)

Lemma failure_update_reported st upd :
  session_id st = None -> failure_update upd -> reports_failure st upd.
Proof.
  intros Hsid (msg & [-> | [-> | ->]]); unfold reports_failure; cbn; eauto.
Qed.

Section Loader.
Context `{Env}.

Lemma storage_download_same_store bucket path w :
  same_store w (snd (storage_download bucket path w)).
Proof.
  unfold storage_download, same_store.
  destruct (storage_reply_at _); cbn; auto.
Qed.

Lemma download_table_run path w :
  exists r w', download_table path w = (Ok r, w') /\ same_store w w'
    /\ (forall early, r = inl early -> failure_update early).
Proof.
  unfold download_table, try_except, bind at 1, except_Exception, ret.
  pose proof (storage_download_same_store "uploads" (str_of path) w) as Hs.
  destruct (storage_download "uploads" (str_of path) w) as [[bytes|e] w1]; cbn [snd] in Hs.
  - destruct bytes as [[|c b]|].
    + eexists _, _. split; [reflexivity|]. split; [exact Hs|].
      intros early Heq. inversion Heq. eexists. left. reflexivity.
    + unfold bind, lift. destruct (read_excel (String c b)) as [df|e].
      * eexists _, _. split; [reflexivity|]. split; [exact Hs|]. discriminate.
      * eexists _, _. split; [reflexivity|]. split; [exact Hs|].
        intros early Heq. inversion Heq. eexists. left. reflexivity.
    + eexists _, _. split; [reflexivity|]. split; [exact Hs|].
      intros early Heq. inversion Heq. eexists. left. reflexivity.
  - eexists _, _. split; [reflexivity|]. split; [exact Hs|].
    intros early Heq. inversion Heq. eexists. left. reflexivity.
Qed.

Lemma direct_table_run payload w :
  exists r, direct_table payload w = (Ok r, w)
    /\ (forall early, r = inl early -> failure_update early).
Proof.
  unfold direct_table. destruct (forallb is_dict payload).
  - unfold try_except, bind, lift, except_Exception, ret.
    destruct (pd_DataFrame payload) as [df|e].
    + eexists. split; [reflexivity|]. discriminate.
    + eexists. split; [reflexivity|].
      intros early Heq. inversion Heq. eexists. left. reflexivity.
  - unfold ret. eexists. split; [reflexivity|].
    intros early Heq. inversion Heq. eexists. right. left. reflexivity.
Qed.

Lemma load_table_run payload w :
  (exists e, load_table payload w = (Raise e, w))
  \/ (exists r w', load_table payload w = (Ok r, w') /\ same_store w w'
        /\ (forall early, r = inl early -> failure_update early)).
Proof.
  unfold load_table, bind, lift.
  destruct (supabase_file_input payload) as [[path|]|e].
  - right. apply download_table_run.
  - right. destruct (direct_table_run payload w) as (r & Hrun & Hearly).
    exists r, w. split; [exact Hrun|]. split; [|exact Hearly]. repeat split.
  - left. eauto.
Qed.

Lemma check_upload_same res w r w' : check_upload res w = (r, w') -> w' = w.
Proof.
  unfold check_upload, bind, lift, raise, ret.
  repeat match goal with
         | |- context [match ?x with _ => _ end] => destruct x
         end; congruence.
Qed.

Lemma check_upload_passed res w w' :
  check_upload res w = (Ok tt, w') -> ~ upload_refused res.
Proof.
  unfold check_upload, upload_refused, bind, lift, raise, ret.
  intros Hc [Hf | (d & err & -> & Herr & Ht)].
  - rewrite Hf in Hc. cbn [negb andb] in Hc.
    destruct res as [| | | | | |d]; try discriminate.
    destruct (dict_get "error" d); discriminate.
  - rewrite Herr, Ht in Hc. destruct (truthy (VDict d)); cbn [andb negb] in Hc.
    + destruct err as [| | | | | |e]; try discriminate.
      destruct (dict_item "message" e); discriminate.
    + discriminate.
Qed.

(** The record a successful creation has inserted. *)
Lemma create_session_created df descr w sid w' :
  create_session df descr w = (Ok sid, w') ->
  sid = uuid4 (uuids_drawn w)
  /\ sessions w !! sid = None
  /\ sessions w'
     = <[sid := session_record sid descr ("processed_data/" +:+ sid +:+ ".parquet")
                  (clock (clock_reads w))]> (sessions w)
  /\ db_log w'
     = db_log w ++ [DbInsert (session_record sid descr
                                ("processed_data/" +:+ sid +:+ ".parquet")
                                (clock (clock_reads w)))]
  /\ db_reply_at (length (db_log w)) = DbAnswers
  /\ ~ upload_fails w.
Proof.
  unfold create_session, bind at 1, new_uuid, upload_fails.
  unfold bind at 1, lift. destruct (to_parquet df) as [parquet|e]; [|discriminate].
  unfold bind at 1, storage_upload.
  cbn [storage_log draw_uuid].
  destruct (storage_reply_at (length (storage_log w))) as [e|res|res]; [discriminate| |].
  all: unfold bind at 1;
    match goal with |- context [check_upload ?r ?w1] =>
      destruct (check_upload r w1) as [[[]|e] w2] eqn:Hc end; [|discriminate];
    pose proof (check_upload_passed _ _ _ Hc) as Hpass;
    apply check_upload_same in Hc; subst w2.
  all: unfold bind at 1, datetime_now; unfold bind, db_insert;
    cbn [db_log log_storage with_blobs read_clock draw_uuid clock_reads sessions
         uuids_drawn log_db];
    destruct (db_reply_at (length (db_log w))) as [e| |]; try discriminate;
    cbn [session_record dict_get key_eqb String.eqb Ascii.eqb Bool.eqb];
    destruct (sessions w !! uuid4 (uuids_drawn w)) eqn:Hfree; try discriminate;
    cbn [r_data]; unfold ret; intros Heq; inversion Heq; subst; clear Heq;
    repeat split; auto.
Qed.

(** A creation that raises has inserted nothing. *)
Lemma create_session_raised df descr w e w' :
  create_session df descr w = (Raise e, w') -> sessions w' = sessions w.
Proof.
  unfold create_session, bind at 1, new_uuid.
  unfold bind at 1, lift. destruct (to_parquet df) as [parquet|e0].
  2:{ intros Heq; inversion Heq; reflexivity. }
  unfold bind at 1, storage_upload. cbn [storage_log draw_uuid].
  destruct (storage_reply_at (length (storage_log w))) as [e0|res|res].
  { intros Heq; inversion Heq; reflexivity. }
  all: unfold bind at 1;
    match goal with |- context [check_upload ?r ?w1] =>
      destruct (check_upload r w1) as [[[]|e0] w2] eqn:Hc end;
    apply check_upload_same in Hc; subst w2;
    [| intros Heq; inversion Heq; reflexivity].
  all: unfold bind at 1, datetime_now; unfold bind, db_insert;
    cbn [db_log log_storage with_blobs read_clock draw_uuid clock_reads sessions
         uuids_drawn log_db];
    destruct (db_reply_at (length (db_log w))) as [e0| |];
    [ intros Heq; inversion Heq; reflexivity
    | cbn [r_data]; unfold raise; intros Heq; inversion Heq; reflexivity
    | ];
    cbn [session_record dict_get key_eqb String.eqb Ascii.eqb Bool.eqb];
    destruct (sessions w !! uuid4 (uuids_drawn w)) eqn:Hfree;
    [ intros Heq; inversion Heq; reflexivity
    | cbn [r_data]; unfold ret; discriminate ].
Qed.

(** Every run of the loader: it raises before any call (a payload whose
    only element is no dictionary), or returns a failure with the table
    of sessions as it was, or has created the session it returns. *)
Lemma load_data_node_run (st : AgentState) (w : World) res w' :
  load_data_node st w = (res, w') ->
  (exists e, res = Raise e /\ load_table (data st) w = (Raise e, w))
  \/ (exists upd, res = Ok upd /\ failure_update upd /\ sessions w' = sessions w)
  \/ (exists rows df descr w1 sid,
        res = Ok [U_loaded_data rows; U_dataframe (Some df);
                  U_session_id (Some sid); U_error None]
        /\ load_table (data st) w = (Ok (inr (rows, Some df, descr)), w1)
        /\ same_store w w1
        /\ df_empty df = false
        /\ create_session df descr w1 = (Ok sid, w')).
Proof.
  unfold load_data_node. destruct (data st) as [|first more] eqn:Hdata.
  - intros Hrun. inversion Hrun; subst. right. left. eexists. split; [reflexivity|].
    split; [|reflexivity]. eexists. right. left. reflexivity.
  - cbn beta iota. clear Hdata. unfold bind at 1.
    destruct (load_table_run (first :: more) w)
      as [[e He] | (r & w1 & Hrun & Hsame & Hearly)].
    + rewrite He. intros Heq; inversion Heq; subst. left. eauto.
    + rewrite Hrun.
      destruct r as [early | [[rows df] descr]].
      * intros Heq; inversion Heq; subst. right. left. exists early.
        split; [reflexivity|]. split; [apply Hearly; reflexivity | apply Hsame].
      * assert (Hempty : failure_update
                  [U_error (Some "ERROR: No data loaded or DataFrame is empty after processing. Cannot create session.");
                   U_loaded_data []; U_dataframe None; U_session_id None]).
        { eexists. right. right. reflexivity. }
        destruct df as [df|].
        2:{ intros Heq; inversion Heq; subst. right. left. eexists.
            split; [reflexivity|]. split; [exact Hempty | apply Hsame]. }
        destruct (df_empty df) eqn:He; cbn [negb].
        { intros Heq; inversion Heq; subst. right. left. eexists.
          split; [reflexivity|]. split; [exact Hempty | apply Hsame]. }
        unfold bind at 1, try_except, bind at 1, except_Exception, ret.
        destruct (create_session df descr w1) as [[sid|e] w2] eqn:Hc.
        -- intros Heq; inversion Heq; subst. right. right.
           exists rows, df, descr, w1, sid. repeat split; auto; apply Hsame.
        -- intros Heq; inversion Heq; subst. right. left. eexists.
           split; [reflexivity|]. split.
           ++ eexists. right. right. reflexivity.
           ++ rewrite (create_session_raised _ _ _ _ _ Hc). apply Hsame.
Qed.

(** C3 (as the code has it). When the loader returns a session id, the
    record it has inserted into the table of sessions under that id is
    the last call the store has received, holds initial_analysis = null,
    chat_history = [] and expires_at = the creation time plus 24 hours,
    and has exactly the six keys session_id, original_file_path,
    dataframe_storage_path, initial_analysis, expires_at and
    chat_history: it carries no categorized_insights field. *)
Theorem load_data_node_session_record (st : AgentState) (w w' : World)
  (upd : update) (sid : string) :
  load_data_node st w = (Ok upd, w') ->
  In (U_session_id (Some sid)) upd ->
  exists record descr,
    record = session_record sid descr ("processed_data/" +:+ sid +:+ ".parquet")
               (clock (clock_reads w))
    /\ sessions w' !! sid = Some record
    /\ last (db_log w') = Some (DbInsert record)
    /\ dict_get "initial_analysis" record = Some VNone
    /\ dict_get "chat_history" record = Some (VList [])
    /\ dict_get "expires_at" record
       = Some (VStr (isoformat (clock (clock_reads w) + 24 * 3600 * 1000000)%Z))
    /\ dict_get "categorized_insights" record = None
    /\ dict_keys record
       = ["session_id"; "original_file_path"; "dataframe_storage_path";
          "initial_analysis"; "expires_at"; "chat_history"].
Proof.
  intros Hrun Hin.
  destruct (load_data_node_run st w _ _ Hrun)
    as [(e & He & _) | [(upd' & Hr & Hfail & _)
                       | (rows & df & descr & w1 & sid' & Hr & _ & Hsame & _ & Hc)]].
  - discriminate.
  - exfalso. inversion Hr; subst upd'.
    destruct Hfail as (msg & [-> | [-> | ->]]); cbn in Hin;
      repeat (destruct Hin as [Hin|Hin]; [discriminate|]); exact Hin.
  - inversion Hr; subst upd. clear Hr.
    assert (sid' = sid).
    { cbn in Hin. repeat (destruct Hin as [Hin|Hin]; try discriminate).
      - inversion Hin. reflexivity.
      - contradiction. }
    subst sid'.
    destruct (create_session_created _ _ _ _ _ Hc) as (_ & _ & Hs & Hlog & _).
    destruct Hsame as (_ & _ & _ & Hclock). rewrite Hclock in Hs, Hlog.
    eexists _, descr. split; [reflexivity|]. split; [|split].
    + rewrite Hs. apply lookup_insert_eq.
    + rewrite Hlog. apply last_snoc.
    + cbn. unfold timedelta_hours. repeat split.
Qed.

(** C7. When loading fails (the table is empty, parsing the inline
    records or the spreadsheet fails, the blob write fails, or the
    record insert fails) the stage returns a state whose error field is
    set and whose session id is absent, and the table of sessions is
    left as it was, so no session identifier is ever returned for a
    session that was not stored. *)
Theorem load_data_node_fails_without_session (payload : list value) (w : World) :
  load_fails payload w ->
  exists upd w',
    load_data_node (invoke_inputs payload) w = (Ok upd, w')
    /\ sessions w' = sessions w
    /\ reports_failure (invoke_inputs payload) upd.
Proof.
  intros Hfail.
  assert (Hgoal : forall upd w',
    load_data_node (invoke_inputs payload) w = (Ok upd, w') ->
    failure_update upd -> sessions w' = sessions w ->
    exists upd w',
      load_data_node (invoke_inputs payload) w = (Ok upd, w')
      /\ sessions w' = sessions w
      /\ reports_failure (invoke_inputs payload) upd).
  { intros upd w' Hr Hf Hs. exists upd, w'. repeat split; auto;
      apply (failure_update_reported (invoke_inputs payload) upd eq_refl Hf). }
  destruct (load_data_node (invoke_inputs payload) w) as [res w2] eqn:Hrun.
  destruct (load_data_node_run _ _ _ _ Hrun)
    as [(e & -> & Hraise) | [(upd & -> & Hf & Hs)
                 | (rows & df & descr & w1 & sid & -> & Ht & Hsame & Hne & Hc)]];
    cbn [data invoke_inputs] in *.
  - (* the stage raised: the payload is one element that is no dictionary *)
    exfalso.
    assert (Hinput : exists e', supabase_file_input payload = Raise e').
    { revert Hraise. unfold load_table, bind, lift.
      destruct (supabase_file_input payload) as [[path|]|e']; [| |eauto].
      - destruct (download_table_run path w) as (r & w3 & -> & _). discriminate.
      - destruct (direct_table_run payload w) as (r & -> & _). discriminate. }
    destruct Hinput as [e' Hinput].
    destruct Hfail as [rows df descr w1 Ht _ | e0 Hi _ _ | path c bytes w1 e0 Hi _ _
                      | rows df descr w1 Ht _ _ | rows df descr w1 Ht _ _];
      congruence.
  - exact (Hgoal upd w2 eq_refl Hf Hs).
  - (* the stage created a session: none of the failures took place *)
    exfalso.
    destruct (create_session_created _ _ _ _ _ Hc) as (_ & _ & _ & _ & Hdb & Hup).
    destruct Hfail as [rows' df' descr' w1' Ht' Hempty | e0 Hi Hd Hp
                      | path c bytes w1' e0 Hi Hdl Hx
                      | rows' df' descr' w1' Ht' _ Hu | rows' df' descr' w1' Ht' _ Hi].
    + rewrite Ht in Ht'. inversion Ht'; subst. congruence.
    + revert Ht. unfold load_table, bind, lift. rewrite Hi.
      unfold direct_table. rewrite Hd. unfold try_except, bind, lift, except_Exception, ret.
      rewrite Hp. discriminate.
    + revert Ht. unfold load_table, bind at 1, lift. rewrite Hi.
      unfold download_table, try_except, bind at 1. rewrite Hdl.
      unfold try_except, bind, lift, except_Exception, ret. rewrite Hx. discriminate.
    + rewrite Ht in Ht'. inversion Ht'; subst. contradiction.
    + rewrite Ht in Ht'. inversion Ht'; subst. contradiction.
Qed.

End Loader.

(** * The Follow-up Engine *)

Section Chat.
Context `{Env}.

(** The first block of chat_with_insight never leaves current_df at
    None: it ends with a table or with an HTTP error. *)
Lemma fetch_chat_context_grounded session_id w df ctx history w' :
  fetch_chat_context session_id w = (Ok (df, ctx, history), w') -> df <> None.
Proof.
  unfold fetch_chat_context, try_except, bind at 1.
  destruct (db_select_one None session_id w) as [[res|e] w1]; [|destruct e; discriminate].
  destruct (r_data res) as [[|[k v] row]|]; try (unfold raise; discriminate).
  unfold bind at 1, lift.
  destruct (dict_item "dataframe_storage_path" ((k, v) :: row)) as [path|e];
    [|destruct e; discriminate].
  unfold bind at 1.
  destruct (storage_download _ _ w1) as [[bytes|e] w2]; [|destruct e; discriminate].
  destruct bytes as [[|c b]|]; try (unfold raise; discriminate).
  unfold bind, lift, ret. destruct (read_parquet (String c b)) as [d|e];
    [|destruct e; discriminate].
  intros Heq; inversion Heq; subst. discriminate.
Qed.

Lemma fetch_chat_context_unknown session_id w :
  sessions w !! session_id = None ->
  exists e,
    fetch_chat_context session_id w = (Raise e, log_db (DbSelectOne None session_id) w)
    /\ match db_reply_at (length (db_log w)) with
       | DbRaises x =>
           e = match x with
               | HTTPException _ _ => x
               | _ => HTTPException 500 ("Error retrieving session context: " +:+ exn_str x)
               end
       | _ => e = HTTPException 404 ("Session " +:+ session_id +:+ " not found or expired.")
       end.
Proof.
  intros Hnone. unfold fetch_chat_context, try_except, bind at 1, db_select_one.
  destruct (db_reply_at (length (db_log w))) as [x| |].
  - destruct x; eexists; split; reflexivity.
  - eexists; split; reflexivity.
  - rewrite Hnone. eexists; split; reflexivity.
Qed.

(** C4. An unknown session whose lookup raises, as the client's lookup
    of one record does when no row matches, is not answered with a 404:
    for a follow-up question whose session id has no record in the
    table of sessions and a lookup that raises an exception that is no
    HTTPException, the handler ends with HTTP 500 "Error retrieving
    session context: ...", not with the 404 it raises for a response
    without data. No answer is returned, the agent is not invoked, and
    the sessions are unchanged. *)
Theorem chat_with_insight_unknown_session_is_500
  (payload : ChatRequest) (w : World) (x : exn) :
  sessions w !! req_session_id payload = None ->
  db_reply_at (length (db_log w)) = DbRaises x ->
  (forall code detail, x <> HTTPException code detail) ->
  exists w',
    chat_with_insight payload w
    = (Raise (HTTPException 500 ("Error retrieving session context: " +:+ exn_str x)), w')
    /\ agent_log w' = agent_log w
    /\ sessions w' = sessions w
    /\ db_log w' = db_log w ++ [DbSelectOne None (req_session_id payload)].
Proof.
  intros Hnone Hraises Hnohttp.
  destruct (fetch_chat_context_unknown _ _ Hnone) as (e & Hrun & He).
  rewrite Hraises in He.
  exists (log_db (DbSelectOne None (req_session_id payload)) w).
  unfold chat_with_insight, bind at 1. rewrite Hrun. subst e.
  split; [|split; [reflexivity|split; reflexivity]].
  destruct x; try reflexivity. exfalso. exact (Hnohttp _ _ eq_refl).
Qed.

(** X26. A follow-up question whose session id has no record in the
    table of sessions ends with an HTTP error and no answer, and the
    agent is never invoked; whenever the store answers the lookup
    (rather than raising), the error is the 404 that names the session.
    The handler never reaches the answer drawn from the globals of the
    last processed session. *)
Theorem chat_with_insight_unknown_session (payload : ChatRequest) (w : World) :
  sessions w !! req_session_id payload = None ->
  exists e w',
    chat_with_insight payload w = (Raise e, w')
    /\ agent_log w' = agent_log w
    /\ ((forall x, db_reply_at (length (db_log w)) <> DbRaises x) ->
        e = HTTPException 404
              ("Session " +:+ req_session_id payload +:+ " not found or expired.")).
Proof.
  intros Hnone.
  destruct (fetch_chat_context_unknown _ _ Hnone) as (e & Hrun & He).
  exists e, (log_db (DbSelectOne None (req_session_id payload)) w).
  unfold chat_with_insight, bind at 1. rewrite Hrun.
  split; [reflexivity|]. split; [reflexivity|].
  intros Hanswers. destruct (db_reply_at (length (db_log w))) as [x| |]; auto.
  exfalso. exact (Hanswers x eq_refl).
Qed.

(** X1. A follow-up question on a stored session whose table is stored
    and whose history parses, the agent returning an output: the handler
    sends the store one update of chat_history that carries the stored
    turns followed by the question and the answer. A store that carries
    it out holds that list and the answer is returned. A store that
    answers it without data makes the handler read the attribute error
    of the response, which the response does not have: the request ends
    with HTTP 500 and the answer is lost, as it is when the update
    raises. *)
Lemma chat_with_insight_appends_turns (payload : ChatRequest) (w : World)
  (row : dict) (path : value) (c : ascii) (bytes : string) (res : value)
  (df : DataFrame) (turns : list value) (history : list message)
  (output : option string) :
  sessions w !! req_session_id payload = Some row ->
  db_reply_at (length (db_log w)) = DbAnswers ->
  dict_get "dataframe_storage_path" row = Some path ->
  storage_reply_at (length (storage_log w)) = StDone res ->
  blobs w !! ("processeddfs", str_of path) = Some (String c bytes) ->
  read_parquet (String c bytes) = Ok df ->
  dict_get "chat_history" row = Some (VList turns) ->
  history_messages turns = Ok history ->
  agent_reply (length (agent_log w)) df (agent_memory row history) (req_question payload)
  = Ok output ->
  exists result w',
    chat_with_insight payload w = (result, w')
    /\ db_log w'
       = db_log w ++
         [DbSelectOne None (req_session_id payload);
          DbUpdate (req_session_id payload)
            [("chat_history",
              VList (turns ++ [chat_turn "user" (req_question payload);
                               chat_turn "assistant" (answer_of output)]))]]
    /\ (db_reply_at (S (length (db_log w))) = DbAnswers ->
        result = Ok (answer_of output)
        /\ sessions w'
           = <[req_session_id payload :=
                 dict_set "chat_history"
                   (VList (turns ++ [chat_turn "user" (req_question payload);
                                     chat_turn "assistant" (answer_of output)])) row]>
               (sessions w))
    /\ (db_reply_at (S (length (db_log w))) = DbRefuses ->
        result = Raise (HTTPException 500
                          "Error processing chat question: 'APIResponse' object has no attribute 'error'")
        /\ sessions w' = sessions w)
    /\ (forall x, db_reply_at (S (length (db_log w))) = DbRaises x ->
        result = Raise (HTTPException 500
                          ("Error processing chat question: " +:+ exn_str x))
        /\ sessions w' = sessions w).
Proof.
  intros Hrow Hsel Hpath Hst Hblob Hpq Hhist Hmsgs Hagent.
  unfold chat_with_insight, bind at 1.
  assert (Hctx : fetch_chat_context (req_session_id payload) w
          = (Ok (Some df, default (VStr "") (dict_get "initial_analysis" row), VList turns),
             log_storage (Download "processeddfs" (str_of path))
               (log_db (DbSelectOne None (req_session_id payload)) w))).
  { unfold fetch_chat_context, try_except, bind at 1, db_select_one.
    rewrite Hsel, Hrow. cbn [fmap option_fmap option_map project r_data].
    destruct row as [|[k v] row']; [discriminate|].
    unfold bind at 1, lift, dict_item. rewrite Hpath.
    unfold bind at 1, storage_download. cbn [storage_log log_db blobs].
    rewrite Hst, Hblob. unfold bind, lift, ret. rewrite Hpq, Hhist. reflexivity. }
  rewrite Hctx. cbn beta iota. unfold bind at 1, ret. cbn [fst snd].
  unfold answer_question, try_except, bind at 1, lift.
  cbn [iterate_history]. rewrite Hmsgs.
  unfold bind at 1, agent_ainvoke. cbn [agent_log log_storage log_db].
  fold (agent_memory row history). rewrite Hagent. fold (answer_of output).
  unfold bind at 1, lift. cbn [history_plus].
  unfold bind at 1, db_update.
  cbn [db_log log_agent log_storage log_db length sessions].
  rewrite length_app. cbn [length]. rewrite Nat.add_1_r.
  destruct (db_reply_at (S (length (db_log w)))) as [x| |] eqn:Hupd.
  - unfold except_Exception, bind, print, raise.
    destruct x; eexists _, _; (split; [reflexivity|]);
      cbn [db_log log_console log_db log_agent log_storage sessions];
      rewrite <- app_assoc; (split; [reflexivity|]);
      (split; [discriminate|]); (split; [discriminate|]);
      intros x' Heq; inversion Heq; subst x'; split; reflexivity.
  - cbn [r_data]. unfold bind, no_attribute, except_Exception, print, raise.
    eexists _, _. split; [reflexivity|].
    cbn [db_log log_console log_db log_agent log_storage sessions].
    rewrite <- app_assoc. split; [reflexivity|]. split; [discriminate|].
    split; [|discriminate]. intros _. split; reflexivity.
  - rewrite Hrow. cbn [r_data]. unfold bind, print, ret. eexists _, _. split; [reflexivity|].
    cbn [db_log log_console log_db log_agent log_storage sessions with_sessions console].
    rewrite <- app_assoc. split; [reflexivity|]. split; [|split; [|intros x]; discriminate].
    intros _. split; reflexivity.
Qed.

End Chat.

(** C8 (the code at a failing store). The session session-0 is stored,
    the agent answers 42 to the question, and the store raises on the
    update of chat_history: the handler ends with HTTP 500 and the
    answer is lost, where the same call against a store that carries
    the update out returns 42. *)
Theorem chat_with_insight_update_raises_no_answer :
  exists w',
    @chat_with_insight Sample.env_update_raises
      (mkChatRequest "session-0" "Total?" []) Sample.world_with_session
    = (Raise (HTTPException 500 "Error processing chat question: connection reset"), w')
    /\ agent_log w' = ["Total?"]
    /\ sessions w' = sessions Sample.world_with_session
    /\ fst (@chat_with_insight Sample.env
              (mkChatRequest "session-0" "Total?" []) Sample.world_with_session)
       = Ok "42".
Proof.
  eexists. split; [vm_compute; reflexivity|]. 
  split; [reflexivity|]. split; [reflexivity|]. vm_compute. reflexivity.
Qed.

(** * The session-fetch operations *)

Lemma key_in_str k cols : key_in (KStr k) cols = true <-> In k cols.
Proof.
  cbn [key_in]. rewrite bool_decide_eq_true. apply list_elem_of_In.
Qed.

Lemma dict_get_project cols k row :
  In k cols -> dict_get k (project (Some cols) row) = dict_get k row.
Proof.
  intros Hin. unfold project. induction row as [|[k' v] row IH]; [reflexivity|].
  cbn [filter list_filter fst dict_get].
  destruct (decide (key_in k' cols)) as [Hk|Hk].
  - cbn [dict_get]. destruct (key_eqb k' k); [reflexivity | exact IH].
  - destruct (key_eqb k' k) eqn:Heq; [|exact IH].
    exfalso. apply Hk. apply key_eqb_str in Heq. subst k'.
    apply Is_true_true. apply key_in_str. exact Hin.
Qed.

Lemma list_or_empty_is_list stored : is_list (list_or_empty stored) = true.
Proof. destruct stored as [[]|]; reflexivity. Qed.

Lemma defaulted_list stored :
  (if is_list (default (VList []) stored) then default (VList []) stored else VList [])
  = list_or_empty stored.
Proof. destruct stored as [[]|]; reflexivity. Qed.

Lemma session_response_lists row resp :
  session_response row = Ok resp ->
  sdr_chat_history resp = list_or_empty (dict_get "chat_history" row)
  /\ sdr_categorized_insights resp = list_or_empty (dict_get "categorized_insights" row).
Proof.
  unfold session_response. cbv zeta. rewrite !defaulted_list.
  destruct (dict_item "session_id" row) as [sid|e]; [|discriminate].
  unfold new_SessionDataResponse.
  destruct (_ && _); [|discriminate]. intros Heq; inversion Heq; subst. cbn. auto.
Qed.

Lemma session_response_accepts row :
  other_fields_valid row ->
  elements_valid is_dict_of_str (dict_get "chat_history" row) ->
  elements_valid is_dict (dict_get "categorized_insights" row) ->
  exists resp, session_response row = Ok resp.
Proof.
  intros ((s & Hs) & (p & Hp) & Ha) Hc Hi.
  unfold session_response, dict_item. cbv zeta. rewrite !defaulted_list, Hs, Hp.
  unfold new_SessionDataResponse. cbn [default is_str andb].
  assert (Hia : is_optional_str (default (VStr "") (dict_get "initial_analysis" row)) = true).
  { destruct Ha as [-> | [-> | [a ->]]]; reflexivity. }
  rewrite Hia. cbn [andb].
  assert (Hch : is_list_of is_dict_of_str (list_or_empty (dict_get "chat_history" row)) = true).
  { destruct (dict_get "chat_history" row) as [[]|]; try reflexivity. exact Hc. }
  assert (Hci : is_list_of is_dict (list_or_empty (dict_get "categorized_insights" row)) = true).
  { destruct (dict_get "categorized_insights" row) as [[]|]; try reflexivity. exact Hi. }
  rewrite Hch, Hci. eauto.
Qed.

Lemma session_responses_lists rows : forall acc resps,
  session_responses rows acc = Ok resps ->
  exists new, resps = acc ++ new
    /\ Forall2 (fun row resp => session_response row = Ok resp) rows new.
Proof.
  induction rows as [|row rows IH]; intros acc resps Hr; cbn [session_responses] in Hr.
  - inversion Hr; subst. exists []. rewrite app_nil_r. split; [reflexivity | constructor].
  - destruct (session_response row) as [r|e] eqn:Hrow; [|discriminate].
    destruct (IH _ _ Hr) as (new & -> & Hall).
    exists (r :: new). rewrite <- app_assoc. split; [reflexivity|].
    constructor; assumption.
Qed.

Lemma session_responses_accept rows : forall acc,
  Forall (fun row => exists resp, session_response row = Ok resp) rows ->
  exists resps, session_responses rows acc = Ok resps.
Proof.
  induction rows as [|row rows IH]; intros acc Hall; cbn [session_responses].
  - eauto.
  - inversion Hall as [|? ? [resp Hresp] Hrest]; subst. rewrite Hresp. apply IH. exact Hrest.
Qed.

Lemma other_fields_valid_projected cols row :
  In "session_id" cols -> In "dataframe_storage_path" cols -> In "initial_analysis" cols ->
  other_fields_valid row -> other_fields_valid (project (Some cols) row).
Proof.
  intros H1 H2 H3. unfold other_fields_valid. rewrite !dict_get_project by assumption. auto.
Qed.

Section Sessions.
Context `{Env}.

Lemma get_session_data_fetched session_id w row resp w' :
  sessions w !! session_id = Some row ->
  get_session_data session_id w = (Ok resp, w') ->
  sdr_chat_history resp = list_or_empty (dict_get "chat_history" row)
  /\ sdr_categorized_insights resp = list_or_empty (dict_get "categorized_insights" row).
Proof.
  intros Hrow. unfold get_session_data, try_except, bind at 1, db_select_one, except_Exception.
  destruct (db_reply_at (length (db_log w))) as [x| |].
  - unfold bind, print, raise. discriminate.
  - cbn [r_data]. unfold bind, print, raise. discriminate.
  - rewrite Hrow. cbn [fmap option_fmap option_map r_data].
    destruct (project (Some session_columns) row) as [|[k v] prow] eqn:Hp.
    { unfold bind, print, raise. discriminate. }
    rewrite <- Hp.
    assert (Hch : dict_get "chat_history" (project (Some session_columns) row)
                  = dict_get "chat_history" row)
      by (apply dict_get_project; cbn; tauto).
    assert (Hci : dict_get "categorized_insights" (project (Some session_columns) row)
                  = dict_get "categorized_insights" row)
      by (apply dict_get_project; cbn; tauto).
    rewrite Hch, Hci.
    set (prow' := project (Some session_columns) row).
    unfold bind, ret, print, lift, raise.
    destruct (is_list (default (VList []) (dict_get "chat_history" row))) eqn:Hl1;
    destruct (is_list (default (VList []) (dict_get "categorized_insights" row))) eqn:Hl2;
    cbn beta iota;
    destruct (dict_item "session_id" prow') as [sidv|e]; try discriminate;
    destruct (dict_item "dataframe_storage_path" prow') as [pathv|e]; try discriminate;
    unfold new_SessionDataResponse;
    (destruct (_ && _); [|discriminate]);
    intros Heq; inversion Heq; subst; cbn [sdr_chat_history sdr_categorized_insights];
    rewrite <- (defaulted_list (dict_get "chat_history" row)),
            <- (defaulted_list (dict_get "categorized_insights" row)), Hl1, Hl2; auto.
Qed.

Lemma get_session_data_accepts session_id w row :
  sessions w !! session_id = Some row ->
  db_reply_at (length (db_log w)) = DbAnswers ->
  other_fields_valid row ->
  elements_valid is_dict_of_str (dict_get "chat_history" row) ->
  elements_valid is_dict (dict_get "categorized_insights" row) ->
  exists resp w', get_session_data session_id w = (Ok resp, w').
Proof.
  intros Hrow Hreply ((s & Hs) & (p & Hp) & Ha) Hc Hi.
  unfold get_session_data, try_except, bind at 1, db_select_one, except_Exception.
  rewrite Hreply, Hrow. cbn [fmap option_fmap option_map r_data].
  assert (Hget : forall k, In k session_columns ->
            dict_get k (project (Some session_columns) row) = dict_get k row)
    by (intros k Hk; apply dict_get_project; exact Hk).
  destruct (project (Some session_columns) row) as [|[k v] prow] eqn:Hproj.
  { specialize (Hget "session_id"). cbn in Hget. rewrite Hs in Hget.
    discriminate Hget. tauto. }
  rewrite (Hget "chat_history"), (Hget "categorized_insights") by (cbn; tauto).
  unfold dict_item.
  rewrite (Hget "session_id"), (Hget "dataframe_storage_path"), (Hget "initial_analysis")
    by (cbn; tauto).
  rewrite Hs, Hp.
  assert (Hia : is_optional_str (default VNone (dict_get "initial_analysis" row)) = true).
  { destruct Ha as [-> | [-> | [a ->]]]; reflexivity. }
  unfold bind, ret, print, lift, new_SessionDataResponse.
  destruct (dict_get "chat_history" row) as [[| | | | |ch|]|];
  destruct (dict_get "categorized_insights" row) as [[| | | | |ci|]|];
    cbn [default from_option id is_list is_str andb is_list_of forallb elements_valid] in *;
    rewrite Hia; rewrite ?Hc, ?Hi; cbn [andb]; eauto.
Qed.

Lemma session_response_projected row resp :
  session_response (project (Some all_session_columns) row) = Ok resp ->
  sdr_chat_history resp = list_or_empty (dict_get "chat_history" row)
  /\ sdr_categorized_insights resp = list_or_empty (dict_get "categorized_insights" row).
Proof.
  intros Hr. destruct (session_response_lists _ _ Hr) as [Hc Hi].
  rewrite !dict_get_project in Hc, Hi by (cbn; tauto). auto.
Qed.

Lemma get_all_sessions_fetched w resps w' :
  get_all_sessions w = (Ok resps, w') ->
  db_reply_at (length (db_log w)) = DbAnswers ->
  Forall2 (fun row resp =>
             sdr_chat_history resp = list_or_empty (dict_get "chat_history" row)
             /\ sdr_categorized_insights resp
                = list_or_empty (dict_get "categorized_insights" row))
          (map_to_list (sessions w)).*2 resps.
Proof.
  intros Hrun Hreply. revert Hrun.
  unfold get_all_sessions, try_except, bind at 1, db_select_all, except_Exception.
  rewrite Hreply. cbn [r_data].
  set (rows := (map_to_list (sessions w)).*2).
  assert (Hmain : forall resps,
    session_responses (project (Some all_session_columns) <$> rows) [] = Ok resps ->
    Forall2 (fun row resp =>
               sdr_chat_history resp = list_or_empty (dict_get "chat_history" row)
               /\ sdr_categorized_insights resp
                  = list_or_empty (dict_get "categorized_insights" row)) rows resps).
  { intros rs Hrs. destruct (session_responses_lists _ _ _ Hrs) as (new & -> & Hall).
    cbn [app]. clear Hrs. revert new Hall.
    induction rows as [|row rows IH]; intros new Hall; inversion Hall; subst;
      constructor; [|apply IH; assumption].
    apply session_response_projected. assumption. }
  destruct (project (Some all_session_columns) <$> rows) as [|r0 rest] eqn:Hrows.
  - unfold ret. intros Heq; inversion Heq; subst.
    destruct rows; [constructor | discriminate].
  - unfold lift. destruct (session_responses (r0 :: rest) []) as [rs|e] eqn:Hrs.
    + intros Heq; inversion Heq; subst. apply Hmain. reflexivity.
    + unfold bind, print, raise. discriminate.
Qed.

Lemma get_all_sessions_accepts w :
  db_reply_at (length (db_log w)) = DbAnswers ->
  (forall sid stored, sessions w !! sid = Some stored ->
     other_fields_valid stored
     /\ elements_valid is_dict_of_str (dict_get "chat_history" stored)
     /\ elements_valid is_dict (dict_get "categorized_insights" stored)) ->
  exists resps w', get_all_sessions w = (Ok resps, w').
Proof.
  intros Hreply Hvalid.
  unfold get_all_sessions, try_except, bind at 1, db_select_all, except_Exception.
  rewrite Hreply. cbn [r_data].
  set (rows := (map_to_list (sessions w)).*2).
  assert (Hall : Forall (fun row => exists resp, session_response row = Ok resp)
                   (project (Some all_session_columns) <$> rows)).
  { apply Forall_fmap, Forall_forall. intros stored Hin.
    apply list_elem_of_fmap in Hin. destruct Hin as ([sid stored'] & -> & Hin).
    apply elem_of_map_to_list in Hin. cbn [snd].
    destruct (Hvalid _ _ Hin) as (Ho & Hc & Hi).
    cbn [compose]. apply session_response_accepts.
    - apply other_fields_valid_projected; [cbn; tauto..|exact Ho].
    - rewrite dict_get_project by (cbn; tauto). exact Hc.
    - rewrite dict_get_project by (cbn; tauto). exact Hi. }
  destruct (project (Some all_session_columns) <$> rows) as [|r0 rest].
  - unfold ret. eauto.
  - destruct (session_responses_accept (r0 :: rest) [] Hall) as [resps Hr].
    unfold lift. rewrite Hr. eauto.
Qed.

(** C10. For every stored session record, every response of GET
    /session/{id} for it, and the response for it in every listing of
    GET /sessions, holds chat_history and categorized_insights as lists:
    the stored list when the field is one, and the empty list when the
    field is missing, null or any other value.  Such a field causes no
    error: whenever the store answers and the other stored fields (and
    the elements of a stored list) are what the response model accepts,
    both operations return a response. *)
Theorem session_fetch_returns_lists (session_id : string) (w : World) (row : dict) :
  sessions w !! session_id = Some row ->
  (forall resp w',
     get_session_data session_id w = (Ok resp, w') ->
     sdr_chat_history resp = list_or_empty (dict_get "chat_history" row)
     /\ sdr_categorized_insights resp
        = list_or_empty (dict_get "categorized_insights" row))
  /\ (db_reply_at (length (db_log w)) = DbAnswers ->
      other_fields_valid row ->
      elements_valid is_dict_of_str (dict_get "chat_history" row) ->
      elements_valid is_dict (dict_get "categorized_insights" row) ->
      exists resp w', get_session_data session_id w = (Ok resp, w'))
  /\ (forall resps w',
        get_all_sessions w = (Ok resps, w') ->
        db_reply_at (length (db_log w)) = DbAnswers ->
        exists resp, In resp resps
          /\ sdr_chat_history resp = list_or_empty (dict_get "chat_history" row)
          /\ sdr_categorized_insights resp
             = list_or_empty (dict_get "categorized_insights" row))
  /\ (db_reply_at (length (db_log w)) = DbAnswers ->
      (forall sid stored, sessions w !! sid = Some stored ->
         other_fields_valid stored
         /\ elements_valid is_dict_of_str (dict_get "chat_history" stored)
         /\ elements_valid is_dict (dict_get "categorized_insights" stored)) ->
      exists resps w', get_all_sessions w = (Ok resps, w'))
  /\ (forall stored, is_list (list_or_empty stored) = true)
  /\ (forall stored, (forall l, stored <> Some (VList l)) -> list_or_empty stored = VList []).
Proof.
  intros Hrow. split; [|split; [|split; [|split; [|split]]]].
  - intros resp w'. apply get_session_data_fetched. exact Hrow.
  - apply get_session_data_accepts. exact Hrow.
  - intros resps w' Hrun Hreply.
    pose proof (get_all_sessions_fetched _ _ _ Hrun Hreply) as Hall.
    assert (Hin : row ∈ (map_to_list (sessions w)).*2).
    { apply list_elem_of_fmap. exists (session_id, row). split; [reflexivity|].
      apply elem_of_map_to_list. exact Hrow. }
    apply list_elem_of_lookup in Hin. destruct Hin as [i Hi].
    destruct (Forall2_lookup_l _ _ _ _ _ Hall Hi) as (resp & Hresp & Hc & Hci).
    exists resp. split; [|auto].
    apply list_elem_of_In. eapply list_elem_of_lookup_2. exact Hresp.
  - apply get_all_sessions_accepts.
  - apply list_or_empty_is_list.
  - intros stored Hnot. destruct stored as [[]|]; try reflexivity.
    exfalso. eapply Hnot. reflexivity.
Qed.

End Sessions.

(** * The theorems at the inputs of the scenarios *)

(** C1 on the one row of a spreadsheet whose header cells are the
    numbers 2021 and 2022: the stage raises at the join of the headers
    and sends the model nothing. *)
Lemma analyze_data_node_non_string_header_raises_witness :
  loaded_data Sample.year_state = [VDict [(KInt 2021, VInt 1); (KInt 2022, VInt 2)]]
  /\ (exists msg,
        @analyze_data_node Sample.env Sample.year_state Sample.world_with_session
        = (Raise (TypeError msg), Sample.world_with_session))
  /\ @analyze_data_node Sample.env Sample.year_state Sample.world_with_session
     = (Raise (TypeError "sequence item 0: expected str instance, int found"),
        Sample.world_with_session).
Proof.
  split; [reflexivity|]. split; [|vm_compute; reflexivity].
  apply (@analyze_data_node_non_string_header_raises Sample.env Sample.year_state
           Sample.world_with_session [(KInt 2021, VInt 1); (KInt 2022, VInt 2)] []).
  - reflexivity.
  - intros Hkeys. discriminate Hkeys.
Defined.

(** X25 on the two revenue rows: one chunk, one request, one summary. *)
Lemma analyze_data_node_one_request_per_chunk_witness :
  loaded_data Sample.loaded_state
  = VDict [("month", VStr "Jan"); ("revenue", VInt 100)]
    :: [VDict [("month", VStr "Feb"); ("revenue", VInt 150)]]
  /\ exists w',
       @analyze_data_node Sample.env Sample.loaded_state Sample.world_with_session
       = (Ok [U_analysis (chunk_entry 1 (Ok "Revenue grew by 50% from Jan to Feb."))], w')
       /\ length (llm_log w') = 1.
Proof.
  split; [reflexivity|].
  destruct (@analyze_data_node_one_request_per_chunk Sample.env Sample.loaded_state
              Sample.world_with_session
              [("month", VStr "Jan"); ("revenue", VInt 100)]
              [VDict [("month", VStr "Feb"); ("revenue", VInt 150)]]
              eq_refl ltac:(discriminate) eq_refl) as (w' & Hrun & Hlog).
  exists w'. split; [exact Hrun|]. rewrite Hlog. reflexivity.
Defined.

(** C3 on the two revenue rows: the record inserted for session-0. *)
Lemma load_data_node_session_record_witness :
  exists upd w' record,
    @load_data_node Sample.env (invoke_inputs Sample.revenue_rows) Sample.empty_world
    = (Ok upd, w')
    /\ In (U_session_id (Some "session-0")) upd
    /\ sessions w' !! "session-0" = Some record
    /\ last (db_log w') = Some (DbInsert record)
    /\ dict_get "initial_analysis" record = Some VNone
    /\ dict_get "chat_history" record = Some (VList [])
    /\ dict_get "expires_at" record
       = Some (VStr (@isoformat Sample.env (1700000000000000 + 24 * 3600 * 1000000)%Z))
    /\ dict_keys record
       = ["session_id"; "original_file_path"; "dataframe_storage_path";
          "initial_analysis"; "expires_at"; "chat_history"].
Proof.
  pose (upd := [U_loaded_data Sample.revenue_rows;
                U_dataframe (Some (Sample.frame_of Sample.revenue_rows));
                U_session_id (Some "session-0"); U_error None]).
  pose (w' := snd (@load_data_node Sample.env (invoke_inputs Sample.revenue_rows)
                     Sample.empty_world)).
  assert (Hrun : @load_data_node Sample.env (invoke_inputs Sample.revenue_rows)
                   Sample.empty_world = (Ok upd, w'))
    by (vm_compute; reflexivity).
  assert (Hin : In (U_session_id (Some "session-0")) upd)
    by (cbn; tauto).
  destruct (@load_data_node_session_record Sample.env _ _ _ _ _ Hrun Hin)
    as (record & descr & Hrec & Hs & Hlog & Hia & Hch & Hexp & _ & Hkeys).
  exists upd, w', record.
  split; [exact Hrun|]. split; [exact Hin|]. split; [exact Hs|]. split; [exact Hlog|].
  split; [exact Hia|]. split; [exact Hch|]. split; [exact Hexp | exact Hkeys].
Defined.

(** C3 as the specification words it, at the two revenue rows: the
    loader succeeds and the record it has inserted has no
    categorized_insights field, so the field is absent, not an empty
    list. *)
Lemma load_data_node_record_without_categorized_insights :
  exists upd w' record,
    @load_data_node Sample.env (invoke_inputs Sample.revenue_rows) Sample.empty_world
    = (Ok upd, w')
    /\ In (U_session_id (Some "session-0")) upd
    /\ sessions w' !! "session-0" = Some record
    /\ last (db_log w') = Some (DbInsert record)
    /\ dict_get "categorized_insights" record = None
    /\ dict_get "categorized_insights" record <> Some (VList []).
Proof.
  eexists _, _, _. split; [vm_compute; reflexivity|].
  split; [cbn; tauto|]. split; [vm_compute; reflexivity|].
  split; [vm_compute; reflexivity|]. split; [reflexivity | discriminate].
Qed.

(** C4 on a question for the session nope, which the store does not
    hold, the lookup raising as the client does when no row matches. *)
Lemma chat_with_insight_unknown_session_is_500_witness :
  sessions Sample.world_with_session !! req_session_id Sample.unknown_question = None
  /\ exists w',
       @chat_with_insight Sample.env_lookup_raises Sample.unknown_question
         Sample.world_with_session
       = (Raise (HTTPException 500
                   "Error retrieving session context: JSON object requested, multiple (or no) rows returned"),
          w')
       /\ agent_log w' = agent_log Sample.world_with_session
       /\ sessions w' = sessions Sample.world_with_session.
Proof.
  split; [vm_compute; reflexivity|].
  destruct (@chat_with_insight_unknown_session_is_500 Sample.env_lookup_raises
              Sample.unknown_question Sample.world_with_session
              (Exception "JSON object requested, multiple (or no) rows returned"))
    as (w' & Hrun & Hagent & Hs & _).
  - vm_compute. reflexivity.
  - reflexivity.
  - intros code detail. discriminate.
  - exists w'. split; [exact Hrun|]. split; [exact Hagent | exact Hs].
Defined.

(** X26 on a question for the session nope, which the store does not
    hold. *)
Lemma chat_with_insight_unknown_session_witness :
  sessions Sample.world_with_session !! req_session_id Sample.unknown_question = None
  /\ exists e w',
       @chat_with_insight Sample.env Sample.unknown_question Sample.world_with_session
       = (Raise e, w')
       /\ agent_log w' = agent_log Sample.world_with_session
       /\ ((forall x, @db_reply_at Sample.env (length (db_log Sample.world_with_session))
                      <> DbRaises x) ->
           e = HTTPException 404
                 ("Session " +:+ req_session_id Sample.unknown_question
                  +:+ " not found or expired.")).
Proof.
  split; [vm_compute; reflexivity|].
  apply (@chat_with_insight_unknown_session Sample.env Sample.unknown_question
           Sample.world_with_session).
  vm_compute. reflexivity.
Defined.

(** C5 as the specification words it: the model answers with a list of
    eleven tags and the stage returns all eleven. *)
Lemma categorize_insight_node_eleven_tags :
  exists tags w',
    @categorize_insight_node Sample.env_eleven_tags Sample.analysed_state Sample.empty_world
    = (Ok [U_tags tags], w')
    /\ length tags = 11
    /\ ~ length tags <= 10.
Proof.
  eexists _, _. split; [vm_compute; reflexivity|]. cbn [length]. split; [reflexivity | lia].
Qed.

(** C6 on the analysed session session-0 and the two insights of
    scenario C. *)
Lemma parse_insights_node_overwrites_witness :
  present (session_id Sample.analysed_state) = Some "session-0"
  /\ exists final w' row',
       @parse_insights_node Sample.env_insights Sample.analysed_state
         Sample.world_with_session
       = (Ok [U_structured_insights final], w')
       /\ db_log w'
          = db_log Sample.world_with_session
            ++ [DbUpdate "session-0" [("categorized_insights", VList final)]]
       /\ sessions w' !! "session-0" = Some row'
       /\ dict_get "categorized_insights" row' = Some (VList final)
       /\ length final = 2.
Proof.
  split; [reflexivity|].
  destruct (@parse_insights_node_overwrites Sample.env_insights Sample.analysed_state
              Sample.world_with_session "session-0" eq_refl)
    as (final & w' & Hrun & Hlog & Hstore & _ & _ & _ & _ & _ & Hvalid).
  destruct (Hstore eq_refl Sample.stored_session) as (row' & Hrow' & Hget);
    [vm_compute; reflexivity|].
  exists final, w', row'.
  split; [exact Hrun|]. split; [exact Hlog|]. split; [exact Hrow'|]. split; [exact Hget|].
  assert (Hfinal : fst (@parse_insights_node Sample.env_insights Sample.analysed_state
                          Sample.world_with_session)
                   = Ok [U_structured_insights final])
    by (rewrite Hrun; reflexivity).
  vm_compute in Hfinal. inversion Hfinal. reflexivity.
Defined.

(** C7 on a payload of one record without keys: the table is empty. *)
Lemma load_data_node_fails_without_session_witness :
  @load_fails Sample.env [VDict []] Sample.empty_world
  /\ exists upd w',
       @load_data_node Sample.env (invoke_inputs [VDict []]) Sample.empty_world = (Ok upd, w')
       /\ sessions w' = sessions Sample.empty_world
       /\ reports_failure (invoke_inputs [VDict []]) upd.
Proof.
  assert (Hfails : @load_fails Sample.env [VDict []] Sample.empty_world).
  { apply (@table_empty Sample.env [VDict []] Sample.empty_world [VDict []]
             (Some (mkDataFrame [] [[]])) "Directly provided data" Sample.empty_world);
      reflexivity. }
  split; [exact Hfails|].
  apply (@load_data_node_fails_without_session Sample.env [VDict []] Sample.empty_world).
  exact Hfails.
Defined.

(** C10 on the stored session session-0, whose record has a chat history
    of two turns and no categorized_insights field. *)
Lemma session_fetch_returns_lists_witness :
  sessions Sample.world_with_session !! "session-0" = Some Sample.stored_session
  /\ (exists resp w',
        @get_session_data Sample.env "session-0" Sample.world_with_session = (Ok resp, w')
        /\ sdr_chat_history resp
           = VList [VDict [("role", VStr "user"); ("content", VStr "Best month?")];
                    VDict [("role", VStr "assistant"); ("content", VStr "Feb")]]
        /\ sdr_categorized_insights resp = VList [])
  /\ (exists resps w',
        @get_all_sessions Sample.env Sample.world_with_session = (Ok resps, w')
        /\ exists resp, In resp resps /\ sdr_categorized_insights resp = VList []).
Proof.
  assert (Hrow : sessions Sample.world_with_session !! "session-0"
                 = Some Sample.stored_session) by (vm_compute; reflexivity).
  assert (Hvalid : other_fields_valid Sample.stored_session
                   /\ elements_valid is_dict_of_str
                        (dict_get "chat_history" Sample.stored_session)
                   /\ elements_valid is_dict
                        (dict_get "categorized_insights" Sample.stored_session)).
  { split; [|split; [reflexivity | exact I]].
    split; [eexists; reflexivity|]. split; [eexists; reflexivity|].
    right. right. eexists. reflexivity. }
  destruct (@session_fetch_returns_lists Sample.env "session-0" Sample.world_with_session
              Sample.stored_session Hrow)
    as (Hone & Hone_ok & Hall & Hall_ok & _).
  split; [exact Hrow|]. split.
  - destruct Hvalid as (Ho & Hc & Hi).
    destruct (Hone_ok eq_refl Ho Hc Hi) as (resp & w' & Hrun).
    destruct (Hone resp w' Hrun) as [Hch Hci].
    exists resp, w'. split; [exact Hrun|]. split; [exact Hch | exact Hci].
  - destruct (Hall_ok eq_refl) as (resps & w' & Hrun).
    { intros sid stored Hs.
      assert (stored = Sample.stored_session) as ->; [|exact Hvalid].
      destruct (decide (sid = "session-0")) as [->|Hne].
      - rewrite Hrow in Hs. inversion Hs. reflexivity.
      - unfold Sample.world_with_session in Hs. cbn [sessions] in Hs.
        rewrite lookup_singleton_ne in Hs by congruence. discriminate Hs. }
    destruct (Hall resps w' Hrun eq_refl) as (resp & Hin & _ & Hci).
    exists resps, w'. split; [exact Hrun|]. exists resp. split; [exact Hin | exact Hci].
Defined.

(** X1 on the follow-up on the stored session session-0: with a store
    that carries the update out the answer 42 comes back and the update
    holds the two stored turns, the question and the answer; with a
    store that answers the update without data the request ends with
    HTTP 500. *)
Lemma chat_with_insight_appends_turns_witness :
  (exists w',
     @chat_with_insight Sample.env Sample.question Sample.world_with_session = (Ok "42", w')
     /\ db_log w'
        = [DbSelectOne None "session-0";
           DbUpdate "session-0"
             [("chat_history",
               VList [VDict [("role", VStr "user"); ("content", VStr "Best month?")];
                      VDict [("role", VStr "assistant"); ("content", VStr "Feb")];
                      VDict [("role", VStr "user"); ("content", VStr "Total?")];
                      VDict [("role", VStr "assistant"); ("content", VStr "42")]])]])
  /\ (exists w',
        @chat_with_insight Sample.env_update_refused Sample.question
          Sample.world_with_session
        = (Raise (HTTPException 500
                    "Error processing chat question: 'APIResponse' object has no attribute 'error'"),
           w')
        /\ sessions w' = sessions Sample.world_with_session).
Proof.
  split.
  - destruct (@chat_with_insight_appends_turns Sample.env Sample.question
                Sample.world_with_session Sample.stored_session
                (VStr "processed_data/session-0.parquet") "P"%char "AR1month,revenue"
                (VBool true) (Sample.frame_of Sample.revenue_rows)
                [VDict [("role", VStr "user"); ("content", VStr "Best month?")];
                 VDict [("role", VStr "assistant"); ("content", VStr "Feb")]]
                [HumanMessage "Best month?"; AIMessage "Feb"] (Some "42"))
      as (result & w' & Hrun & Hlog & Hdone & _);
      try (vm_compute; reflexivity).
    destruct (Hdone eq_refl) as [-> _].
    exists w'. split; [exact Hrun | exact Hlog].
  - destruct (@chat_with_insight_appends_turns Sample.env_update_refused Sample.question
                Sample.world_with_session Sample.stored_session
                (VStr "processed_data/session-0.parquet") "P"%char "AR1month,revenue"
                (VBool true) (Sample.frame_of Sample.revenue_rows)
                [VDict [("role", VStr "user"); ("content", VStr "Best month?")];
                 VDict [("role", VStr "assistant"); ("content", VStr "Feb")]]
                [HumanMessage "Best month?"; AIMessage "Feb"] (Some "42"))
      as (result & w' & Hrun & _ & _ & Hrefused & _);
      try (vm_compute; reflexivity).
    destruct (Hrefused eq_refl) as [-> Hs].
    exists w'. split; [exact Hrun | exact Hs].
Defined.

(* ===================================================================== *)
(** * Further properties of the session-fetch operations                   *)
(* ===================================================================== *)

Lemma project_dict_set_hidden cols k v d :
  ~ In k cols -> project (Some cols) (dict_set k v d) = project (Some cols) d.
Proof.
  intros Hk. unfold project.
  assert (Hout : ~ key_in (KStr k) cols).
  { intros Hb. apply Is_true_true, key_in_str in Hb. contradiction. }
  induction d as [|[k' v'] d IH]; cbn [dict_set].
  - cbn [filter list_filter fst]. rewrite decide_False; [reflexivity | exact Hout].
  - destruct (key_eqb k' k) eqn:Heq.
    + apply key_eqb_str in Heq. subst k'.
      cbn [filter list_filter fst]. rewrite !decide_False; [reflexivity | exact Hout..].
    + cbn [filter list_filter fst].
      destruct (decide (key_in k' cols)); [f_equal; exact IH | exact IH].
Qed.

Lemma session_responses_raise rows : forall acc row e,
  In row rows -> session_response row = Raise e ->
  exists e', session_responses rows acc = Raise e'.
Proof.
  induction rows as [|r rows IH]; intros acc row e Hin Hr; [contradiction|].
  cbn [session_responses]. destruct (session_response r) as [resp|e0] eqn:Hresp.
  - destruct Hin as [->|Hin]; [congruence|]. eapply IH; eassumption.
  - eauto.
Qed.

Section SessionFetch.
Context `{Env}.

Lemma get_all_sessions_rows w resps w' :
  get_all_sessions w = (Ok resps, w') ->
  db_reply_at (length (db_log w)) = DbAnswers ->
  Forall2 (fun row resp =>
             session_response (project (Some all_session_columns) row) = Ok resp)
          (map_to_list (sessions w)).*2 resps.
Proof.
  intros Hrun Hreply. revert Hrun.
  unfold get_all_sessions, try_except, bind at 1, db_select_all, except_Exception.
  rewrite Hreply. cbn [r_data].
  set (rows := (map_to_list (sessions w)).*2).
  destruct (project (Some all_session_columns) <$> rows) as [|r0 rest] eqn:Hrows.
  - unfold ret. intros Heq; inversion Heq; subst.
    destruct rows; [constructor | discriminate].
  - unfold lift. destruct (session_responses (r0 :: rest) []) as [rs|e] eqn:Hrs.
    + intros Heq; inversion Heq; subst. rewrite <- Hrows in Hrs.
      destruct (session_responses_lists _ _ _ Hrs) as (new & -> & Hall).
      cbn [app]. apply Forall2_fmap_l in Hall. exact Hall.
    + unfold bind, print, raise. discriminate.
Qed.

(** X2. GET /session/{id} for an id the store holds no record of ends
    with HTTP 500, never with 404: the 404 the handler raises is caught
    by its own except clause and wrapped. The store is left as it was. *)
Theorem get_session_data_unknown_session_is_500 (session_id : string) (w : World) :
  sessions w !! session_id = None ->
  exists detail w',
    get_session_data session_id w = (Raise (HTTPException 500 detail), w')
    /\ sessions w' = sessions w
    /\ ((forall x, db_reply_at (length (db_log w)) <> DbRaises x) ->
        detail = "Error fetching session data: 404: Session " +:+ session_id
                 +:+ " not found.").
Proof.
  intros Hnone.
  unfold get_session_data, try_except, bind at 1, db_select_one, except_Exception.
  destruct (db_reply_at (length (db_log w))) as [x| |] eqn:Hreply.
  - eexists _, _. split; [reflexivity|]. split; [reflexivity|].
    intros Hno. exfalso. exact (Hno x eq_refl).
  - eexists _, _. split; [reflexivity|]. split; [reflexivity|]. intros _. reflexivity.
  - rewrite Hnone. eexists _, _. split; [reflexivity|]. split; [reflexivity|].
    intros _. reflexivity.
Qed.

(** X3. The two fetch operations only read: each sends the store exactly
    one select, and leaves the table of sessions and the stored blobs
    as they were, whatever the store answers. *)
Theorem session_fetch_is_read_only (session_id : string) (w : World) :
  (forall res w', get_session_data session_id w = (res, w') ->
     sessions w' = sessions w /\ blobs w' = blobs w
     /\ db_log w' = db_log w ++ [DbSelectOne (Some session_columns) session_id]
     /\ storage_log w' = storage_log w)
  /\ (forall res w', get_all_sessions w = (res, w') ->
        sessions w' = sessions w /\ blobs w' = blobs w
        /\ db_log w' = db_log w ++ [DbSelectAll all_session_columns]
        /\ storage_log w' = storage_log w).
Proof.
  split; intros res w'.
  - unfold get_session_data, try_except, bind at 1, db_select_one, except_Exception.
    destruct (db_reply_at (length (db_log w))) as [x| |];
      [unfold bind, print, raise; intros Heq; inversion Heq; cbn; auto ..|].
    destruct (sessions w !! session_id) as [row|];
      [|unfold bind, print, raise; intros Heq; inversion Heq; cbn; auto].
    cbn [fmap option_fmap option_map r_data].
    destruct (project (Some session_columns) row) as [|[k v] prow];
      [unfold bind, print, raise; intros Heq; inversion Heq; cbn; auto|].
    set (session_data := (k, v) :: prow).
    unfold bind, ret, print, lift, raise.
    destruct (is_list (default (VList []) (dict_get "chat_history" session_data)));
    destruct (is_list (default (VList []) (dict_get "categorized_insights" session_data)));
      cbn beta iota;
      (destruct (dict_item "session_id" session_data) as [sidv|e];
       [|intros Heq; inversion Heq; cbn; auto]);
      (destruct (dict_item "dataframe_storage_path" session_data) as [pathv|e];
       [|intros Heq; inversion Heq; cbn; auto]);
      match goal with
      | |- context [new_SessionDataResponse ?a ?b ?c ?d ?e] =>
          destruct (new_SessionDataResponse a b c d e)
      end; intros Heq; inversion Heq; cbn; auto.
  - unfold get_all_sessions, try_except, bind at 1, db_select_all, except_Exception.
    destruct (db_reply_at (length (db_log w))) as [x| |];
      [unfold bind, ret, print, raise; intros Heq; inversion Heq; cbn; auto ..|].
    cbn [r_data].
    destruct (project (Some all_session_columns) <$> (map_to_list (sessions w)).*2)
      as [|r0 rest]; [unfold ret; intros Heq; inversion Heq; cbn; auto|].
    unfold bind, ret, print, lift, raise.
    destruct (session_responses (r0 :: rest) []); intros Heq; inversion Heq; cbn; auto.
Qed.

(** X4. A listing that succeeds has exactly one response per stored
    session, each built from its record: the session id is the
    record's. A store that answers without data, and a store without
    sessions, give the empty listing and no error. *)
Theorem get_all_sessions_one_response_per_session (w : World) :
  (forall resps w',
     get_all_sessions w = (Ok resps, w') ->
     db_reply_at (length (db_log w)) = DbAnswers ->
     length resps = size (sessions w)
     /\ Forall2 (fun row resp => dict_get "session_id" row = Some (sdr_session_id resp))
                (map_to_list (sessions w)).*2 resps)
  /\ (db_reply_at (length (db_log w)) = DbRefuses ->
      fst (get_all_sessions w) = Ok [])
  /\ (sessions w = ∅ ->
      (forall x, db_reply_at (length (db_log w)) <> DbRaises x) ->
      fst (get_all_sessions w) = Ok []).
Proof.
  split; [|split].
  - intros resps w' Hrun Hreply.
    pose proof (get_all_sessions_rows _ _ _ Hrun Hreply) as Hall.
    split.
    + rewrite <- (Forall2_length _ _ _ Hall), length_fmap.
      apply length_map_to_list.
    + eapply Forall2_impl; [exact Hall|].
      intros row resp Hresp. cbv beta in Hresp.
      unfold session_response, dict_item in Hresp. cbv zeta in Hresp.
      rewrite dict_get_project in Hresp by (cbn; tauto).
      destruct (dict_get "session_id" row) as [sid|]; [|discriminate].
      unfold new_SessionDataResponse in Hresp.
      destruct (_ && _) in Hresp; [|discriminate].
      inversion Hresp. reflexivity.
  - intros Hreply.
    unfold get_all_sessions, try_except, bind at 1, db_select_all, except_Exception.
    rewrite Hreply. reflexivity.
  - intros Hempty Hno.
    unfold get_all_sessions, try_except, bind at 1, db_select_all, except_Exception.
    destruct (db_reply_at (length (db_log w))) as [x| |];
      [exfalso; exact (Hno x eq_refl) | reflexivity |].
    rewrite Hempty, map_to_list_empty. reflexivity.
Qed.

(** X5. One stored record the response model cannot be built from makes
    the whole listing fail: GET /sessions ends with HTTP 500 and returns
    no session at all, the loop having no error handling of its own. *)
Theorem get_all_sessions_one_bad_record_fails_all
  (w : World) (session_id : string) (row : dict) (e : exn) :
  sessions w !! session_id = Some row ->
  session_response (project (Some all_session_columns) row) = Raise e ->
  db_reply_at (length (db_log w)) <> DbRefuses ->
  exists detail w',
    get_all_sessions w = (Raise (HTTPException 500 detail), w')
    /\ sessions w' = sessions w.
Proof.
  intros Hrow Hbad Hanswers.
  unfold get_all_sessions, try_except, bind at 1, db_select_all, except_Exception.
  destruct (db_reply_at (length (db_log w))) as [x| |].
  - eexists _, _. split; reflexivity.
  - exfalso. exact (Hanswers eq_refl).
  - cbn [r_data].
    assert (Hin : In (project (Some all_session_columns) row)
                     (project (Some all_session_columns) <$> (map_to_list (sessions w)).*2)).
    { apply list_elem_of_In, list_elem_of_fmap. exists row. split; [reflexivity|].
      apply list_elem_of_fmap. exists (session_id, row). split; [reflexivity|].
      apply elem_of_map_to_list. exact Hrow. }
    destruct (session_responses_raise _ [] _ _ Hin Hbad) as [e' He'].
    destruct (project (Some all_session_columns) <$> (map_to_list (sessions w)).*2)
      as [|r0 rest]; [contradiction|].
    unfold lift. rewrite He'. eexists _, _. split; reflexivity.
Qed.

Lemma get_session_data_reads_columns session_id w1 w2 :
  db_log w1 = db_log w2 ->
  project (Some session_columns) <$> sessions w1 !! session_id
  = project (Some session_columns) <$> sessions w2 !! session_id ->
  fst (get_session_data session_id w1) = fst (get_session_data session_id w2).
Proof.
  intros Hlog Hrow.
  unfold get_session_data, try_except, bind, db_select_one, except_Exception,
    ret, print, lift, raise.
  rewrite Hlog, Hrow.
  destruct (db_reply_at (length (db_log w2))) as [x| |]; [reflexivity..|].
  cbn [r_data].
  destruct (project (Some session_columns) <$> sessions w2 !! session_id)
    as [[|[k v] prow]|]; [reflexivity| |reflexivity].
  set (session_data := (k, v) :: prow).
  destruct (is_list (default (VList []) (dict_get "chat_history" session_data)));
  destruct (is_list (default (VList []) (dict_get "categorized_insights" session_data)));
    cbn beta iota;
    (destruct (dict_item "session_id" session_data) as [sidv|e]; [|reflexivity]);
    (destruct (dict_item "dataframe_storage_path" session_data) as [pathv|e];
     [|reflexivity]);
    match goal with
    | |- context [new_SessionDataResponse ?a ?b ?c ?d ?e] =>
        destruct (new_SessionDataResponse a b c d e)
    end; reflexivity.
Qed.

(** X6. GET /session/{id} never looks at the expiry of a session: the
    response for a stored session is the same whatever its expires_at
    holds, so a session past its 24 hours is served like a fresh one. *)
Theorem get_session_data_ignores_expiry
  (session_id : string) (w : World) (row : dict) (expires_at : value) :
  sessions w !! session_id = Some row ->
  fst (get_session_data session_id
         (with_sessions (insert session_id (dict_set "expires_at" expires_at row)) w))
  = fst (get_session_data session_id w).
Proof.
  intros Hrow. apply get_session_data_reads_columns; [reflexivity|].
  cbn [sessions with_sessions]. rewrite lookup_insert_eq, Hrow.
  cbn [fmap option_fmap option_map]. f_equal.
  apply project_dict_set_hidden. cbn. intros Hin.
  repeat (destruct Hin as [Hin|Hin]; [discriminate Hin|]). exact Hin.
Qed.

End SessionFetch.

(* ===================================================================== *)
(** * Further properties of the Data Loader                                *)
(* ===================================================================== *)

Section LoaderStore.
Context `{Env}.

Lemma check_upload_accepts res w :
  ~ upload_refused res -> check_upload res w = (Ok tt, w).
Proof.
  intros Hok. unfold upload_refused in Hok.
  assert (Ht : truthy res = true).
  { destruct (truthy res) eqn:Ht; [reflexivity|]. exfalso. apply Hok. left. reflexivity. }
  unfold check_upload. rewrite Ht. cbn [negb andb].
  destruct res as [| | | | | |d]; try reflexivity.
  destruct (dict_get "error" d) as [err|] eqn:Herr; [|reflexivity].
  destruct (truthy err) eqn:Hte; [|reflexivity].
  exfalso. apply Hok. right. eauto.
Qed.

(** What a successful creation has sent to the storage. *)
Lemma create_session_uploaded df descr w sid w' :
  create_session df descr w = (Ok sid, w') ->
  exists bytes,
    to_parquet df = Ok bytes
    /\ storage_log w'
       = storage_log w
         ++ [Upload "processeddfs" ("processed_data/" +:+ sid +:+ ".parquet") bytes]
    /\ (forall res, storage_reply_at (length (storage_log w)) = StDone res ->
          blobs w' = <[("processeddfs", "processed_data/" +:+ sid +:+ ".parquet") := bytes]>
                       (blobs w)).
Proof.
  unfold create_session, bind at 1, new_uuid.
  unfold bind at 1, lift. destruct (to_parquet df) as [parquet|e]; [|discriminate].
  unfold bind at 1, storage_upload.
  cbn [storage_log draw_uuid blobs].
  destruct (storage_reply_at (length (storage_log w))) as [e|res|res]; [discriminate| |].
  all: unfold bind at 1;
    match goal with |- context [check_upload ?r ?w1] =>
      destruct (check_upload r w1) as [[[]|e] w2] eqn:Hc end; [|discriminate];
    apply check_upload_same in Hc; subst w2.
  all: unfold bind at 1, datetime_now; unfold bind, db_insert;
    cbn [db_log log_storage with_blobs read_clock draw_uuid clock_reads sessions
         uuids_drawn log_db];
    destruct (db_reply_at (length (db_log w))) as [e| |]; try discriminate;
    cbn [session_record dict_get key_eqb String.eqb Ascii.eqb Bool.eqb];
    destruct (sessions w !! uuid4 (uuids_drawn w)) eqn:Hfree; try discriminate;
    cbn [r_data]; unfold ret; intros Heq; inversion Heq; subst; clear Heq;
    exists parquet; (split; [reflexivity|]); (split; [reflexivity|]);
    intros res' Hres'; try discriminate Hres'; reflexivity.
Qed.

(** A creation whose blob write is carried out and accepted and whose
    record insert is not carried out: the blob stays. *)
Lemma create_session_insert_fails df descr w bytes res :
  to_parquet df = Ok bytes ->
  storage_reply_at (length (storage_log w)) = StDone res ->
  ~ upload_refused res ->
  db_reply_at (length (db_log w)) <> DbAnswers ->
  exists e w',
    create_session df descr w = (Raise e, w')
    /\ blobs w' = <[("processeddfs",
                     "processed_data/" +:+ uuid4 (uuids_drawn w) +:+ ".parquet") := bytes]>
                    (blobs w).
Proof.
  intros Hpq Hst Hok Hdb.
  unfold create_session, bind at 1, new_uuid.
  unfold bind at 1, lift. rewrite Hpq.
  unfold bind at 1, storage_upload. cbn [storage_log draw_uuid blobs]. rewrite Hst.
  unfold bind at 1. rewrite (check_upload_accepts _ _ Hok).
  unfold bind at 1, datetime_now. unfold bind, db_insert.
  cbn [db_log log_storage with_blobs read_clock draw_uuid clock_reads sessions
       uuids_drawn log_db].
  destruct (db_reply_at (length (db_log w))) as [e| |].
  - eexists _, _. split; reflexivity.
  - cbn [r_data]. unfold raise. eexists _, _. split; reflexivity.
  - contradiction.
Qed.

(** X7. The loader returns a session id exactly when it has inserted
    one new record under that id: the id was free, the record carries it
    and points at the path of the table blob, which is the last thing
    the run sent to the storage. Every other return leaves the table of
    sessions as it was, and a raising run leaves everything as it was. *)
Theorem load_data_node_session_id_iff_record
  (st : AgentState) (w : World) (res : result update) (w' : World) :
  load_data_node st w = (res, w') ->
  match res with
  | Ok upd =>
      (forall sid, In (U_session_id (Some sid)) upd ->
         sessions w !! sid = None
         /\ exists record bytes,
              sessions w' = <[sid := record]> (sessions w)
              /\ dict_get "session_id" record = Some (VStr sid)
              /\ dict_get "dataframe_storage_path" record
                 = Some (VStr ("processed_data/" +:+ sid +:+ ".parquet"))
              /\ last (storage_log w')
                 = Some (Upload "processeddfs" ("processed_data/" +:+ sid +:+ ".parquet")
                           bytes)
              /\ (forall done,
                    storage_reply_at (length (storage_log w') - 1) = StDone done ->
                    blobs w' !! ("processeddfs", "processed_data/" +:+ sid +:+ ".parquet")
                    = Some bytes))
      /\ ((forall sid, ~ In (U_session_id (Some sid)) upd) -> sessions w' = sessions w)
  | Raise _ => w' = w
  end.
Proof.
  intros Hrun.
  destruct (load_data_node_run st w _ _ Hrun)
    as [(e & -> & Hraise) | [(upd & -> & Hfail & Hs)
                 | (rows & df & descr & w1 & sid & -> & Ht & Hsame & Hne & Hc)]].
  - revert Hrun. unfold load_data_node.
    destruct (data st) as [|first more]; [discriminate|].
    unfold bind at 1. rewrite Hraise. intros Heq; inversion Heq; reflexivity.
  - split; [|intros _; exact Hs].
    intros sid Hin. exfalso.
    destruct Hfail as (msg & [-> | [-> | ->]]); cbn in Hin;
      repeat (destruct Hin as [Hin|Hin]; [discriminate|]); exact Hin.
  - split.
    + intros sid' Hin.
      assert (sid' = sid) as ->.
      { cbn in Hin. repeat (destruct Hin as [Hin|Hin]; try discriminate).
        - inversion Hin. reflexivity.
        - contradiction. }
      destruct (create_session_created _ _ _ _ _ Hc) as (Hsid & Hfree & Hs & _).
      destruct (create_session_uploaded _ _ _ _ _ Hc) as (bytes & _ & Hlog & Hblob).
      destruct Hsame as (Hs1 & _).
      split; [rewrite <- Hs1; exact Hfree|].
      eexists _, bytes. split; [rewrite Hs, Hs1; reflexivity|].
      split; [reflexivity|]. split; [reflexivity|].
      split; [rewrite Hlog; apply last_snoc|].
      intros done Hdone. rewrite Hlog, length_app in Hdone. cbn [length] in Hdone.
      replace (length (storage_log w1) + 1 - 1) with (length (storage_log w1)) in Hdone
        by lia.
      rewrite (Hblob _ Hdone). apply lookup_insert_eq.
    + intros Hnone. exfalso. apply (Hnone sid). cbn. tauto.
Qed.

(** X8. A payload the loader does not recognise: with two or more
    elements of which one is no dictionary the stage returns the format
    error and calls no service; with exactly one element that is no
    dictionary the test for a file input raises an AttributeError, the
    element having no get, and the stage returns nothing. *)
Theorem load_data_node_unrecognised_payload (st : AgentState) (w : World) :
  (forall v, data st = [v] -> is_dict v = false ->
     exists msg, load_data_node st w = (Raise (AttributeError msg), w))
  /\ (2 <= length (data st) -> forallb is_dict (data st) = false ->
      load_data_node st w
      = (Ok [U_loaded_data []; U_dataframe None; U_session_id None;
             U_error (Some "ERROR: Input data format not recognized. Expected either a Supabase Excel path or a list of dictionaries (tabular data).")],
         w)).
Proof.
  split.
  - intros v Hdata Hv. unfold load_data_node. rewrite Hdata.
    unfold bind, load_table, bind, lift. cbn [supabase_file_input].
    destruct v; try discriminate Hv; eexists; reflexivity.
  - intros Hlen Hbad. unfold load_data_node.
    destruct (data st) as [|a [|b rest]] eqn:Hdata; cbn [length] in Hlen; [lia | lia |].
    unfold bind at 1, load_table, bind, lift. cbn [supabase_file_input].
    unfold direct_table. rewrite Hbad. clear Hbad Hdata. destruct a; reflexivity.
Qed.

(** X9. When the table blob has been written and accepted and the record
    insert is then not carried out, the stage reports the failure and
    returns no session id, but the blob it wrote stays in the storage:
    nothing removes it, and no record points at it. *)
Theorem load_data_node_failed_insert_keeps_blob
  (payload : list value) (w : World) (rows : list value) (df : DataFrame)
  (descr : string) (w1 : World) (bytes : string) (res : value) :
  payload <> [] ->
  load_table payload w = (Ok (inr (rows, Some df, descr)), w1) ->
  df_empty df = false ->
  to_parquet df = Ok bytes ->
  storage_reply_at (length (storage_log w1)) = StDone res ->
  ~ upload_refused res ->
  db_reply_at (length (db_log w1)) <> DbAnswers ->
  exists upd w',
    load_data_node (invoke_inputs payload) w = (Ok upd, w')
    /\ reports_failure (invoke_inputs payload) upd
    /\ sessions w' = sessions w
    /\ blobs w' !! ("processeddfs",
                    "processed_data/" +:+ uuid4 (uuids_drawn w1) +:+ ".parquet")
       = Some bytes.
Proof.
  intros Hne Ht Hempty Hpq Hst Hok Hdb.
  destruct (create_session_insert_fails df descr w1 bytes res Hpq Hst Hok Hdb)
    as (e & w2 & Hc & Hblobs).
  assert (Hs1 : sessions w1 = sessions w).
  { destruct (load_table_run payload w) as [[e0 He0] | (r & w3 & Hrun & Hsame & _)].
    - rewrite He0 in Ht. discriminate.
    - rewrite Hrun in Ht. inversion Ht; subst. apply Hsame. }
  eexists _, w2. split; [|split; [|split]].
  - unfold load_data_node. cbn [data invoke_inputs].
    destruct payload as [|first more]; [contradiction|].
    unfold bind at 1. rewrite Ht. cbn beta iota. rewrite Hempty. cbn [negb].
    unfold bind at 1, try_except, bind at 1. rewrite Hc.
    unfold except_Exception, ret. reflexivity.
  - unfold reports_failure. cbn. eauto.
  - rewrite (create_session_raised _ _ _ _ _ Hc). exact Hs1.
  - rewrite Hblobs. apply lookup_insert_eq.
Qed.

End LoaderStore.

(* ===================================================================== *)
(** * Further properties of the Chunked Analyzer                           *)
(* ===================================================================== *)

Lemma only_talked_refl w : only_talked w w.
Proof. unfold only_talked. repeat split. Qed.

Lemma only_talked_trans w1 w2 w3 :
  only_talked w1 w2 -> only_talked w2 w3 -> only_talked w1 w3.
Proof.
  unfold only_talked.
  intros (a1 & a2 & a3 & a4 & a5 & a6 & a7 & a8) (b1 & b2 & b3 & b4 & b5 & b6 & b7 & b8).
  repeat split; congruence.
Qed.

Section AnalyzeStore.
Context `{Env}.

Lemma analyze_chunks_only_talks headers chunks : forall index combined w r w',
  analyze_chunks headers index chunks combined w = (r, w') -> only_talked w w'.
Proof.
  induction chunks as [|chunk chunks IH]; intros index combined w r w' Hrun;
    cbn [analyze_chunks] in Hrun.
  - inversion Hrun; subst. apply only_talked_refl.
  - revert Hrun. unfold bind at 1, lift.
    destruct (str_items 0 headers) as [names|e].
    2:{ intros Hrun. inversion Hrun; subst. apply only_talked_refl. }
    unfold bind at 1, try_except, llm_ainvoke, bind at 1, except_Exception.
    destruct (llm_reply (length (llm_log w)) _) as [summary|e].
    + unfold ret at 1. intros Hrun. apply IH in Hrun.
      eapply only_talked_trans; [|exact Hrun]. unfold only_talked. repeat split.
    + unfold bind at 1, print, ret. intros Hrun. apply IH in Hrun.
      eapply only_talked_trans; [|exact Hrun]. unfold only_talked. repeat split.
Qed.

(** With headers that are strings the loop returns, whatever the model
    does. *)
Lemma analyze_chunks_returns headers names chunks :
  str_items 0 headers = Ok names ->
  forall index combined w,
  exists entries w', analyze_chunks headers index chunks combined w = (Ok entries, w').
Proof.
  intros Hnames.
  induction chunks as [|chunk chunks IH]; intros index combined w; cbn [analyze_chunks].
  - unfold ret. eauto.
  - unfold bind at 1, lift. rewrite Hnames. cbn beta iota.
    unfold bind at 1, try_except, llm_ainvoke, bind at 1, except_Exception.
    destruct (llm_reply (length (llm_log w)) _) as [summary|e].
    + unfold ret at 1. apply IH.
    + unfold bind at 1, print, ret. apply IH.
Qed.

(** A run of the analyzer on rows whose first row is a record with
    string keys: it returns. *)
Lemma analyze_data_node_returns (st : AgentState) (w : World) (d : dict) (rest : list value) :
  loaded_data st = VDict d :: rest ->
  str_keyed d ->
  exists text w',
    analyze_data_node st w = (Ok [U_analysis text], w')
    /\ blobs w' = blobs w
    /\ (present (session_id st) = None -> sessions w' = sessions w /\ db_log w' = db_log w)
    /\ (d = [] -> text = "Data loaded, but could not extract headers for initial analysis."
                  /\ w' = w).
Proof.
  intros Hdata Hkeys. unfold analyze_data_node. rewrite Hdata.
  unfold bind at 1, ret at 1. cbn beta iota.
  pose proof (str_keyed_names d Hkeys 0) as Hnames.
  destruct d as [|[k0 v0] d'].
  - eexists _, w. split; [reflexivity|]. repeat split; auto.
  - cbn [dict_keys map fst] in *. set (chunks := map (fun i => list_slice _ i _) _).
    destruct (analyze_chunks_returns _ _ chunks Hnames 0 [] w) as (entries & w1 & Hrun).
    pose proof (analyze_chunks_only_talks _ _ _ _ _ _ _ Hrun) as (Hs & Hb & Hdb & _).
    unfold bind at 1. rewrite Hrun. cbn beta iota.
    destruct (present (session_id st)) as [sid|].
    + unfold bind, try_except, except_Exception, ret, raise, print, db_update.
      destruct (db_reply_at (length (db_log w1))) as [x| |];
        [| |destruct (sessions w1 !! sid) as [row|]];
        cbn [r_data]; eexists _, _; (split; [reflexivity|]);
        (split; [exact Hb|]); split; discriminate.
    + unfold bind, ret. eexists _, _. split; [reflexivity|].
      split; [exact Hb|]. split; [intros _; split; assumption | discriminate].
Qed.

(** Every run of the analyzer. *)
Lemma analyze_data_node_run (st : AgentState) (w : World) :
  exists result w',
    analyze_data_node st w = (result, w')
    /\ blobs w' = blobs w
    /\ (present (session_id st) = None -> sessions w' = sessions w /\ db_log w' = db_log w)
    /\ (loaded_data st = [] ->
        result = Ok [U_analysis "No data provided for analysis."] /\ w' = w)
    /\ (forall first rest, loaded_data st = first :: rest ->
          match first with
          | VDict [] =>
              result = Ok [U_analysis "Data loaded, but could not extract headers for initial analysis."]
              /\ w' = w
          | VDict d =>
              if forallb key_is_str (dict_keys d)
              then exists text, result = Ok [U_analysis text]
              else (exists msg, result = Raise (TypeError msg)) /\ w' = w
          | _ => (exists msg, result = Raise (AttributeError msg)) /\ w' = w
          end).
Proof.
  destruct (loaded_data st) as [|first rest] eqn:Hdata.
  { unfold analyze_data_node. rewrite Hdata. eexists _, w. split; [reflexivity|].
    repeat split; auto. discriminate. }
  assert (Hraise : forall e, analyze_data_node st w = (Raise e, w) ->
            exists result w',
              analyze_data_node st w = (result, w')
              /\ blobs w' = blobs w
              /\ (present (session_id st) = None ->
                  sessions w' = sessions w /\ db_log w' = db_log w)
              /\ result = Raise e /\ w' = w).
  { intros e He. exists (Raise e), w. repeat split; auto. }
  destruct first as [| | | | | |d].
  1-6: (edestruct Hraise as (result & w' & Hrun & Hb & Hdb & -> & ->);
        [unfold analyze_data_node; rewrite Hdata; reflexivity|];
        eexists _, w;
        split; [exact Hrun|]; split; [reflexivity|]; split; [auto|];
        split; [discriminate|];
        intros first' rest' Heq; inversion Heq; subst first' rest';
        split; [eexists; reflexivity | reflexivity]).
  destruct (forallb key_is_str (dict_keys d)) eqn:Hkeys.
  - destruct (analyze_data_node_returns st w d rest Hdata Hkeys)
      as (text & w' & Hrun & Hb & Hdb & Hnone).
    exists (Ok [U_analysis text]), w'. split; [exact Hrun|]. split; [exact Hb|].
    split; [exact Hdb|]. split; [discriminate|].
    intros first' rest' Heq; inversion Heq; subst first' rest'.
    destruct d as [|kv d'].
    + destruct (Hnone eq_refl) as [-> ->]. split; reflexivity.
    + cbn [dict_keys map] in Hkeys |- *. rewrite Hkeys. eauto.
  - destruct (analyze_data_node_join_raises st w d rest Hdata Hkeys) as (msg & Hrun).
    exists (Raise (TypeError msg)), w. split; [exact Hrun|]. split; [reflexivity|].
    split; [auto|]. split; [discriminate|].
    intros first' rest' Heq; inversion Heq; subst first' rest'.
    destruct d as [|kv d']; [discriminate Hkeys|].
    cbn [dict_keys map] in Hkeys |- *. rewrite Hkeys. split; [eauto | reflexivity].
Qed.

(** X10. The analyzer raises in two cases only, both decided by the
    first loaded row: a first row that is no record raises an
    AttributeError (the debugging line calls keys() on it before the
    type test), and a first record with a key that is no string raises
    a TypeError where the headers are joined. Both leave everything as
    it was and call no service. In every other case the stage returns
    an analysis, whatever the model and the store do: the notice of
    missing data without rows, the notice of missing headers for a
    first record without keys, in both cases changing nothing. The
    table blobs are never touched, and without a session id neither is
    the record store. *)
Theorem analyze_data_node_raises_only_on_first_row (st : AgentState) (w : World) :
  exists result w',
    analyze_data_node st w = (result, w')
    /\ blobs w' = blobs w
    /\ (present (session_id st) = None -> sessions w' = sessions w /\ db_log w' = db_log w)
    /\ (loaded_data st = [] ->
        result = Ok [U_analysis "No data provided for analysis."] /\ w' = w)
    /\ (forall first rest, loaded_data st = first :: rest ->
          match first with
          | VDict [] =>
              result = Ok [U_analysis "Data loaded, but could not extract headers for initial analysis."]
              /\ w' = w
          | VDict d =>
              if forallb key_is_str (dict_keys d)
              then exists text, result = Ok [U_analysis text]
              else (exists msg, result = Raise (TypeError msg)) /\ w' = w
          | _ => (exists msg, result = Raise (AttributeError msg)) /\ w' = w
          end).
Proof. exact (analyze_data_node_run st w). Qed.

(** A run of the analyzer on a stored session. *)
Lemma analyze_data_node_stored
  (st : AgentState) (w : World) (d : dict) (rest : list value) (sid : string) (row : dict) :
  loaded_data st = VDict d :: rest ->
  d <> [] ->
  str_keyed d ->
  present (session_id st) = Some sid ->
  db_reply_at (length (db_log w)) = DbAnswers ->
  sessions w !! sid = Some row ->
  exists text w',
    analyze_data_node st w = (Ok [U_analysis text], w')
    /\ sessions w' = <[sid := dict_set "initial_analysis" (VStr text) row]> (sessions w)
    /\ db_log w' = db_log w ++ [DbUpdate sid [("initial_analysis", VStr text)]]
    /\ blobs w' = blobs w.
Proof.
  intros Hdata Hd Hkeys Hsid Hreply Hrow.
  unfold analyze_data_node. rewrite Hdata.
  unfold bind at 1, ret at 1. cbn beta iota.
  pose proof (str_keyed_names d Hkeys 0) as Hnames.
  destruct d as [|[k0 v0] d']; [congruence|].
  cbn [dict_keys map fst] in *.
  set (chunks := map (fun i => list_slice _ i _) _).
  destruct (analyze_chunks_returns _ _ chunks Hnames 0 [] w) as (entries & w1 & Hrun).
  pose proof (analyze_chunks_only_talks _ _ _ _ _ _ _ Hrun) as (Hs & Hb & Hdb & _).
  unfold bind at 1. rewrite Hrun. cbn beta iota. rewrite Hsid.
  unfold bind, try_except, except_Exception, ret, raise, print, db_update.
  rewrite Hdb, Hreply, Hs, Hrow. cbn [r_data].
  eexists _, _. split; [reflexivity|].
  cbn [sessions with_sessions log_db db_log blobs]. rewrite Hs, Hdb, Hb.
  repeat split.
Qed.

(** X11. With rows to analyse whose first record has string keys and a
    session id, a store that carries the update out holds the analysis
    the stage returns: the record of the session is the old one with
    initial_analysis set to it, and that update is the one call the
    stage sends to the store. *)
Theorem analyze_data_node_stores_analysis
  (st : AgentState) (w : World) (d : dict) (rest : list value) (sid : string) (row : dict) :
  loaded_data st = VDict d :: rest ->
  d <> [] ->
  str_keyed d ->
  present (session_id st) = Some sid ->
  db_reply_at (length (db_log w)) = DbAnswers ->
  sessions w !! sid = Some row ->
  exists text w',
    analyze_data_node st w = (Ok [U_analysis text], w')
    /\ sessions w' = <[sid := dict_set "initial_analysis" (VStr text) row]> (sessions w)
    /\ db_log w' = db_log w ++ [DbUpdate sid [("initial_analysis", VStr text)]]
    /\ blobs w' = blobs w.
Proof. exact (analyze_data_node_stored st w d rest sid row). Qed.

End AnalyzeStore.

(* ===================================================================== *)
(** * Further properties of the Insight Extractor                          *)
(* ===================================================================== *)

Lemma validate_insight_fixes_complete item :
  complete_insight item -> validate_insight item = Some item.
Proof.
  intros (d & -> & Hall & (t & Ht & Hin) & (p & Hp)).
  cbn [validate_insight]. rewrite (proj2 (has_fields_spec d) Hall), Ht.
  assert (Henum : in_strs (VStr t) ["up"; "down"; "stable"] = true)
    by (apply in_strs_spec; eauto).
  rewrite Henum, Hp. reflexivity.
Qed.

Lemma omap_validate_fixed items :
  Forall complete_insight items -> omap validate_insight items = items.
Proof.
  induction 1 as [|item items Hitem _ IH]; cbn [omap list_omap]; [reflexivity|].
  rewrite (validate_insight_fixes_complete _ Hitem), IH. reflexivity.
Qed.

Lemma complete_insights_are_dicts items :
  Forall complete_insight items -> forallb is_dict items = true.
Proof.
  induction 1 as [|item items (d & -> & _) _ IH]; [reflexivity|].
  cbn [forallb is_dict]. exact IH.
Qed.

(** X12. Validation is idempotent: an item the validation keeps is kept
    unchanged when validated again, and the validation loop run on its
    own output returns that output. *)
Theorem validate_insight_idempotent (items : list value) :
  (forall item ok, validate_insight item = Some ok -> validate_insight ok = Some ok)
  /\ validate_loop (validate_loop items []) [] = validate_loop items [].
Proof.
  split.
  - intros item ok Hok. apply validate_insight_fixes_complete.
    eapply validate_insight_complete. exact Hok.
  - rewrite !validate_loop_omap. cbn [app].
    apply omap_validate_fixed, omap_validate_complete.
Qed.

Section InsightsRoundTrip.
Context `{Env}.

(** X13. What the Insight Extractor writes, GET /session/{id} reads
    back: when the store carries both calls out and the other fields of
    the record are what the response model accepts, the response for
    the session holds exactly the list the stage returned as its
    categorized_insights, and the chat history as stored. *)
Theorem parse_insights_node_then_get_session_data
  (st : AgentState) (w : World) (sid : string) (row : dict) :
  present (session_id st) = Some sid ->
  sessions w !! sid = Some row ->
  db_reply_at (length (db_log w)) = DbAnswers ->
  db_reply_at (S (length (db_log w))) = DbAnswers ->
  other_fields_valid row ->
  elements_valid is_dict_of_str (dict_get "chat_history" row) ->
  exists final w' resp w'',
    parse_insights_node st w = (Ok [U_structured_insights final], w')
    /\ get_session_data sid w' = (Ok resp, w'')
    /\ sdr_categorized_insights resp = VList final
    /\ sdr_chat_history resp = list_or_empty (dict_get "chat_history" row).
Proof.
  intros Hsid Hrow Hupdate Hselect Hvalid Hchat.
  destruct (parse_insights_node_run st w) as (w' & Hrun & Hrec).
  set (final := final_insights_of st w) in *.
  unfold insights_recorded in Hrec. rewrite Hsid in Hrec.
  destruct Hrec as [Hlog Hstore]. specialize (Hstore Hupdate row Hrow).
  set (row' := dict_set "categorized_insights" (VList final) row) in *.
  assert (Hrow' : sessions w' !! sid = Some row')
    by (rewrite Hstore; apply lookup_insert_eq).
  assert (Hfinal : Forall complete_insight final).
  { unfold final, final_insights_of.
    destruct (String.eqb (analysis st) ""); [constructor|].
    destruct (llm_reply _ _) as [reply|e]; [|constructor]. cbv zeta.
    destruct (String.eqb _ ""); [constructor|].
    destruct (json_loads _) as [[| | | | | |d]|e]; try constructor.
    destruct (dict_get "insights" d) as [[| | | | |items|]|]; try constructor.
    apply omap_validate_complete. }
  assert (Hget : forall k, k <> "categorized_insights" -> dict_get k row' = dict_get k row).
  { intros k Hk. apply dict_get_set_ne. congruence. }
  destruct (get_session_data_accepts sid w' row' Hrow') as (resp & w'' & Hfetch).
  - rewrite Hlog, length_app. cbn [length]. rewrite Nat.add_1_r. exact Hselect.
  - unfold other_fields_valid. rewrite !Hget by discriminate. exact Hvalid.
  - rewrite Hget by discriminate. exact Hchat.
  - unfold row'. rewrite dict_get_set_eq. cbn [elements_valid].
    apply complete_insights_are_dicts. exact Hfinal.
  - exists final, w', resp, w''. split; [exact Hrun|]. split; [exact Hfetch|].
    destruct (get_session_data_fetched sid w' row' resp w'' Hrow' Hfetch) as [Hch Hci].
    split.
    + rewrite Hci. unfold row'. rewrite dict_get_set_eq. reflexivity.
    + rewrite Hch, Hget by discriminate. reflexivity.
Qed.

End InsightsRoundTrip.

(* ===================================================================== *)
(** * The graph and the /invoke handler                                    *)
(* ===================================================================== *)

(** ** What a handler keeps *)

Lemma keeps_ret {A B} (f : World -> B) (a : A) : keeps f (ret a).
Proof. intros w. reflexivity. Qed.

Lemma keeps_raise {A B} (f : World -> B) (e : exn) : keeps f (@raise A e).
Proof. intros w. reflexivity. Qed.

Lemma keeps_lift {A B} (f : World -> B) (r : result A) : keeps f (lift r).
Proof. intros w. reflexivity. Qed.

Lemma keeps_bind {A B C} (f : World -> C) (m : M A) (k : A -> M B) :
  keeps f m -> (forall a, keeps f (k a)) -> keeps f (bind m k).
Proof.
  intros Hm Hk w. unfold bind. specialize (Hm w).
  destruct (m w) as [[a|e] w1]; cbn [snd] in *.
  - rewrite (Hk a w1). exact Hm.
  - exact Hm.
Qed.

Lemma keeps_try_except {A B} (f : World -> B) (body : M A) handler :
  keeps f body -> (forall e h, handler e = Some h -> keeps f h) ->
  keeps f (try_except body handler).
Proof.
  intros Hb Hh w. unfold try_except. specialize (Hb w).
  destruct (body w) as [[a|e] w1]; cbn [snd] in *; [exact Hb|].
  destruct (handler e) as [h|] eqn:He; [|exact Hb].
  rewrite (Hh e h He w1). exact Hb.
Qed.

Lemma keeps_except_Exception {A B} (f : World -> B) (g : exn -> M A) :
  (forall e, keeps f (g e)) -> forall e h, except_Exception g e = Some h -> keeps f h.
Proof. intros Hg e h Heq. inversion Heq; subst. apply Hg. Qed.

Lemma keeps_print {B} (f : World -> B) line :
  (forall l w, f (log_console l w) = f w) -> keeps f (print line).
Proof. intros Hf w. apply Hf. Qed.

Section Frames.
Context `{Env}.

Lemma keeps_llm_ainvoke {B} (f : World -> B) msgs :
  (forall m w, f (log_llm m w) = f w) -> keeps f (llm_ainvoke msgs).
Proof. intros Hf w. apply Hf. Qed.

Lemma db_update_keeps_blobs sid fields : keeps blobs (db_update sid fields).
Proof.
  intros w. unfold db_update.
  destruct (db_reply_at _); [reflexivity..|]. destruct (sessions w !! sid); reflexivity.
Qed.

Lemma db_update_keeps_globals sid fields : keeps globals_of (db_update sid fields).
Proof.
  intros w. unfold db_update.
  destruct (db_reply_at _); [reflexivity..|]. destruct (sessions w !! sid); reflexivity.
Qed.

Lemma save_insights_keeps {B} (f : World -> B) session_id final :
  (forall l w, f (log_console l w) = f w) ->
  (forall sid fields, keeps f (db_update sid fields)) ->
  keeps f (save_insights session_id final).
Proof.
  intros Hc Hu. unfold save_insights.
  destruct (present session_id) as [sid|]; [|apply keeps_ret].
  apply keeps_try_except.
  - apply keeps_bind; [apply Hu|]. intros res.
    destruct (r_data res); [apply keeps_raise | apply keeps_ret].
  - apply keeps_except_Exception. intros e. apply keeps_print, Hc.
Qed.

Lemma save_empty_insights_keeps {B} (f : World -> B) session_id final complaint :
  (forall l w, f (log_console l w) = f w) ->
  (forall sid fields, keeps f (db_update sid fields)) ->
  keeps f (save_empty_insights session_id final complaint).
Proof.
  intros Hc Hu. unfold save_empty_insights.
  destruct (present session_id) as [sid|]; [|apply keeps_ret].
  apply keeps_try_except.
  - apply keeps_bind; [apply Hu|]. intros res. apply keeps_ret.
  - apply keeps_except_Exception. intros e. apply keeps_print, Hc.
Qed.

Lemma insights_of_json_keeps {B} (f : World -> B) json_str :
  keeps f (insights_of_json json_str).
Proof.
  unfold insights_of_json. destruct (String.eqb json_str ""); [apply keeps_ret|].
  apply keeps_bind; [apply keeps_lift|]. intros data.
  destruct data as [| | | | | |d]; try apply keeps_ret.
  destruct (dict_get "insights" d) as [[| | | | |items|]|]; apply keeps_ret.
Qed.

Lemma parse_insights_node_keeps {B} (f : World -> B) st :
  (forall l w, f (log_console l w) = f w) ->
  (forall m w, f (log_llm m w) = f w) ->
  (forall sid fields, keeps f (db_update sid fields)) ->
  keeps f (parse_insights_node st).
Proof.
  intros Hc Hl Hu. unfold parse_insights_node.
  destruct (String.eqb (analysis st) "").
  - apply keeps_bind; [apply save_empty_insights_keeps; assumption|].
    intros _. apply keeps_ret.
  - apply keeps_try_except.
    + apply keeps_bind; [apply keeps_llm_ainvoke, Hl|]. intros resp.
      apply keeps_bind; [apply insights_of_json_keeps|]. intros final.
      apply keeps_bind; [apply save_insights_keeps; assumption|].
      intros _. apply keeps_ret.
    + intros e h Heq.
      destruct e; inversion Heq; subst;
        (apply keeps_bind; [apply save_empty_insights_keeps; assumption|]);
        intros _; apply keeps_ret.
Qed.

(** The Tag Extractor: its tags, and the world it leaves, which holds
    one more completion request when there is an analysis. *)
Lemma categorize_insight_node_run st w :
  exists found,
    categorize_insight_node st w
    = (Ok [U_tags found],
       if String.eqb (analysis st) "" then w else log_llm (tags_request st) w).
Proof.
  unfold categorize_insight_node.
  destruct (String.eqb (analysis st) ""); [unfold ret; eauto|].
  unfold try_except at 1, bind at 1, llm_ainvoke, except_Exception, ret.
  fold (tags_request st).
  destruct (llm_reply (length (llm_log w)) (tags_request st)) as [output|e]; [|eauto].
  destruct (Re.search re_DOTALL list_pattern output) as [m|]; [|eauto].
  unfold try_except, bind, lift, except_ValueError_SyntaxError, ret.
  destruct (literal_eval (group0 output m)) as [parsed|e].
  - destruct parsed; eauto.
  - destruct e; eauto.
Qed.


(** The part [f] after a try block that starts with [m]: what follows
    [m] and the handlers keep it. *)
Lemma after_first {A B C} (f : World -> C) (m : M A) (k : A -> M B) handler w :
  (forall a, keeps f (k a)) ->
  (forall e h, handler e = Some h -> keeps f h) ->
  f (snd (try_except (bind m k) handler w)) = f (snd (m w)).
Proof.
  intros Hk Hh. unfold try_except, bind.
  destruct (m w) as [[a|e] w1]; cbn [snd].
  - specialize (Hk a w1). destruct (k a w1) as [[b|e] w2]; cbn [snd] in *; [exact Hk|].
    destruct (handler e) as [h|] eqn:He; [|exact Hk].
    rewrite (Hh e h He w2). exact Hk.
  - destruct (handler e) as [h|] eqn:He; [|reflexivity]. apply (Hh e h He w1).
Qed.

Lemma db_update_keeps_llm : forall sid fields, keeps llm_log (db_update sid fields).
Proof. intros sid fields w. apply db_update_keeps_llm_log. Qed.

(** The Insight Extractor puts one request to the model when there is
    an analysis, and none otherwise. *)
Lemma parse_insights_node_llm_log st w :
  llm_log (snd (parse_insights_node st w))
  = if String.eqb (analysis st) "" then llm_log w
    else llm_log w ++ [insights_request st].
Proof.
  unfold parse_insights_node.
  destruct (String.eqb (analysis st) "").
  - apply (keeps_bind llm_log).
    + apply save_empty_insights_keeps; [reflexivity | apply db_update_keeps_llm].
    + intros _. apply keeps_ret.
  - rewrite (after_first llm_log).
    + reflexivity.
    + intros resp. apply keeps_bind; [apply insights_of_json_keeps|]. intros final.
      apply keeps_bind;
        [apply save_insights_keeps; [reflexivity | apply db_update_keeps_llm]|].
      intros _. apply keeps_ret.
    + intros e h Heq.
      destruct e; inversion Heq; subst;
        (apply keeps_bind;
         [apply save_empty_insights_keeps; [reflexivity | apply db_update_keeps_llm]|]);
        intros _; apply keeps_ret.
Qed.

Lemma supabase_file_input_of_records payload :
  forallb is_dict payload = true -> exists path, supabase_file_input payload = Ok path.
Proof.
  intros Hall. destruct payload as [|first [|second rest]]; cbn [supabase_file_input].
  - eauto.
  - destruct first as [| | | | | |d]; try discriminate Hall.
    destruct (_ && _); eauto.
  - destruct first; eauto.
Qed.

(** A payload of records never makes the loader raise. *)
Lemma load_data_node_returns_on_records payload w :
  forallb is_dict payload = true ->
  exists upd w1, load_data_node (invoke_inputs payload) w = (Ok upd, w1).
Proof.
  intros Hall.
  destruct (load_data_node (invoke_inputs payload) w) as [res w1] eqn:Hrun.
  destruct (load_data_node_run _ _ _ _ Hrun)
    as [(e & -> & Hraise) | [(upd & -> & _) | (rows & df & descr & w0 & sid & -> & _)]];
    [|eauto..].
  exfalso. cbn [data invoke_inputs] in Hraise. revert Hraise.
  unfold load_table, bind, lift.
  destruct (supabase_file_input_of_records payload Hall) as [[path|] ->].
  - destruct (download_table_run path w) as (r & w3 & -> & _). discriminate.
  - destruct (direct_table_run payload w) as (r & -> & _). discriminate.
Qed.

(** The four stages that follow the loader: each returns, and the graph
    returns the state they build. *)
Lemma graph_ainvoke_after_load inputs w upd w1 text w2 :
  load_data_node inputs w = (Ok upd, w1) ->
  analyze_data_node (merge_update inputs upd) w1 = (Ok [U_analysis text], w2) ->
  exists found w4,
    let s1 := merge_update inputs upd in
    let s2 := merge_update s1 [U_analysis text] in
    let w3 := if String.eqb text "" then w2 else log_llm (tags_request s2) w2 in
    let s3 := merge_update s2 [U_tags found] in
    let final := final_insights_of s3 w3 in
    let s4 := merge_update s3 [U_structured_insights final] in
    categorize_insight_node s2 w2 = (Ok [U_tags found], w3)
    /\ parse_insights_node s3 w3 = (Ok [U_structured_insights final], w4)
    /\ insights_recorded (session_id s3) final w3 w4
    /\ graph_ainvoke inputs w = (Ok (merge_update s4 [U_response (analysis s4)]), w4).
Proof.
  intros Hload Han.
  set (s1 := merge_update inputs upd) in *.
  set (s2 := merge_update s1 [U_analysis text]).
  destruct (categorize_insight_node_run s2 w2) as (found & Hcat).
  change (analysis s2) with text in Hcat.
  set (w3 := if String.eqb text "" then w2 else log_llm (tags_request s2) w2) in *.
  set (s3 := merge_update s2 [U_tags found]).
  destruct (parse_insights_node_run s3 w3) as (w4 & Hparse & Hrec).
  exists found, w4. cbv zeta.
  fold s1 s2 w3 s3.
  split; [exact Hcat|]. split; [exact Hparse|]. split; [exact Hrec|].
  unfold graph_ainvoke.
  unfold bind at 1, run_node at 1, bind at 1. rewrite Hload. unfold ret at 1.
  cbn beta iota. fold s1.
  unfold bind at 1, run_node at 1, bind at 1. rewrite Han. unfold ret at 1.
  cbn beta iota. fold s2.
  unfold bind at 1, run_node at 1, bind at 1. rewrite Hcat. unfold ret at 1.
  cbn beta iota. fold s3.
  unfold bind at 1, run_node at 1, bind at 1. rewrite Hparse. unfold ret at 1.
  cbn beta iota.
  unfold run_node, bind, respond_node, ret. reflexivity.
Qed.

Lemma final_insights_complete st w : Forall complete_insight (final_insights_of st w).
Proof.
  unfold final_insights_of.
  destruct (String.eqb (analysis st) ""); [constructor|].
  destruct (llm_reply _ _) as [reply|e]; [|constructor]. cbv zeta.
  destruct (String.eqb _ ""); [constructor|].
  destruct (json_loads _) as [[| | | | | |d]|e]; try constructor.
  destruct (dict_get "insights" d) as [[| | | | |items|]|]; try constructor.
  apply omap_validate_complete.
Qed.

End Frames.

Section Graph.
Context `{Env}.

(** The state and the world the graph ends with when the loader has
    failed. *)
Lemma graph_ainvoke_failed_load payload w upd w1 :
  load_data_node (invoke_inputs payload) w = (Ok upd, w1) ->
  failure_update upd ->
  exists final w',
    graph_ainvoke (invoke_inputs payload) w = (Ok final, w')
    /\ data final = payload
    /\ session_id final = None
    /\ error final = error (merge_update (invoke_inputs payload) upd)
    /\ dataframe final = None
    /\ loaded_data final = []
    /\ analysis final = "No data provided for analysis."
    /\ response final = "No data provided for analysis."
    /\ Forall complete_insight (structured_insights final)
    /\ llm_log w'
       = llm_log w1
         ++ [[HumanMessage (categorize_prompt "No data provided for analysis.")];
             [HumanMessage (insights_prompt "No data provided for analysis.")]]
    /\ db_log w' = db_log w1
    /\ sessions w' = sessions w1
    /\ blobs w' = blobs w1
    /\ globals_of w' = globals_of w1.
Proof.
  intros Hload Hfail.
  assert (Hloaded : loaded_data (merge_update (invoke_inputs payload) upd) = []).
  { destruct Hfail as (msg & [-> | [-> | ->]]); reflexivity. }
  assert (Han : analyze_data_node (merge_update (invoke_inputs payload) upd) w1
                = (Ok [U_analysis "No data provided for analysis."], w1)).
  { unfold analyze_data_node. rewrite Hloaded. reflexivity. }
  destruct (graph_ainvoke_after_load _ _ _ _ _ _ Hload Han)
    as (found & w4 & Hcat & Hparse & Hrec & Hgraph).
  cbv zeta in *.
  assert (Hsid : forall a t,
            session_id (merge_update (merge_update
                          (merge_update (invoke_inputs payload) upd) [U_analysis a])
                          [U_tags t]) = None).
  { intros a t. destruct Hfail as (msg & [-> | [-> | ->]]); reflexivity. }
  change (String.eqb "No data provided for analysis." "") with false in *.
  cbv iota in *.
  match type of Hparse with
  | parse_insights_node ?s ?w0 = _ =>
      pose proof (parse_insights_node_llm_log s w0) as Hllm;
      pose proof (parse_insights_node_keeps blobs s (fun _ _ => eq_refl)
                    (fun _ _ => eq_refl) db_update_keeps_blobs w0) as Hblobs;
      pose proof (parse_insights_node_keeps globals_of s (fun _ _ => eq_refl)
                    (fun _ _ => eq_refl) db_update_keeps_globals w0) as Hglobals
  end.
  rewrite Hparse in Hllm, Hblobs, Hglobals. cbn [snd] in Hllm, Hblobs, Hglobals.
  unfold insights_recorded in Hrec. rewrite Hsid in Hrec. cbn [present] in Hrec.
  destruct Hrec as [Hdb Hsessions].
  eexists _, w4. split; [exact Hgraph|].
  split; [destruct Hfail as (msg & [-> | [-> | ->]]); reflexivity|].
  split; [destruct Hfail as (msg & [-> | [-> | ->]]); reflexivity|].
  split; [destruct Hfail as (msg & [-> | [-> | ->]]); reflexivity|].
  split; [destruct Hfail as (msg & [-> | [-> | ->]]); reflexivity|].
  split; [destruct Hfail as (msg & [-> | [-> | ->]]); reflexivity|].
  split; [reflexivity|]. split; [reflexivity|].
  split; [apply final_insights_complete|].
  split.
  { rewrite Hllm. cbn [analysis merge_update fold_left apply_field String.eqb Ascii.eqb
                       Bool.eqb llm_log log_llm].
    rewrite <- app_assoc. reflexivity. }
  split; [rewrite Hdb; reflexivity|]. split; [rewrite Hsessions; reflexivity|].
  split; [rewrite Hblobs; reflexivity | rewrite Hglobals; reflexivity].
Qed.

(** X14. The graph has no edge that leaves early: after a failed load
    the three later stages still run. The analysis and the response are
    the notice of missing data, and the model is still asked twice, for
    tags and for insights about that notice; the store, the storage and
    the session table are not touched any further, and the state ends
    without a session id and with the loader's error. *)
Theorem graph_ainvoke_after_failed_load
  (payload : list value) (w : World) (upd : update) (w1 : World) :
  load_data_node (invoke_inputs payload) w = (Ok upd, w1) ->
  failure_update upd ->
  exists final w',
    graph_ainvoke (invoke_inputs payload) w = (Ok final, w')
    /\ session_id final = None
    /\ error final = error (merge_update (invoke_inputs payload) upd)
    /\ analysis final = "No data provided for analysis."
    /\ response final = "No data provided for analysis."
    /\ llm_log w'
       = llm_log w1
         ++ [[HumanMessage (categorize_prompt "No data provided for analysis.")];
             [HumanMessage (insights_prompt "No data provided for analysis.")]]
    /\ db_log w' = db_log w1
    /\ sessions w' = sessions w1
    /\ blobs w' = blobs w1.
Proof.
  intros Hload Hfail.
  destruct (graph_ainvoke_failed_load payload w upd w1 Hload Hfail)
    as (final & w' & Hrun & _ & Hsid & Herr & _ & _ & Han & Hresp & _ & Hllm & Hdb
        & Hs & Hb & _).
  exists final, w'. repeat (split; [assumption|]). assumption.
Qed.

End Graph.

Section Invoke.
Context `{Env}.

Lemma analyze_chunks_keeps {B} (f : World -> B) headers chunks :
  (forall l w, f (log_console l w) = f w) ->
  (forall m w, f (log_llm m w) = f w) ->
  forall index combined, keeps f (analyze_chunks headers index chunks combined).
Proof.
  intros Hc Hl. induction chunks as [|chunk chunks IH]; intros index combined;
    cbn [analyze_chunks]; [apply keeps_ret|].
  apply keeps_bind; [apply keeps_lift|]. intros names.
  apply keeps_bind; [|intros entries; apply IH].
  apply keeps_try_except.
  - apply keeps_bind; [apply keeps_llm_ainvoke, Hl|]. intros summary. apply keeps_ret.
  - apply keeps_except_Exception. intros e.
    apply keeps_bind; [apply keeps_print, Hc|]. intros _. apply keeps_ret.
Qed.

Lemma analyze_data_node_keeps {B} (f : World -> B) st :
  (forall l w, f (log_console l w) = f w) ->
  (forall m w, f (log_llm m w) = f w) ->
  (forall sid fields, keeps f (db_update sid fields)) ->
  keeps f (analyze_data_node st).
Proof.
  intros Hc Hl Hu. unfold analyze_data_node.
  destruct (loaded_data st) as [|first rest]; [apply keeps_ret|].
  apply keeps_bind; [destruct first; (apply keeps_ret || apply keeps_raise)|]. intros _.
  destruct (match first with VDict d => dict_keys d | _ => [] end); [apply keeps_ret|].
  apply keeps_bind; [apply analyze_chunks_keeps; assumption|]. intros entries.
  apply keeps_bind; [|intros _; apply keeps_ret].
  destruct (present (session_id st)) as [sid|]; [|apply keeps_ret].
  apply keeps_try_except.
  - apply keeps_bind; [apply Hu|]. intros res.
    destruct (r_data res); [apply keeps_raise | apply keeps_ret].
  - apply keeps_except_Exception. intros e. apply keeps_print, Hc.
Qed.

Lemma categorize_insight_node_keeps {B} (f : World -> B) st :
  (forall m w, f (log_llm m w) = f w) -> keeps f (categorize_insight_node st).
Proof.
  intros Hl w. destruct (categorize_insight_node_run st w) as (found & ->).
  cbn [snd]. destruct (String.eqb (analysis st) ""); [reflexivity | apply Hl].
Qed.

(** The loader never assigns the globals. *)
Lemma load_data_node_keeps_globals st : keeps globals_of (load_data_node st).
Proof.
  unfold load_data_node. destruct (data st) as [|first more]; [apply keeps_ret|].
  apply keeps_bind.
  - unfold load_table. apply keeps_bind; [apply keeps_lift|]. intros [path|].
    + unfold download_table. apply keeps_try_except.
      * apply keeps_bind.
        -- intros w. unfold storage_download. destruct (storage_reply_at _); reflexivity.
        -- intros [[|c b]|]; try apply keeps_ret.
           apply keeps_try_except.
           ++ apply keeps_bind; [apply keeps_lift|]. intros df. apply keeps_ret.
           ++ apply keeps_except_Exception. intros e. apply keeps_ret.
      * apply keeps_except_Exception. intros e. apply keeps_ret.
    + unfold direct_table. destruct (forallb is_dict _); [|apply keeps_ret].
      apply keeps_try_except.
      * apply keeps_bind; [apply keeps_lift|]. intros df. apply keeps_ret.
      * apply keeps_except_Exception. intros e. apply keeps_ret.
  - intros [early | [[rows [df|]] descr]]; try apply keeps_ret.
    destruct (negb (df_empty df)); [|apply keeps_ret].
    apply keeps_bind.
    + apply keeps_try_except.
      * apply keeps_bind; [|intros sid; apply keeps_ret].
        unfold create_session.
        apply keeps_bind; [intros w; reflexivity|]. intros sid.
        apply keeps_bind; [apply keeps_lift|]. intros parquet.
        apply keeps_bind.
        { intros w. unfold storage_upload. destruct (storage_reply_at _); reflexivity. }
        intros res. apply keeps_bind.
        { intros w. destruct (check_upload res w) as [r w'] eqn:Hc.
          apply check_upload_same in Hc. subst. reflexivity. }
        intros _. apply keeps_bind; [intros w; reflexivity|]. intros now.
        apply keeps_bind.
        { intros w. unfold db_insert. destruct (db_reply_at _); [reflexivity..|].
          destruct (dict_get "session_id" _) as [[| | | |s| |]|]; try reflexivity.
          destruct (sessions w !! s); reflexivity. }
        intros res'. destruct (r_data res'); [apply keeps_raise | apply keeps_ret].
      * apply keeps_except_Exception. intros e. apply keeps_ret.
    + intros [failure|sid]; apply keeps_ret.
Qed.

Lemma db_update_keeps_sessions_dom sid fields :
  keeps (fun w => dom (sessions w)) (db_update sid fields).
Proof.
  intros w. unfold db_update.
  destruct (db_reply_at _); [reflexivity..|].
  destruct (sessions w !! sid) as [row|] eqn:Hrow; [|reflexivity].
  cbn [snd sessions with_sessions log_db]. apply dom_insert_lookup_L. eauto.
Qed.

(** The handler after the graph has returned: the response is built
    from the final state, and the globals are assigned when the state
    holds a DataFrame. *)
Lemma invoke_graph_of_final payload w final w4 :
  graph_ainvoke (invoke_inputs payload) w = (Ok final, w4) ->
  forallb is_dict (structured_insights final) = true ->
  invoke_graph payload w
  = (Ok (mkInvokeResponse (session_id final) (analysis final) (structured_insights final)
           (tags final) (response final) (error final)),
     match dataframe final with
     | Some df =>
         log_console ("DEBUG: Stored last processed DF, analysis, and session ID: "
                      +:+ optional_str (session_id final)
                      +:+ " in globals for dev testing.")
           (with_globals (Some df) (analysis final) (session_id final) w4)
     | None => w4
     end).
Proof.
  intros Hgraph Hdicts.
  unfold invoke_graph, try_except, bind at 1. rewrite Hgraph. cbn beta iota.
  unfold new_InvokeResponse. rewrite Hdicts.
  destruct (dataframe final) as [df|]; reflexivity.
Qed.

(** The state and the world the graph ends with when the loader has
    created a session. *)
Lemma graph_ainvoke_created payload w rows df sid w1 d rest :
  load_data_node (invoke_inputs payload) w
  = (Ok [U_loaded_data rows; U_dataframe (Some df); U_session_id (Some sid); U_error None],
     w1) ->
  rows = VDict d :: rest ->
  str_keyed d ->
  exists final w',
    graph_ainvoke (invoke_inputs payload) w = (Ok final, w')
    /\ data final = payload
    /\ session_id final = Some sid
    /\ error final = None
    /\ dataframe final = Some df
    /\ loaded_data final = rows
    /\ response final = analysis final
    /\ Forall complete_insight (structured_insights final)
    /\ dom (sessions w') = dom (sessions w1)
    /\ blobs w' = blobs w1.
Proof.
  intros Hload Hrows Hkeys.
  destruct (analyze_data_node_returns
              (merge_update (invoke_inputs payload)
                 [U_loaded_data rows; U_dataframe (Some df); U_session_id (Some sid);
                  U_error None]) w1 d rest Hrows Hkeys)
    as (text & w2 & Han & _).
  destruct (graph_ainvoke_after_load _ _ _ _ _ _ Hload Han)
    as (found & w4 & Hcat & Hparse & Hrec & Hgraph).
  cbv zeta in *.
  eexists _, w4. split; [exact Hgraph|].
  repeat (split; [reflexivity|]).
  split; [apply final_insights_complete|].
  assert (Hkeep : forall {B} (f : World -> B),
            (forall l w, f (log_console l w) = f w) ->
            (forall m w, f (log_llm m w) = f w) ->
            (forall sid fields, keeps f (db_update sid fields)) ->
            f w4 = f w1).
  { intros B f Hc Hl Hu.
    match type of Han with
    | analyze_data_node ?s ?w0 = _ =>
        pose proof (analyze_data_node_keeps f s Hc Hl Hu w0) as H1
    end.
    match type of Hcat with
    | categorize_insight_node ?s ?w0 = _ =>
        pose proof (categorize_insight_node_keeps f s Hl w0) as H2
    end.
    match type of Hparse with
    | parse_insights_node ?s ?w0 = _ =>
        pose proof (parse_insights_node_keeps f s Hc Hl Hu w0) as H3
    end.
    rewrite Han in H1. rewrite Hcat in H2. rewrite Hparse in H3. cbn [snd] in *.
    congruence. }
  split.
  - apply (Hkeep _ (fun w => dom (sessions w))); [reflexivity.. |].
    apply db_update_keeps_sessions_dom.
  - apply (Hkeep _ blobs); [reflexivity..|]. apply db_update_keeps_blobs.
Qed.

(** X15. A request whose loading fails is answered with a response, not
    with an HTTP error: the response has no session id, carries the
    loader's error, and gives the notice of missing data as analysis and
    as response. The globals of the last processed session and the
    table of sessions are left as they were. *)
Theorem invoke_graph_after_failed_load
  (payload : list value) (w : World) (upd : update) (w1 : World) :
  load_data_node (invoke_inputs payload) w = (Ok upd, w1) ->
  failure_update upd ->
  exists resp w',
    invoke_graph payload w = (Ok resp, w')
    /\ ir_session_id resp = None
    /\ ir_error resp = error (merge_update (invoke_inputs payload) upd)
    /\ (exists msg, ir_error resp = Some msg)
    /\ ir_analysis resp = "No data provided for analysis."
    /\ ir_response resp = "No data provided for analysis."
    /\ globals_of w' = globals_of w
    /\ sessions w' = sessions w.
Proof.
  intros Hload Hfail.
  destruct (graph_ainvoke_failed_load payload w upd w1 Hload Hfail)
    as (final & w' & Hrun & _ & Hsid & Herr & Hdf & _ & Han & Hresp & Hins & _ & _
        & Hs & _ & Hg).
  pose proof (invoke_graph_of_final payload w final w' Hrun
                (complete_insights_are_dicts _ Hins)) as Hinvoke.
  rewrite Hdf in Hinvoke.
  eexists _, w'. split; [exact Hinvoke|]. cbn [ir_session_id ir_error ir_analysis ir_response].
  split; [exact Hsid|]. split; [exact Herr|].
  split.
  { rewrite Herr. destruct Hfail as (msg & [-> | [-> | ->]]); eexists; reflexivity. }
  split; [exact Han|]. split; [exact Hresp|].
  split.
  - rewrite Hg. pose proof (load_data_node_keeps_globals (invoke_inputs payload) w) as Hk.
    rewrite Hload in Hk. exact Hk.
  - rewrite Hs.
    destruct (load_data_node_run _ _ _ _ Hload)
      as [(e & He & _) | [(upd' & _ & _ & Hsame)
                         | (rows & df & descr & w0 & sid & Hupd & _)]];
      [discriminate | exact Hsame |].
    exfalso. inversion Hupd; subst upd.
    destruct Hfail as (msg & [Hf | [Hf | Hf]]); discriminate Hf.
Qed.

(** The rows of a payload that is no reference to a spreadsheet are
    the payload. *)
Lemma load_table_inline payload w rows df descr w1 :
  supabase_file_input payload = Ok None ->
  load_table payload w = (Ok (inr (rows, df, descr)), w1) ->
  rows = payload.
Proof.
  intros Hinline. unfold load_table, bind, lift. rewrite Hinline.
  unfold direct_table. destruct (forallb is_dict payload); [|unfold ret; discriminate].
  unfold try_except, bind, lift, except_Exception, ret.
  destruct (pd_DataFrame payload) as [frame|e]; intros Heq; inversion Heq; reflexivity.
Qed.

Lemma str_keyed_records_are_dicts payload :
  str_keyed_records payload -> forallb is_dict payload = true.
Proof.
  induction 1 as [|r rest (d & -> & _) _ IH]; [reflexivity|].
  cbn [forallb is_dict]. exact IH.
Qed.

(** X16. A request whose data are inline records with string keys, as
    the records of a JSON payload are, and no reference to a
    spreadsheet, is always answered with a response, whatever the
    model, the store and the storage do: the handler never ends with
    HTTP 500. The response field is the analysis, every insight is a
    complete record, and exactly one of session id and error is set. A
    session id that is returned is new and names a record of the table
    of sessions, and is the one the globals then hold; without a
    session id the table and the globals are as before. *)
Theorem invoke_graph_returns_on_records (payload : list value) (w : World) :
  str_keyed_records payload ->
  supabase_file_input payload = Ok None ->
  exists resp w',
    invoke_graph payload w = (Ok resp, w')
    /\ ir_response resp = ir_analysis resp
    /\ Forall complete_insight (ir_insights resp)
    /\ ((exists sid,
           ir_session_id resp = Some sid /\ ir_error resp = None
           /\ sessions w !! sid = None
           /\ is_Some (sessions w' !! sid)
           /\ global_current_session_id w' = Some sid
           /\ global_last_processed_analysis w' = ir_analysis resp)
        \/ (ir_session_id resp = None /\ (exists msg, ir_error resp = Some msg)
            /\ sessions w' = sessions w /\ globals_of w' = globals_of w)).
Proof.
  intros Hrecords Hinline.
  pose proof (str_keyed_records_are_dicts payload Hrecords) as Hall.
  destruct (load_data_node_returns_on_records payload w Hall) as (upd & w1 & Hload).
  destruct (load_data_node_run _ _ _ _ Hload)
    as [(e & He & _) | [(upd' & Hupd & Hfail & Hsame)
                       | (rows & df & descr & w0 & sid & Hupd & Htable & Hstore & _ & Hc)]];
    [discriminate | |].
  - inversion Hupd; subst upd'.
    destruct (graph_ainvoke_failed_load payload w upd w1 Hload Hfail)
      as (final & w' & Hrun & _ & Hsid & Herr & Hdf & _ & Han & Hresp & Hins & _ & _
          & Hs & _ & Hg).
    pose proof (invoke_graph_of_final payload w final w' Hrun
                  (complete_insights_are_dicts _ Hins)) as Hinvoke.
    rewrite Hdf in Hinvoke.
    eexists _, w'. split; [exact Hinvoke|].
    cbn [ir_session_id ir_error ir_analysis ir_response ir_insights].
    split; [congruence|]. split; [exact Hins|]. right.
    split; [exact Hsid|]. split.
    { rewrite Herr. destruct Hfail as (msg & [-> | [-> | ->]]); eexists; reflexivity. }
    split; [congruence|].
    rewrite Hg. pose proof (load_data_node_keeps_globals (invoke_inputs payload) w) as Hk.
    rewrite Hload in Hk. exact Hk.
  - inversion Hupd; subst upd.
    cbn [data invoke_inputs] in Htable.
    pose proof (load_table_inline _ _ _ _ _ _ Hinline Htable) as Hrows. subst rows.
    assert (Hfirst : exists d rest, payload = VDict d :: rest /\ str_keyed d).
    { destruct Hrecords as [|r rest (d & -> & Hd) _].
      - exfalso. unfold load_data_node in Hload. cbn [data invoke_inputs] in Hload.
        discriminate Hload.
      - eauto. }
    destruct Hfirst as (d & rest & Hpayload & Hd).
    destruct (graph_ainvoke_created payload w payload df sid w1 d rest Hload Hpayload Hd)
      as (final & w' & Hrun & _ & Hsid & Herr & Hdf & _ & Hresp & Hins & Hdom & _).
    pose proof (invoke_graph_of_final payload w final w' Hrun
                  (complete_insights_are_dicts _ Hins)) as Hinvoke.
    rewrite Hdf in Hinvoke.
    eexists _, _. split; [exact Hinvoke|].
    cbn [ir_session_id ir_error ir_analysis ir_response ir_insights].
    split; [exact Hresp|]. split; [exact Hins|]. left.
    exists sid. split; [exact Hsid|]. split; [exact Herr|].
    destruct (create_session_created _ _ _ _ _ Hc) as (_ & Hfree & Hs1 & _).
    destruct Hstore as (Hs0 & _).
    split; [rewrite <- Hs0; exact Hfree|].
    split.
    { cbn [sessions log_console with_globals]. apply elem_of_dom. rewrite Hdom, Hs1.
      apply elem_of_dom. rewrite lookup_insert_eq. eauto. }
    cbn [global_current_session_id global_last_processed_analysis log_console with_globals].
    split; [exact Hsid | reflexivity].
Qed.

(** X27. A table whose first row has a key that is no string, as the
    records of a spreadsheet with a numeric header cell have, is not
    analysed: when the loader has created the session for it, the
    analyzer raises at the join of the headers and POST /invoke ends
    with HTTP 500 "Internal Server Error: ...". No completion request is
    sent and the globals are not assigned, but the session the loader
    has created stays in the store, with its table blob, and the client
    is not told its id. *)
Theorem invoke_graph_non_string_header_is_500
  (payload : list value) (w : World) (rows : list value) (df : DataFrame) (sid : string)
  (w1 : World) (d : dict) (rest : list value) :
  load_data_node (invoke_inputs payload) w
  = (Ok [U_loaded_data rows; U_dataframe (Some df); U_session_id (Some sid); U_error None],
     w1) ->
  rows = VDict d :: rest ->
  ~ str_keyed d ->
  exists msg w',
    invoke_graph payload w
    = (Raise (HTTPException 500 ("Internal Server Error: " +:+ msg)), w')
    /\ sessions w' = sessions w1
    /\ is_Some (sessions w1 !! sid)
    /\ blobs w' = blobs w1
    /\ llm_log w' = llm_log w1
    /\ globals_of w' = globals_of w.
Proof.
  intros Hload Hrows Hkeys.
  assert (Hfalse : forallb key_is_str (dict_keys d) = false).
  { unfold str_keyed in Hkeys. destruct (forallb key_is_str (dict_keys d)); congruence. }
  destruct (analyze_data_node_join_raises
              (merge_update (invoke_inputs payload)
                 [U_loaded_data rows; U_dataframe (Some df); U_session_id (Some sid);
                  U_error None]) w1 d rest Hrows Hfalse) as (msg & Han).
  exists msg. eexists.
  unfold invoke_graph, try_except, bind at 1, graph_ainvoke.
  unfold bind at 1, run_node at 1, bind at 1. rewrite Hload. unfold ret at 1.
  cbn beta iota.
  unfold bind at 1, run_node at 1, bind at 1. rewrite Han. cbn beta iota.
  unfold except_Exception, bind, print, raise. cbn [exn_str].
  split; [reflexivity|].
  cbn [sessions blobs llm_log log_console globals_of global_last_processed_df
       global_last_processed_analysis global_current_session_id].
  split; [reflexivity|]. split.
  { destruct (load_data_node_run _ _ _ _ Hload)
      as [(e & He & _) | [(upd' & Hupd & Hfail & _)
                         | (rows' & df' & descr & w0 & sid' & Hupd & _ & _ & _ & Hc)]];
      [discriminate | |].
    - exfalso. inversion Hupd; subst upd'.
      destruct Hfail as (m & [Hf | [Hf | Hf]]); discriminate Hf.
    - inversion Hupd; subst rows' df' sid'.
      destruct (create_session_created _ _ _ _ _ Hc) as (_ & _ & Hs1 & _).
      rewrite Hs1, lookup_insert_eq. eauto. }
  split; [reflexivity|]. split; [reflexivity|].
  pose proof (load_data_node_keeps_globals (invoke_inputs payload) w) as Hk.
  rewrite Hload in Hk. exact Hk.
Qed.

(** The other three fields of a response of GET /session/{id}. *)
Lemma get_session_data_fields session_id w row resp w' :
  sessions w !! session_id = Some row ->
  get_session_data session_id w = (Ok resp, w') ->
  dict_get "session_id" row = Some (sdr_session_id resp)
  /\ dict_get "dataframe_storage_path" row = Some (sdr_dataframe_storage_path resp)
  /\ sdr_initial_analysis resp = default VNone (dict_get "initial_analysis" row).
Proof.
  intros Hrow. unfold get_session_data, try_except, bind at 1, db_select_one, except_Exception.
  destruct (db_reply_at (length (db_log w))) as [x| |].
  - unfold bind, print, raise. discriminate.
  - cbn [r_data]. unfold bind, print, raise. discriminate.
  - rewrite Hrow. cbn [fmap option_fmap option_map r_data].
    assert (Hget : forall k, In k session_columns ->
              dict_get k (project (Some session_columns) row) = dict_get k row)
      by (intros k Hk; apply dict_get_project; exact Hk).
    destruct (project (Some session_columns) row) as [|[k v] prow] eqn:Hp.
    { unfold bind, print, raise. discriminate. }
    rewrite <- Hp in *. clear Hp.
    set (prow' := project (Some session_columns) row) in *.
    unfold bind, ret, print, lift, raise, dict_item.
    rewrite (Hget "session_id"), (Hget "dataframe_storage_path"),
      (Hget "initial_analysis") by (cbn; tauto).
    destruct (is_list (default (VList []) (dict_get "chat_history" prow')));
    destruct (is_list (default (VList []) (dict_get "categorized_insights" prow')));
      cbn beta iota;
      (destruct (dict_get "session_id" row) as [sidv|]; [|discriminate]);
      (destruct (dict_get "dataframe_storage_path" row) as [pathv|]; [|discriminate]);
      unfold new_SessionDataResponse;
      (destruct (_ && _); [|discriminate]);
      intros Heq; inversion Heq; subst; cbn; auto.
Qed.

(** X17. What /invoke has returned for a new session, GET /session/{id}
    serves: when the loader has created the session, the rows start
    with a record that has a key, all of its keys strings, and the
    store carries every call out,
    the response of the fetch for the returned session id holds the
    returned analysis as its initial analysis, the returned insights as
    its categorized insights, an empty chat history, and the path of the
    table blob of that session. *)
Theorem invoke_graph_then_get_session_data
  (payload : list value) (w : World) (rows : list value) (df : DataFrame) (sid : string)
  (w1 : World) (d : dict) (rest : list value) :
  load_data_node (invoke_inputs payload) w
  = (Ok [U_loaded_data rows; U_dataframe (Some df); U_session_id (Some sid); U_error None],
     w1) ->
  rows = VDict d :: rest ->
  d <> [] ->
  str_keyed d ->
  sid <> "" ->
  (forall k, db_reply_at k = DbAnswers) ->
  exists resp w' fetched w'',
    invoke_graph payload w = (Ok resp, w')
    /\ ir_session_id resp = Some sid
    /\ ir_error resp = None
    /\ get_session_data sid w' = (Ok fetched, w'')
    /\ sdr_session_id fetched = VStr sid
    /\ sdr_dataframe_storage_path fetched = VStr ("processed_data/" +:+ sid +:+ ".parquet")
    /\ sdr_initial_analysis fetched = VStr (ir_analysis resp)
    /\ sdr_categorized_insights fetched = VList (ir_insights resp)
    /\ sdr_chat_history fetched = VList [].
Proof.
  intros Hload Hrows Hd Hkeys Hsid Hdb.
  destruct (load_data_node_run _ _ _ _ Hload)
    as [(e & He & _) | [(upd' & Hupd & Hfail & _)
                       | (rows' & df' & descr & w0 & sid' & Hupd & _ & _ & _ & Hc)]];
    [discriminate | |].
  { exfalso. inversion Hupd; subst upd'.
    destruct Hfail as (msg & [Hf | [Hf | Hf]]); discriminate Hf. }
  inversion Hupd; subst rows' df' sid'. clear Hupd.
  destruct (create_session_created _ _ _ _ _ Hc) as (_ & _ & Hs1 & _).
  set (record := session_record sid descr ("processed_data/" +:+ sid +:+ ".parquet")
                   (clock (clock_reads w0))) in *.
  assert (Hrec1 : sessions w1 !! sid = Some record)
    by (rewrite Hs1; apply lookup_insert_eq).
  assert (Hpresent : present (Some sid) = Some sid).
  { cbn [present]. rewrite (proj2 (String.eqb_neq sid "") Hsid). reflexivity. }
  destruct (analyze_data_node_stored
              (merge_update (invoke_inputs payload)
                 [U_loaded_data rows; U_dataframe (Some df); U_session_id (Some sid);
                  U_error None]) w1 d rest sid record)
    as (text & w2 & Han & Hs2 & Hlog2 & _);
    [exact Hrows | exact Hd | exact Hkeys | exact Hpresent | apply Hdb | exact Hrec1 |].
  destruct (graph_ainvoke_after_load _ _ _ _ _ _ Hload Han)
    as (found & w4 & Hcat & Hparse & Hrec & Hgraph).
  cbv zeta in *.
  set (s1 := merge_update (invoke_inputs payload)
               [U_loaded_data rows; U_dataframe (Some df); U_session_id (Some sid);
                U_error None]) in *.
  set (row2 := dict_set "initial_analysis" (VStr text) record) in *.
  set (s2 := merge_update s1 [U_analysis text]) in *.
  set (w3 := if String.eqb text "" then w2 else log_llm (tags_request s2) w2) in *.
  assert (Hs3 : sessions w3 = sessions w2) by (unfold w3; destruct (String.eqb text ""); reflexivity).
  assert (Hlog3 : db_log w3 = db_log w2) by (unfold w3; destruct (String.eqb text ""); reflexivity).
  set (s3 := merge_update s2 [U_tags found]) in *.
  set (final := final_insights_of s3 w3) in *.
  unfold insights_recorded in Hrec.
  change (session_id s3) with (Some sid) in Hrec. rewrite Hpresent in Hrec.
  destruct Hrec as [Hlog4 Hs4].
  specialize (Hs4 (Hdb _) row2).
  rewrite Hs3, Hs2, lookup_insert_eq in Hs4. specialize (Hs4 eq_refl).
  set (row4 := dict_set "categorized_insights" (VList final) row2) in *.
  assert (Hins : Forall complete_insight final) by apply final_insights_complete.
  pose proof (invoke_graph_of_final payload w _ w4 Hgraph
                (complete_insights_are_dicts _ Hins)) as Hinvoke.
  match type of Hinvoke with
  | context [match dataframe ?st with _ => _ end] =>
      change (dataframe st) with (Some df) in Hinvoke
  end.
  cbv iota in Hinvoke.
  match type of Hinvoke with _ = (_, ?wf) => set (w' := wf) in * end.
  assert (Hrow' : sessions w' !! sid = Some row4).
  { unfold w'. cbn [sessions log_console with_globals]. rewrite Hs4.
    apply lookup_insert_eq. }
  assert (Hget : forall k, k <> "categorized_insights" -> k <> "initial_analysis" ->
            dict_get k row4 = dict_get k record).
  { intros k H1 H2. unfold row4, row2.
    rewrite !dict_get_set_ne by congruence. reflexivity. }
  destruct (get_session_data_accepts sid w' row4 Hrow') as (fetched & w'' & Hfetch).
  - apply Hdb.
  - unfold other_fields_valid. rewrite !Hget by discriminate.
    split; [eexists; reflexivity|]. split; [eexists; reflexivity|].
    right. right. exists text. unfold row4.
    rewrite dict_get_set_ne by discriminate. apply dict_get_set_eq.
  - rewrite Hget by discriminate. reflexivity.
  - unfold row4. rewrite dict_get_set_eq. cbn [elements_valid].
    apply complete_insights_are_dicts. exact Hins.
  - destruct (get_session_data_fetched sid w' row4 fetched w'' Hrow' Hfetch) as [Hch Hci].
    destruct (get_session_data_fields sid w' row4 fetched w'' Hrow' Hfetch)
      as (Hfsid & Hfpath & Hfan).
    rewrite Hget in Hfsid, Hfpath by discriminate.
    eexists _, w', fetched, w''. split; [exact Hinvoke|].
    cbn [ir_session_id ir_error ir_analysis ir_insights].
    split; [reflexivity|]. split; [reflexivity|]. split; [exact Hfetch|].
    split; [inversion Hfsid; reflexivity|].
    split; [inversion Hfpath; reflexivity|].
    split.
    { rewrite Hfan. unfold row4. rewrite dict_get_set_ne by discriminate.
      unfold row2. rewrite dict_get_set_eq. reflexivity. }
    split.
    { rewrite Hci. unfold row4. rewrite dict_get_set_eq. reflexivity. }
    rewrite Hch, Hget by discriminate. reflexivity.
Qed.

End Invoke.

(* ===================================================================== *)
(** * Further properties of the Follow-up Engine                           *)
(* ===================================================================== *)

Lemma ignores_globals_ret {A} (a : A) : ignores_globals (ret a).
Proof. intros df an s w. reflexivity. Qed.

Lemma ignores_globals_raise {A} (e : exn) : ignores_globals (@raise A e).
Proof. intros df an s w. reflexivity. Qed.

Lemma ignores_globals_lift {A} (r : result A) : ignores_globals (lift r).
Proof. intros df an s w. reflexivity. Qed.

Lemma ignores_globals_print line : ignores_globals (print line).
Proof. intros df an s w. reflexivity. Qed.

(** [k] has to ignore the globals on the values [m] can return. *)
Lemma ignores_globals_bind {A B} (P : A -> Prop) (m : M A) (k : A -> M B) :
  ignores_globals m ->
  (forall w a w', m w = (Ok a, w') -> P a) ->
  (forall a, P a -> ignores_globals (k a)) ->
  ignores_globals (bind m k).
Proof.
  intros Hm HP Hk df an s w. unfold bind. rewrite (Hm df an s w).
  destruct (m w) as [[a|e] w1] eqn:Hrun; cbn [fst snd]; [|reflexivity].
  apply Hk. eapply HP. exact Hrun.
Qed.

Lemma ignores_globals_try_except {A} (body : M A) handler :
  ignores_globals body ->
  (forall e h, handler e = Some h -> ignores_globals h) ->
  ignores_globals (try_except body handler).
Proof.
  intros Hb Hh df an s w. unfold try_except. rewrite (Hb df an s w).
  destruct (body w) as [[a|e] w1]; cbn [fst snd]; [reflexivity|].
  destruct (handler e) as [h|] eqn:He; [|reflexivity]. apply (Hh e h He).
Qed.

Section ChatGrounding.
Context `{Env}.

Lemma db_select_one_ignores_globals columns sid :
  ignores_globals (db_select_one columns sid).
Proof.
  intros df an s w. unfold db_select_one. cbn [db_log with_globals sessions].
  destruct (db_reply_at _); reflexivity.
Qed.

Lemma db_update_ignores_globals sid fields : ignores_globals (db_update sid fields).
Proof.
  intros df an s w. unfold db_update. cbn [db_log with_globals sessions].
  destruct (db_reply_at _); [reflexivity..|]. destruct (sessions w !! sid); reflexivity.
Qed.

Lemma storage_download_ignores_globals bucket path :
  ignores_globals (storage_download bucket path).
Proof.
  intros df an s w. unfold storage_download. cbn [storage_log with_globals blobs].
  destruct (storage_reply_at _); reflexivity.
Qed.

Lemma agent_ainvoke_ignores_globals df memory question :
  ignores_globals (agent_ainvoke df memory question).
Proof. intros df' an s w. reflexivity. Qed.

Lemma fetch_chat_context_ignores_globals session_id :
  ignores_globals (fetch_chat_context session_id).
Proof.
  unfold fetch_chat_context. apply ignores_globals_try_except.
  - apply (ignores_globals_bind (fun _ => True));
      [apply db_select_one_ignores_globals | auto |]. intros res _.
    destruct (r_data res) as [[|[k v] row]|]; try apply ignores_globals_raise.
    apply (ignores_globals_bind (fun _ => True)); [apply ignores_globals_lift | auto |].
    intros path _.
    apply (ignores_globals_bind (fun _ => True));
      [apply storage_download_ignores_globals | auto |].
    intros [[|c b]|] _; try apply ignores_globals_raise.
    apply (ignores_globals_bind (fun _ => True)); [apply ignores_globals_lift | auto |].
    intros df _. apply ignores_globals_ret.
  - intros e h Heq. destruct e; inversion Heq; subst; apply ignores_globals_raise.
Qed.

Lemma answer_question_ignores_globals session_id question df context history :
  ignores_globals (answer_question session_id question df context history).
Proof.
  unfold answer_question. apply ignores_globals_try_except.
  - apply (ignores_globals_bind (fun _ => True)); [apply ignores_globals_lift | auto |].
    intros msgs _.
    apply (ignores_globals_bind (fun _ => True));
      [apply agent_ainvoke_ignores_globals | auto |].
    intros output _.
    apply (ignores_globals_bind (fun _ => True)); [apply ignores_globals_lift | auto |].
    intros updated _.
    apply (ignores_globals_bind (fun _ => True));
      [apply db_update_ignores_globals | auto |].
    intros res _.
    apply (ignores_globals_bind (fun _ => True)); [|auto|].
    + destruct (r_data res); [apply ignores_globals_raise | apply ignores_globals_print].
    + intros _ _. apply ignores_globals_ret.
  - intros e h Heq. inversion Heq; subst.
    apply (ignores_globals_bind (fun _ => True)); [apply ignores_globals_print | auto |].
    intros _ _. apply ignores_globals_raise.
Qed.

(** X18. The follow-up handler never answers from the in-process globals
    of the last /invoke: run with any other DataFrame, analysis and
    session id assigned to them, it returns the same answer or the same
    error and changes the world in the same way. The branch that reads
    the globals cannot be reached, the block before it ending with a
    DataFrame or with an error. *)
Theorem chat_with_insight_ignores_globals
  (payload : ChatRequest) (w : World)
  (df : option DataFrame) (analysis : string) (session_id : option string) :
  chat_with_insight payload (with_globals df analysis session_id w)
  = (fst (chat_with_insight payload w),
     with_globals df analysis session_id (snd (chat_with_insight payload w))).
Proof.
  revert df analysis session_id w.
  change (ignores_globals (chat_with_insight payload)).
  unfold chat_with_insight.
  apply (ignores_globals_bind (fun ctx : chat_context => fst (fst ctx) <> None)).
  - apply fetch_chat_context_ignores_globals.
  - intros w [[current ctx] history] w' Hrun. cbn [fst].
    eapply fetch_chat_context_grounded. exact Hrun.
  - intros [[current ctx] history] Hcurrent. cbn [fst] in Hcurrent.
    destruct current as [current|]; [|contradiction].
    apply (ignores_globals_bind (fun _ => True)); [apply ignores_globals_ret | auto |].
    intros grounded _. apply answer_question_ignores_globals.
Qed.

Lemma db_select_one_found columns sid w res w1 found :
  db_select_one columns sid w = (Ok res, w1) ->
  r_data res = Some found ->
  w1 = log_db (DbSelectOne columns sid) w
  /\ exists row, sessions w !! sid = Some row /\ found = project columns row.
Proof.
  unfold db_select_one. destruct (db_reply_at _); [discriminate| |];
    intros Heq; inversion Heq; subst; cbn [r_data]; [discriminate|].
  destruct (sessions w !! sid) as [row|]; [|discriminate].
  cbn [fmap option_fmap option_map]. intros Hf; inversion Hf. eauto.
Qed.

Lemma storage_download_found bucket path w bytes w1 :
  storage_download bucket path w = (Ok (Some bytes), w1) ->
  w1 = log_storage (Download bucket path) w /\ blobs w !! (bucket, path) = Some bytes.
Proof.
  unfold storage_download. destruct (storage_reply_at _); [discriminate| |];
    intros Heq; inversion Heq; subst; auto.
Qed.

(** What the first block has found when it ends with a DataFrame. *)
Lemma fetch_chat_context_found session_id w current context history w1 :
  fetch_chat_context session_id w = (Ok (current, context, history), w1) ->
  exists row path c bytes df,
    sessions w !! session_id = Some row
    /\ dict_get "dataframe_storage_path" row = Some path
    /\ blobs w !! ("processeddfs", str_of path) = Some (String c bytes)
    /\ read_parquet (String c bytes) = Ok df
    /\ current = Some df
    /\ context = default (VStr "") (dict_get "initial_analysis" row)
    /\ history = default (VList []) (dict_get "chat_history" row)
    /\ w1 = log_storage (Download "processeddfs" (str_of path))
              (log_db (DbSelectOne None session_id) w).
Proof.
  unfold fetch_chat_context, try_except, bind at 1.
  destruct (db_select_one None session_id w) as [[res|e] w0] eqn:Hsel;
    [|destruct e; discriminate].
  destruct (r_data res) as [[|[k v] row]|] eqn:Hdata; try (unfold raise; discriminate).
  destruct (db_select_one_found _ _ _ _ _ _ Hsel Hdata) as (-> & stored & Hrow & Hproj).
  cbn [project] in Hproj. subst stored.
  set (session_data := (k, v) :: row) in *.
  unfold bind at 1, lift, dict_item.
  destruct (dict_get "dataframe_storage_path" session_data) as [path|] eqn:Hpath;
    [|discriminate].
  unfold bind at 1.
  destruct (storage_download "processeddfs" (str_of path) _) as [[bytes|e] w2] eqn:Hdl;
    [|destruct e; discriminate].
  destruct bytes as [[|c b]|]; try (unfold raise; discriminate).
  destruct (storage_download_found _ _ _ _ _ Hdl) as (-> & Hblob).
  cbn [blobs log_db] in Hblob.
  unfold bind, lift, ret.
  destruct (read_parquet (String c b)) as [df|x] eqn:Hpq; [|destruct x; discriminate].
  intros Heq; inversion Heq; subst.
  exists session_data, path, c, b, df. repeat split; auto.
Qed.

(** The first block on a stored session with a stored table. *)
Lemma fetch_chat_context_stored session_id w row path c bytes res df :
  sessions w !! session_id = Some row ->
  db_reply_at (length (db_log w)) = DbAnswers ->
  dict_get "dataframe_storage_path" row = Some path ->
  storage_reply_at (length (storage_log w)) = StDone res ->
  blobs w !! ("processeddfs", str_of path) = Some (String c bytes) ->
  read_parquet (String c bytes) = Ok df ->
  fetch_chat_context session_id w
  = (Ok (Some df, default (VStr "") (dict_get "initial_analysis" row),
         default (VList []) (dict_get "chat_history" row)),
     log_storage (Download "processeddfs" (str_of path))
       (log_db (DbSelectOne None session_id) w)).
Proof.
  intros Hrow Hsel Hpath Hst Hblob Hpq.
  unfold fetch_chat_context, try_except, bind at 1, db_select_one.
  rewrite Hsel, Hrow. cbn [fmap option_fmap option_map project r_data].
  destruct row as [|[k v] row']; [discriminate|].
  unfold bind at 1, lift, dict_item. rewrite Hpath.
  unfold bind at 1, storage_download. cbn [storage_log log_db blobs].
  rewrite Hst, Hblob. unfold bind, lift, ret. rewrite Hpq. reflexivity.
Qed.

(** X19. Every answer of the follow-up handler comes from the store: the
    session has a record, the record names a table blob that is stored
    and parses, and the answer is what the agent returned when asked the
    question once, on that table, with the stored analysis and the
    stored turns as its memory. *)
Theorem chat_with_insight_answers_from_store
  (payload : ChatRequest) (w : World) (answer : string) (w' : World) :
  chat_with_insight payload w = (Ok answer, w') ->
  exists row path c bytes df history output,
    sessions w !! req_session_id payload = Some row
    /\ dict_get "dataframe_storage_path" row = Some path
    /\ blobs w !! ("processeddfs", str_of path) = Some (String c bytes)
    /\ read_parquet (String c bytes) = Ok df
    /\ iterate_history (default (VList []) (dict_get "chat_history" row)) = Ok history
    /\ agent_reply (length (agent_log w)) df (agent_memory row history)
         (req_question payload) = Ok output
    /\ answer = answer_of output
    /\ agent_log w' = agent_log w ++ [req_question payload].
Proof.
  unfold chat_with_insight, bind at 1.
  destruct (fetch_chat_context (req_session_id payload) w)
    as [[[[current context] history]|e] w1] eqn:Hfetch; [|discriminate].
  destruct (fetch_chat_context_found _ _ _ _ _ _ Hfetch)
    as (row & path & c & bytes & df & Hrow & Hpath & Hblob & Hpq & -> & -> & -> & ->).
  cbn beta iota. unfold bind at 1, ret at 1. cbn [fst snd].
  unfold answer_question, try_except, bind at 1, lift.
  destruct (iterate_history (default (VList []) (dict_get "chat_history" row)))
    as [msgs|e] eqn:Hhist;
    [|unfold except_Exception, bind, print, raise; discriminate].
  unfold bind at 1, agent_ainvoke. cbn [agent_log log_storage log_db].
  fold (agent_memory row msgs).
  destruct (agent_reply (length (agent_log w)) df (agent_memory row msgs)
              (req_question payload)) as [output|e] eqn:Hagent;
    [|unfold except_Exception, bind, print, raise; discriminate].
  fold (answer_of output).
  unfold bind at 1, lift.
  destruct (history_plus _ _) as [updated|e];
    [|unfold except_Exception, bind, print, raise; discriminate].
  unfold bind at 1.
  match goal with |- context [db_update ?s ?f ?w0] =>
    assert (Hlog : agent_log (snd (db_update s f w0)) = agent_log w0)
      by (unfold db_update; destruct (db_reply_at _); [reflexivity..|];
          destruct (sessions w0 !! s); reflexivity);
    destruct (db_update s f w0) as [[res|e] w2]
  end; cbn [snd] in Hlog;
    [|unfold except_Exception, bind, print, raise; discriminate].
  unfold bind, print, ret.
  destruct (r_data res); intros Heq; inversion Heq; subst;
    exists row, path, c, bytes, df, msgs, output;
    cbn [agent_log log_console]; rewrite Hlog; cbn [agent_log log_agent log_storage log_db];
    repeat split; auto.
Qed.

(** X20. A stored chat history the handler cannot iterate (a null, a
    number, a turn without role or content) makes every follow-up on
    that session fail: the handler ends with HTTP 500 that carries the
    error, before the agent is asked and without any update of the
    session, although the session and its table are stored. *)
Theorem chat_with_insight_unreadable_history
  (payload : ChatRequest) (w : World) (row : dict) (path : value) (c : ascii)
  (bytes : string) (res : value) (df : DataFrame) (e : exn) :
  sessions w !! req_session_id payload = Some row ->
  db_reply_at (length (db_log w)) = DbAnswers ->
  dict_get "dataframe_storage_path" row = Some path ->
  storage_reply_at (length (storage_log w)) = StDone res ->
  blobs w !! ("processeddfs", str_of path) = Some (String c bytes) ->
  read_parquet (String c bytes) = Ok df ->
  iterate_history (default (VList []) (dict_get "chat_history" row)) = Raise e ->
  exists w',
    chat_with_insight payload w
    = (Raise (HTTPException 500 ("Error processing chat question: " +:+ exn_str e)), w')
    /\ agent_log w' = agent_log w
    /\ sessions w' = sessions w
    /\ db_log w' = db_log w ++ [DbSelectOne None (req_session_id payload)].
Proof.
  intros Hrow Hsel Hpath Hst Hblob Hpq Hhist.
  unfold chat_with_insight, bind at 1.
  rewrite (fetch_chat_context_stored _ _ _ _ _ _ _ _ Hrow Hsel Hpath Hst Hblob Hpq).
  cbn beta iota. unfold bind at 1, ret at 1. cbn [fst snd].
  unfold answer_question, try_except, bind at 1, lift. rewrite Hhist.
  unfold except_Exception, bind, print, raise.
  eexists. split; [reflexivity|]. repeat split.
Qed.

End ChatGrounding.

(* ===================================================================== *)
(** * Further properties of the text helpers                               *)
(* ===================================================================== *)

(** ** Strings *)

Lemma substring_drop n : forall m s, substring n m s = substring 0 m (PyStr.drop n s).
Proof.
  induction n as [|n IH]; intros m s.
  - destruct s; reflexivity.
  - destruct s as [|c s]; [destruct m; reflexivity|]. cbn [substring PyStr.drop]. apply IH.
Qed.

Lemma substring_prefix a : forall b, substring 0 (String.length a) (a +:+ b) = a.
Proof.
  induction a as [|c a IH]; intros b.
  - destruct b; reflexivity.
  - change (String c a +:+ b) with (String c (a +:+ b)).
    cbn [String.length substring]. f_equal. apply IH.
Qed.

Lemma drop_app a : forall b, PyStr.drop (String.length a) (a +:+ b) = b.
Proof.
  induction a as [|c a IH]; intros b.
  - destruct b; reflexivity.
  - change (String c a +:+ b) with (String c (a +:+ b)).
    cbn [String.length PyStr.drop]. apply IH.
Qed.

Lemma substring_middle pre found rest :
  substring (String.length pre) (String.length found) (pre +:+ found +:+ rest) = found.
Proof. rewrite substring_drop, drop_app. apply substring_prefix. Qed.

Lemma prefix_one c s : String.prefix (String c "") s = true -> exists s', s = String c s'.
Proof.
  destruct s as [|b s]; cbn [String.prefix]; [discriminate|].
  destruct (Ascii.ascii_dec c b) as [->|Hne]; [eauto | discriminate].
Qed.

Lemma endswith_refl p : PyStr.endswith p p = true.
Proof. destruct p; cbn [PyStr.endswith]; rewrite String.eqb_refl; reflexivity. Qed.

Lemma endswith_app p a : PyStr.endswith p (a +:+ p) = true.
Proof.
  induction a as [|c a IH]; [apply endswith_refl|].
  change (String c a +:+ p) with (String c (a +:+ p)).
  cbn [PyStr.endswith]. rewrite IH. apply orb_true_r.
Qed.

(** The text up to and with the character at index [k] ends with it. *)
Lemma substring_ends k : forall u c t,
  PyStr.drop k u = String c t ->
  PyStr.endswith (String c "") (substring 0 (S k) u) = true.
Proof.
  induction k as [|k IH]; intros u c t Hdrop.
  - destruct u as [|b u]; cbn [PyStr.drop] in Hdrop; [discriminate|].
    inversion Hdrop; subst. cbn [substring].
    replace (substring 0 0 t) with "" by (destruct t; reflexivity).
    apply endswith_refl.
  - destruct u as [|b u]; cbn [PyStr.drop] in Hdrop; [discriminate|].
    cbn [substring]. cbn [PyStr.endswith]. rewrite (IH u c t Hdrop). apply orb_true_r.
Qed.

Lemma drop_drop a : forall b s, PyStr.drop a (PyStr.drop b s) = PyStr.drop (b + a) s.
Proof.
  intros b. revert a. induction b as [|b IH]; intros a s.
  - destruct s; reflexivity.
  - destruct s as [|c s]; [destruct a; reflexivity|]. cbn [PyStr.drop Nat.add]. apply IH.
Qed.

(** [find] and [rfind] return an index at which the needle stands. *)
Lemma find_from_found sub s : forall i r,
  PyStr.find_from sub s i = r -> r <> (-1)%Z -> (0 <= i)%Z ->
  (i <= r)%Z /\ String.prefix sub (PyStr.drop (Z.to_nat (r - i)) s) = true.
Proof.
  induction s as [|c s IH]; intros i r Hf Hr Hi; cbn [PyStr.find_from] in Hf.
  - destruct (String.prefix sub "") eqn:Hp; [|congruence].
    subst r. rewrite Z.sub_diag. split; [lia | exact Hp].
  - destruct (String.prefix sub (String c s)) eqn:Hp.
    + subst r. rewrite Z.sub_diag. split; [lia | exact Hp].
    + destruct (IH (i + 1)%Z r Hf Hr ltac:(lia)) as [Hle Hpre]. split; [lia|].
      replace (Z.to_nat (r - i)) with (S (Z.to_nat (r - (i + 1)))) by lia.
      exact Hpre.
Qed.

Lemma rfind_from_found sub s : forall i r,
  PyStr.rfind_from sub s i = r -> r <> (-1)%Z -> (0 <= i)%Z ->
  (i <= r)%Z /\ String.prefix sub (PyStr.drop (Z.to_nat (r - i)) s) = true.
Proof.
  induction s as [|c s IH]; intros i r Hf Hr Hi; cbn [PyStr.rfind_from] in Hf.
  - destruct (String.prefix sub "") eqn:Hp; [|congruence].
    subst r. rewrite Z.sub_diag. split; [lia | exact Hp].
  - cbv zeta in Hf.
    destruct (Z.eqb_spec (PyStr.rfind_from sub s (i + 1)) (-1)) as [Hnone|Hsome].
    + destruct (String.prefix sub (String c s)) eqn:Hp; [|congruence].
      subst r. rewrite Z.sub_diag. split; [lia | exact Hp].
    + destruct (IH (i + 1)%Z r Hf Hr ltac:(lia)) as [Hle Hpre]. split; [lia|].
      replace (Z.to_nat (r - i)) with (S (Z.to_nat (r - (i + 1)))) by lia.
      exact Hpre.
Qed.

Lemma startswith_cons c s : PyStr.startswith (String c "") (String c s) = true.
Proof.
  unfold PyStr.startswith. cbn [String.prefix].
  destruct (Ascii.ascii_dec c c); [|congruence]. destruct s; reflexivity.
Qed.

(** Strategy 2 yields a text from an opening to a closing brace. *)
Lemma brace_span_object_like text c :
  brace_span text = Some c ->
  PyStr.startswith "{" c = true /\ PyStr.endswith "}" c = true.
Proof.
  unfold brace_span. cbv zeta.
  destruct (Z.eqb_spec (PyStr.find "{" text) (-1)) as [|Hf]; [discriminate|].
  destruct (Z.eqb_spec (PyStr.rfind "}" text) (-1)) as [|Hr]; [discriminate|].
  destruct (Z.ltb_spec (PyStr.find "{" text) (PyStr.rfind "}" text)) as [Hlt|];
    [|discriminate].
  cbn [negb andb].
  destruct (_ =? _); [|discriminate]. intros Heq; inversion Heq; subst c; clear Heq.
  destruct (find_from_found "{" text 0 _ eq_refl Hf ltac:(lia)) as [Hf0 Hfp].
  destruct (rfind_from_found "}" text 0 _ eq_refl Hr ltac:(lia)) as [Hr0 Hrp].
  fold (PyStr.find "{" text) in Hf0, Hfp. fold (PyStr.rfind "}" text) in Hr0, Hrp.
  rewrite Z.sub_0_r in Hfp, Hrp.
  set (i := Z.to_nat (PyStr.find "{" text)) in *.
  set (j := Z.to_nat (PyStr.rfind "}" text)) in *.
  unfold PyStr.slice.
  replace (Z.to_nat (PyStr.find "{" text)) with i by reflexivity.
  replace (Z.to_nat (PyStr.rfind "}" text + 1 - PyStr.find "{" text)) with (S (j - i))
    by (unfold i, j; lia).
  rewrite substring_drop.
  destruct (prefix_one _ _ Hfp) as [t Ht].
  destruct (prefix_one _ _ Hrp) as [t' Ht'].
  split.
  - rewrite Ht. cbn [substring]. apply startswith_cons.
  - apply (substring_ends (j - i) _ "}"%char t').
    rewrite drop_drop. replace (i + (j - i)) with j by (unfold i, j; lia). exact Ht'.
Qed.

(** ** Patterns whose group is the whole match *)

Lemma greedy_span fl k cont :
  (forall s pos g e g', cont s pos g = Some (e, g') -> g' = (fst g, e)) ->
  forall s pos g e g', greedy fl k cont s pos g = Some (e, g') -> g' = (fst g, e).
Proof.
  intros Hc s. induction s as [|c s IH]; intros pos g e g' Hm; cbn [greedy] in Hm.
  - eapply Hc. exact Hm.
  - destruct (cclass_match fl k c); [|eapply Hc; exact Hm].
    destruct (greedy fl k cont s (S pos) g) as [res|] eqn:Hg.
    + inversion Hm; subst res. eapply IH. exact Hg.
    + eapply Hc. exact Hm.
Qed.

Lemma lazy_span fl k cont :
  (forall s pos g e g', cont s pos g = Some (e, g') -> g' = (fst g, e)) ->
  forall s pos g e g', lazy fl k cont s pos g = Some (e, g') -> g' = (fst g, e).
Proof.
  intros Hc s. induction s as [|c s IH]; intros pos g e g' Hm; cbn [lazy] in Hm.
  - destruct (cont "" pos g) as [res|] eqn:Hk; [|discriminate].
    inversion Hm; subst res. eapply Hc. exact Hk.
  - destruct (cont (String c s) pos g) as [res|] eqn:Hk.
    + inversion Hm; subst res. eapply Hc. exact Hk.
    + destruct (cclass_match fl k c); [|discriminate]. eapply IH. exact Hm.
Qed.

(** A pattern that closes its group at its end, and neither opens nor
    closes one before: the group ends where the match ends. *)
Lemma match_here_span fl body :
  Forall (fun item => item <> ROpen /\ item <> RClose) body ->
  forall s pos g e g',
    match_here fl (body ++ [RClose]) s pos g = Some (e, g') -> g' = (fst g, e).
Proof.
  induction 1 as [|item body [Hno Hnc] _ IH]; cbn [app match_here].
  - intros s pos g e g' Hm. inversion Hm; subst. reflexivity.
  - destruct item as [l|k|k| |]; try congruence.
    + intros s pos g e g' Hm.
      destruct (lit_match fl l s) as [s'|]; [|discriminate]. eapply IH. exact Hm.
    + apply greedy_span. exact IH.
    + apply lazy_span. exact IH.
Qed.

Lemma search_from_span fl body :
  Forall (fun item => item <> ROpen /\ item <> RClose) body ->
  forall s pos m,
    search_from fl (ROpen :: body ++ [RClose]) s pos = Some m ->
    m_span m = (m_start m, m_end m).
Proof.
  intros Hbody s. induction s as [|c s IH]; intros pos m Hs;
    cbn [search_from match_here] in Hs.
  - destruct (match_here fl (body ++ [RClose]) "" pos (pos, snd (pos, pos)))
      as [[e g]|] eqn:Hm; [|discriminate].
    inversion Hs; subst m. cbn [m_span m_start m_end].
    apply (match_here_span fl body Hbody) in Hm. exact Hm.
  - destruct (match_here fl (body ++ [RClose]) (String c s) pos (pos, snd (pos, pos)))
      as [[e g]|] eqn:Hm.
    + inversion Hs; subst m. cbn [m_span m_start m_end].
      apply (match_here_span fl body Hbody) in Hm. exact Hm.
    + eapply IH. exact Hs.
Qed.

(** The first element of [findall] is group 1 of the first match. *)
Lemma findall_head fl r text m0 more :
  findall fl r text = m0 :: more ->
  exists m, Re.search fl r text = Some m /\ m0 = group1 text m.
Proof.
  unfold findall, Re.search. cbn [findall_from].
  replace (PyStr.drop 0 text) with text by (destruct text; reflexivity).
  destruct (search_from fl r text 0) as [m|]; [|discriminate].
  intros Heq; inversion Heq. eauto.
Qed.

(** The text of a match is one of the texts the pattern describes. *)
Lemma search_group0 fl r text m :
  Re.search fl r text = Some m -> matches fl r (group0 text m).
Proof.
  intros Hs. unfold Re.search in Hs.
  destruct (search_from_sound _ _ _ _ _ Hs) as (pre & found & rest & -> & Hm & Hstart & Hend).
  unfold group0. rewrite Hend, Hstart. cbn [Nat.add].
  replace (String.length pre + String.length found - String.length pre)
    with (String.length found) by lia.
  rewrite substring_middle. exact Hm.
Qed.

Lemma string_app_empty_r a : a +:+ "" = a.
Proof.
  induction a as [|c a IH]; [reflexivity|].
  change (String c a +:+ "") with (String c (a +:+ "")). congruence.
Qed.

(** A text of a pattern that ends with a literal ends with a text of
    that literal. *)
Lemma matches_ends fl l body : forall m,
  matches fl (body ++ [RLit l; RClose]) m ->
  exists a ml, m = a +:+ ml /\ lit_eq fl l ml.
Proof.
  induction body as [|item body IH]; intros m Hm; cbn [app matches] in Hm.
  - destruct Hm as (m1 & m2 & -> & Hl & ->). exists "", m1.
    rewrite string_app_empty_r. auto.
  - destruct item as [l0|k|k| |].
    + destruct Hm as (m1 & m2 & -> & _ & Hrest).
      destruct (IH _ Hrest) as (a & ml & -> & Hl).
      exists (m1 +:+ a), ml. rewrite string_app_assoc. auto.
    + destruct Hm as (m1 & m2 & -> & _ & Hrest).
      destruct (IH _ Hrest) as (a & ml & -> & Hl).
      exists (m1 +:+ a), ml. rewrite string_app_assoc. auto.
    + destruct Hm as (m1 & m2 & -> & _ & Hrest).
      destruct (IH _ Hrest) as (a & ml & -> & Hl).
      exists (m1 +:+ a), ml. rewrite string_app_assoc. auto.
    + apply IH. exact Hm.
    + apply IH. exact Hm.
Qed.

(** A match of a pattern of the form ({...}) is its group, starts with
    an opening and ends with a closing brace. *)
Lemma braced_pattern_object_like inner text m0 more :
  Forall (fun item => item <> ROpen /\ item <> RClose) inner ->
  findall re_DOTALL (ROpen :: (RLit "{" :: inner ++ [RLit "}"]) ++ [RClose]) text
  = m0 :: more ->
  PyStr.startswith "{" m0 = true /\ PyStr.endswith "}" m0 = true.
Proof.
  intros Hinner Hfind.
  destruct (findall_head _ _ _ _ _ Hfind) as (m & Hs & ->).
  assert (Hbody : Forall (fun item => item <> ROpen /\ item <> RClose)
                    (RLit "{" :: inner ++ [RLit "}"])).
  { constructor; [split; discriminate|]. apply Forall_app. split; [exact Hinner|].
    constructor; [split; discriminate | constructor]. }
  pose proof (search_from_span _ _ Hbody _ _ _ Hs) as Hspan.
  pose proof (search_group0 _ _ _ _ Hs) as Hm.
  assert (Hsame : group1 text m = group0 text m)
    by (unfold group1, group0; rewrite Hspan; reflexivity).
  rewrite Hsame. set (found := group0 text m) in *.
  split.
  - cbn [matches app] in Hm. destruct Hm as (m1 & m2 & Heq & Hl & _).
    apply lit_eq_exact in Hl. subst m1. rewrite Heq.
    change ("{" +:+ m2) with (String "{" m2). apply startswith_cons.
  - assert (Hshape : ROpen :: (RLit "{" :: inner ++ [RLit "}"]) ++ [RClose]
                     = (ROpen :: RLit "{" :: inner) ++ [RLit "}"; RClose])
      by (cbn [app]; rewrite <- app_assoc; reflexivity).
    rewrite Hshape in Hm.
    destruct (matches_ends _ _ _ _ Hm) as (a & ml & Heq & Hl).
    apply lit_eq_exact in Hl. subst ml. rewrite Heq. apply endswith_app.
Qed.

(** ** extract_json_from_text *)

Lemma code_block_loop_object_like patterns text c :
  code_block_loop patterns text = Some c ->
  PyStr.startswith "{" c = true /\ PyStr.endswith "}" c = true.
Proof.
  induction patterns as [|p ps IH]; cbn [code_block_loop]; [discriminate|].
  destruct (findall _ p text) as [|m0 more]; [exact IH|]. cbv zeta.
  destruct (PyStr.startswith "{" (PyStr.strip m0) && PyStr.endswith "}" (PyStr.strip m0))
    eqn:Hc; [|exact IH].
  intros Heq; inversion Heq; subst c. apply andb_true_iff in Hc. exact Hc.
Qed.

Lemma json_pattern_loop_object_like text c :
  json_pattern_loop json_patterns text = Some c ->
  PyStr.startswith "{" c = true /\ PyStr.endswith "}" c = true.
Proof.
  unfold json_patterns. cbn [json_pattern_loop].
  match goal with |- context [findall re_DOTALL ?p text] =>
    destruct (findall re_DOTALL p text) as [|m0 more] eqn:Hfirst end.
  - match goal with |- context [findall re_DOTALL ?p text] =>
      destruct (findall re_DOTALL p text) as [|m1 more] eqn:Hsecond end;
      [discriminate|].
    intros Heq; inversion Heq; subst c.
    apply (braced_pattern_object_like
             [RLazy CDot; RLit (dq +:+ "insights" +:+ dq); RLazy CDot] text m1 more);
      [|exact Hsecond].
    repeat (constructor; [split; discriminate|]). constructor.
  - intros Heq; inversion Heq; subst c.
    apply (braced_pattern_object_like
             [RStar (CNot "}"); RLit (dq +:+ "insights" +:+ dq); RStar (CNot "}");
              RLit "["; RStar (CNot "]"); RLit "]"; RStar (CNot "}")] text m0 more);
      [|exact Hfirst].
    repeat (constructor; [split; discriminate|]). constructor.
Qed.

(** The outline of what the helper returns. *)
Lemma extract_json_from_text_shape (text : string) :
  extract_json_from_text text = ""
  \/ (PyStr.startswith "{" (extract_json_from_text text) = true
      /\ PyStr.endswith "}" (extract_json_from_text text) = true).
Proof.
  unfold extract_json_from_text.
  destruct (code_block_loop code_block_patterns text) as [c|] eqn:Ha.
  { right. eapply code_block_loop_object_like. exact Ha. }
  destruct (brace_span text) as [c|] eqn:Hb.
  { right. eapply brace_span_object_like. exact Hb. }
  destruct (json_pattern_loop json_patterns text) as [c|] eqn:Hc.
  { right. eapply json_pattern_loop_object_like. exact Hc. }
  left. reflexivity.
Qed.

(** X21. Whatever the text, the helper returns the empty string or a
    text that starts with an opening and ends with a closing brace: no
    strategy yields anything else, so what the Insight Extractor hands
    to the JSON parser always has the outline of an object. *)
Theorem extract_json_from_text_object_like (text : string) :
  extract_json_from_text text = ""
  \/ (PyStr.startswith "{" (extract_json_from_text text) = true
      /\ PyStr.endswith "}" (extract_json_from_text text) = true).
Proof. exact (extract_json_from_text_shape text). Qed.

(** ** The result is a part of the text *)

Lemma drop_part n : forall s, exists pre, s = pre +:+ PyStr.drop n s.
Proof.
  induction n as [|n IH]; intros s.
  - exists "". destruct s; reflexivity.
  - destruct s as [|c s]; [exists ""; reflexivity|].
    destruct (IH s) as [pre Heq]. exists (String c pre). cbn [PyStr.drop].
    change (String c pre +:+ PyStr.drop n s) with (String c (pre +:+ PyStr.drop n s)).
    f_equal. exact Heq.
Qed.

Lemma substring0_part m : forall s, exists post, s = substring 0 m s +:+ post.
Proof.
  induction m as [|m IH]; intros s.
  - exists s. destruct s; reflexivity.
  - destruct s as [|c s]; [exists ""; reflexivity|].
    destruct (IH s) as [post Heq]. exists post. cbn [substring].
    change (String c (substring 0 m s) +:+ post)
      with (String c (substring 0 m s +:+ post)).
    f_equal. exact Heq.
Qed.

Lemma substring_part n m s : exists pre post, s = pre +:+ substring n m s +:+ post.
Proof.
  destruct (drop_part n s) as [pre Hpre].
  destruct (substring0_part m (PyStr.drop n s)) as [post Hpost].
  exists pre, post. rewrite substring_drop, <- Hpost. exact Hpre.
Qed.

Lemma lstrip_part s : exists ws, s = ws +:+ PyStr.lstrip s.
Proof.
  induction s as [|c s [ws IH]]; [exists ""; reflexivity|].
  cbn [PyStr.lstrip]. destruct (PyStr.isspace c); [|exists ""; reflexivity].
  exists (String c ws).
  change (String c ws +:+ PyStr.lstrip s) with (String c (ws +:+ PyStr.lstrip s)).
  f_equal. exact IH.
Qed.

Lemma rstrip_part s : exists ws, s = PyStr.rstrip s +:+ ws.
Proof.
  induction s as [|c s [ws IH]]; [exists ""; reflexivity|].
  cbn [PyStr.rstrip]. destruct (PyStr.rstrip s) as [|r rs] eqn:Hr.
  - destruct (PyStr.isspace c).
    + exists (String c s). reflexivity.
    + exists s. reflexivity.
  - exists ws. change (String c (String r rs) +:+ ws) with (String c (String r rs +:+ ws)).
    f_equal. exact IH.
Qed.

Lemma strip_part s : exists pre post, s = pre +:+ PyStr.strip s +:+ post.
Proof.
  destruct (lstrip_part s) as [pre Hpre].
  destruct (rstrip_part (PyStr.lstrip s)) as [post Hpost].
  exists pre, post. unfold PyStr.strip. rewrite <- Hpost. exact Hpre.
Qed.

(** A part of a part is a part. *)
Lemma part_of_part text pre mid post pre' inner post' :
  text = pre +:+ mid +:+ post -> mid = pre' +:+ inner +:+ post' ->
  text = (pre +:+ pre') +:+ inner +:+ (post' +:+ post).
Proof. intros -> ->. rewrite !string_app_assoc. reflexivity. Qed.

Lemma findall_head_part fl r text m0 more :
  findall fl r text = m0 :: more -> exists pre post, text = pre +:+ m0 +:+ post.
Proof.
  intros Hfind. destruct (findall_head _ _ _ _ _ Hfind) as (m & _ & ->).
  apply substring_part.
Qed.

Lemma count_app c a : forall b, PyStr.count c (a +:+ b) = PyStr.count c a + PyStr.count c b.
Proof.
  induction a as [|x a IH]; intros b; [reflexivity|].
  change (String x a +:+ b) with (String x (a +:+ b)).
  cbn [PyStr.count]. rewrite IH. lia.
Qed.

(** X22. The helper returns a contiguous part of the text it is given:
    it never adds a character and never joins separate pieces. A text
    without an opening brace therefore always gives the empty string. *)
Theorem extract_json_from_text_is_part_of_text (text : string) :
  (exists pre post, text = pre +:+ extract_json_from_text text +:+ post)
  /\ (PyStr.count "{" text = 0 -> extract_json_from_text text = "").
Proof.
  assert (Hpart : exists pre post, text = pre +:+ extract_json_from_text text +:+ post).
  { unfold extract_json_from_text.
    destruct (code_block_loop code_block_patterns text) as [c|] eqn:Ha.
    { clear -Ha. revert Ha. generalize code_block_patterns as patterns.
      induction patterns as [|p ps IH]; cbn [code_block_loop]; [discriminate|].
      destruct (findall _ p text) as [|m0 more] eqn:Hfind; [exact IH|]. cbv zeta.
      destruct (_ && _); [|exact IH].
      intros Heq; inversion Heq; subst c.
      destruct (findall_head_part _ _ _ _ _ Hfind) as (pre & post & Htext).
      destruct (strip_part m0) as (pre' & post' & Hm0).
      eexists _, _. eapply part_of_part; eassumption. }
    destruct (brace_span text) as [c|] eqn:Hb.
    { revert Hb. unfold brace_span. cbv zeta.
      destruct (_ && _); [|discriminate]. destruct (_ =? _); [|discriminate].
      intros Heq; inversion Heq. apply substring_part. }
    destruct (json_pattern_loop json_patterns text) as [c|] eqn:Hc.
    { clear -Hc. revert Hc. generalize json_patterns as patterns.
      induction patterns as [|p ps IH]; cbn [json_pattern_loop]; [discriminate|].
      destruct (findall re_DOTALL p text) as [|m0 more] eqn:Hfind; [exact IH|].
      intros Heq; inversion Heq; subst c. eapply findall_head_part. exact Hfind. }
    exists "", text. reflexivity. }
  split; [exact Hpart|].
  intros Hnone.
  destruct (extract_json_from_text_shape text) as [Hempty | [Hstart _]];
    [exact Hempty|].
  exfalso. destruct Hpart as (pre & post & Htext).
  unfold PyStr.startswith in Hstart. destruct (prefix_one _ _ Hstart) as [t Ht].
  rewrite Ht in Htext. rewrite Htext, !count_app in Hnone.
  cbn [PyStr.count] in Hnone. change (Ascii.eqb "{" "{") with true in Hnone. cbv iota in Hnone. lia.
Qed.

(** ** A text that is a plain object *)

Lemma lower_backtick b :
  b <> "`"%char -> Ascii.eqb (PyStr.lower "`") (PyStr.lower b) = false.
Proof.
  intros Hb. destruct b as [b0 b1 b2 b3 b4 b5 b6 b7].
  destruct b0, b1, b2, b3, b4, b5, b6, b7;
    first [reflexivity | exfalso; apply Hb; reflexivity].
Qed.

(** A pattern that starts with a fence finds nothing in a text without
    a backtick. *)
Lemma search_from_without_backtick l r : forall s pos,
  PyStr.count "`" s = 0 ->
  search_from (flags_or re_DOTALL re_IGNORECASE) (RLit (String "`" l) :: r) s pos = None.
Proof.
  induction s as [|b s IH]; intros pos Hcount; cbn [search_from match_here lit_match].
  - reflexivity.
  - cbn [PyStr.count] in Hcount.
    destruct (Ascii.eqb_spec b "`") as [->|Hb]; [discriminate Hcount|].
    unfold char_eq. cbn [IGNORECASE flags_or re_DOTALL re_IGNORECASE orb].
    rewrite (lower_backtick b Hb). apply IH. exact Hcount.
Qed.

Lemma findall_without_backtick l r text :
  PyStr.count "`" text = 0 ->
  findall (flags_or re_DOTALL re_IGNORECASE) (RLit (String "`" l) :: r) text = [].
Proof.
  intros Hcount. unfold findall. cbn [findall_from].
  replace (PyStr.drop 0 text) with text by (destruct text; reflexivity).
  rewrite search_from_without_backtick by exact Hcount. reflexivity.
Qed.

Lemma find_at_start sub s : String.prefix sub s = true -> PyStr.find sub s = 0%Z.
Proof.
  intros Hp. unfold PyStr.find. destruct s; cbn [PyStr.find_from]; rewrite Hp; reflexivity.
Qed.

Lemma rfind_at_end s : forall i,
  (0 <= i)%Z -> PyStr.endswith "}" s = true ->
  PyStr.rfind_from "}" s i = (i + Z.of_nat (String.length s) - 1)%Z.
Proof.
  induction s as [|c s IH]; intros i Hi Hend; [discriminate Hend|].
  cbn [PyStr.endswith] in Hend. cbn [PyStr.rfind_from]. cbv zeta.
  destruct (PyStr.endswith "}" s) eqn:He.
  - rewrite (IH (i + 1)%Z ltac:(lia) eq_refl).
    destruct (Z.eqb_spec (i + 1 + Z.of_nat (String.length s) - 1) (-1)) as [Hneg|_];
      [lia|].
    cbn [String.length]. lia.
  - rewrite orb_false_r in Hend. apply String.eqb_eq in Hend.
    inversion Hend; subst c s.
    replace (PyStr.rfind_from "}" "" (i + 1)) with (-1)%Z by reflexivity.
    change (-1 =? -1)%Z with true. cbv iota.
    replace (String.prefix "}" "}") with true by reflexivity.
    cbn [String.length]. lia.
Qed.

Lemma substring_whole s : substring 0 (String.length s) s = s.
Proof.
  pose proof (substring_prefix s "") as Hp. rewrite string_app_empty_r in Hp. exact Hp.
Qed.

(** X23. A text that already is a plain object comes back unchanged: when
    it holds no backtick, starts with an opening and ends with a
    closing brace, and has as many opening as closing braces, the helper
    returns the text itself. *)
Theorem extract_json_from_text_keeps_plain_object (text : string) :
  PyStr.count "`" text = 0 ->
  PyStr.startswith "{" text = true ->
  PyStr.endswith "}" text = true ->
  PyStr.count "{" text = PyStr.count "}" text ->
  extract_json_from_text text = text.
Proof.
  intros Hfence Hstart Hend Hbalanced.
  unfold extract_json_from_text, code_block_patterns. cbn [code_block_loop].
  rewrite !findall_without_backtick by exact Hfence.
  unfold brace_span. cbv zeta.
  rewrite (find_at_start "{" text Hstart).
  unfold PyStr.rfind. rewrite (rfind_at_end text 0 ltac:(lia) Hend).
  assert (Hlen : 2 <= String.length text).
  { unfold PyStr.startswith in Hstart.
    destruct (prefix_one _ _ Hstart) as [t ->].
    destruct t as [|c t]; [discriminate Hend | cbn [String.length]; lia]. }
  change (0 =? -1)%Z with false.
  destruct (Z.eqb_spec (0 + Z.of_nat (String.length text) - 1) (-1)) as [Hneg|_]; [lia|].
  destruct (Z.ltb_spec 0 (0 + Z.of_nat (String.length text) - 1)) as [_|Hge]; [|lia].
  cbn [negb andb]. unfold PyStr.slice.
  replace (Z.to_nat (0 + Z.of_nat (String.length text) - 1 + 1 - 0))
    with (String.length text) by lia.
  change (Z.to_nat 0) with 0. rewrite substring_whole, Hbalanced, Nat.eqb_refl.
  reflexivity.
Qed.

(** ** Tags *)

Lemma rstrip_rstrip s : PyStr.rstrip (PyStr.rstrip s) = PyStr.rstrip s.
Proof.
  induction s as [|c s IH]; [reflexivity|]. cbn [PyStr.rstrip].
  destruct (PyStr.rstrip s) as [|r rs] eqn:Hr.
  - destruct (PyStr.isspace c) eqn:Hc; [reflexivity|].
    cbn [PyStr.rstrip]. rewrite Hc. reflexivity.
  - change (PyStr.rstrip (String c (String r rs)))
      with (match PyStr.rstrip (String r rs) with
            | EmptyString => if PyStr.isspace c then EmptyString else String c EmptyString
            | String x xs => String c (String x xs)
            end).
    rewrite IH. reflexivity.
Qed.

Lemma lstrip_head s :
  PyStr.lstrip s = "" \/ exists c s', PyStr.lstrip s = String c s' /\ PyStr.isspace c = false.
Proof.
  induction s as [|c s IH]; [left; reflexivity|]. cbn [PyStr.lstrip].
  destruct (PyStr.isspace c) eqn:Hc; [exact IH|]. right. eauto.
Qed.

Lemma rstrip_keeps_head c s :
  PyStr.isspace c = false -> exists r, PyStr.rstrip (String c s) = String c r.
Proof.
  intros Hc. cbn [PyStr.rstrip]. destruct (PyStr.rstrip s); [rewrite Hc|]; eauto.
Qed.

Lemma strip_strip s : PyStr.strip (PyStr.strip s) = PyStr.strip s.
Proof.
  unfold PyStr.strip.
  assert (Hl : PyStr.lstrip (PyStr.rstrip (PyStr.lstrip s)) = PyStr.rstrip (PyStr.lstrip s)).
  { destruct (lstrip_head s) as [-> | (c & s' & -> & Hc)]; [reflexivity|].
    destruct (rstrip_keeps_head c s' Hc) as [r ->]. cbn [PyStr.lstrip]. rewrite Hc.
    reflexivity. }
  rewrite Hl. apply rstrip_rstrip.
Qed.

Lemma clean_tags_trimmed items :
  Forall (fun tag => PyStr.strip tag = tag /\ tag <> "") (clean_tags items).
Proof.
  unfold clean_tags.
  induction items as [|item items IH]; cbn [omap list_omap]; [constructor|].
  destruct item as [| | | |s| |]; try exact IH.
  destruct (String.eqb_spec (PyStr.strip s) ""); [exact IH|].
  constructor; [split; [apply strip_strip | assumption] | exact IH].
Qed.

Lemma clean_tags_fixed tags :
  Forall (fun tag => PyStr.strip tag = tag /\ tag <> "") tags ->
  clean_tags (map VStr tags) = tags.
Proof.
  unfold clean_tags.
  induction 1 as [|tag tags [Htrim Hne] _ IH]; cbn [map omap list_omap]; [reflexivity|].
  rewrite Htrim. destruct (String.eqb_spec tag ""); [contradiction|].
  f_equal. exact IH.
Qed.

Section Tags.
Context `{Env}.

(** The tags of every run are the cleaned items of some list. *)
Lemma categorize_insight_node_cleaned st w :
  exists items, fst (categorize_insight_node st w) = Ok [U_tags (clean_tags items)].
Proof.
  unfold categorize_insight_node.
  destruct (String.eqb (analysis st) ""); [exists []; reflexivity|].
  unfold try_except at 1, bind at 1, llm_ainvoke, except_Exception, ret.
  destruct (llm_reply (length (llm_log w)) _) as [output|e]; [|exists []; reflexivity].
  destruct (Re.search re_DOTALL list_pattern output) as [m|]; [|exists []; reflexivity].
  unfold try_except, bind, lift, except_ValueError_SyntaxError, ret.
  destruct (literal_eval (group0 output m)) as [parsed|e].
  - destruct parsed as [| | | | |items|]; try (exists []; reflexivity).
    exists items. reflexivity.
  - destruct e; exists []; reflexivity.
Qed.

(** X24. Every tag the Tag Extractor returns is a non-empty text without
    white space at either end, whatever the model wrote around it, and
    cleaning is idempotent: the returned tags, cleaned again as a list
    of strings, are the same tags in the same order. *)
Theorem categorize_insight_node_tags_are_trimmed (st : AgentState) (w : World) :
  exists found w',
    categorize_insight_node st w = (Ok [U_tags found], w')
    /\ Forall (fun tag => PyStr.strip tag = tag /\ tag <> "") found
    /\ clean_tags (map VStr found) = found.
Proof.
  destruct (categorize_insight_node_cleaned st w) as [items Hitems].
  destruct (categorize_insight_node st w) as [res w'] eqn:Hrun. cbn [fst] in Hitems.
  subst res. exists (clean_tags items), w'. split; [reflexivity|].
  split; [apply clean_tags_trimmed|]. apply clean_tags_fixed, clean_tags_trimmed.
Qed.

End Tags.

(** ** The further properties on the sample data *)

(** X2 on the stored session session-0 and the unknown id nope. *)
Lemma get_session_data_unknown_session_is_500_witness :
  exists detail w',
    @get_session_data Sample.env "nope" Sample.world_with_session
    = (Raise (HTTPException 500 detail), w')
    /\ sessions w' = sessions Sample.world_with_session
    /\ detail = "Error fetching session data: 404: Session nope not found.".
Proof.
  destruct (@get_session_data_unknown_session_is_500 Sample.env "nope"
              Sample.world_with_session)
    as (detail & w' & Hrun & Hs & Hdetail).
  { vm_compute. reflexivity. }
  exists detail, w'. split; [exact Hrun|]. split; [exact Hs|].
  apply Hdetail. intros x. discriminate.
Defined.

(** X5 on a store whose only record has no session id. *)
Lemma get_all_sessions_one_bad_record_fails_all_witness :
  session_response (project (Some all_session_columns) Sample.broken_session)
  = Raise (KeyError "session_id")
  /\ exists detail w',
       @get_all_sessions Sample.env Sample.world_with_broken_session
       = (Raise (HTTPException 500 detail), w')
       /\ sessions w' = sessions Sample.world_with_broken_session.
Proof.
  split; [vm_compute; reflexivity|].
  apply (@get_all_sessions_one_bad_record_fails_all Sample.env
           Sample.world_with_broken_session "broken" Sample.broken_session
           (KeyError "session_id")).
  - vm_compute. reflexivity.
  - vm_compute. reflexivity.
  - intros err. discriminate.
Defined.

(** X6 on the stored session session-0 with its expiry moved to 0. *)
Lemma get_session_data_ignores_expiry_witness :
  fst (@get_session_data Sample.env "session-0"
         (with_sessions
            (insert "session-0" (dict_set "expires_at" (VStr "0") Sample.stored_session))
            Sample.world_with_session))
  = fst (@get_session_data Sample.env "session-0" Sample.world_with_session).
Proof.
  apply (@get_session_data_ignores_expiry Sample.env "session-0"
           Sample.world_with_session Sample.stored_session (VStr "0")).
  vm_compute. reflexivity.
Defined.

(** X7 on the two revenue records and an empty store. *)
Lemma load_data_node_session_id_iff_record_witness :
  exists w' record,
    @load_data_node Sample.env (invoke_inputs Sample.revenue_rows) Sample.empty_world
    = (Ok [U_loaded_data Sample.revenue_rows;
           U_dataframe (Some (Sample.frame_of Sample.revenue_rows));
           U_session_id (Some "session-0"); U_error None], w')
    /\ sessions w' = <["session-0" := record]> (sessions Sample.empty_world)
    /\ dict_get "session_id" record = Some (VStr "session-0").
Proof.
  assert (Hrun : @load_data_node Sample.env (invoke_inputs Sample.revenue_rows)
                   Sample.empty_world
                 = (Ok [U_loaded_data Sample.revenue_rows;
                        U_dataframe (Some (Sample.frame_of Sample.revenue_rows));
                        U_session_id (Some "session-0"); U_error None],
                    snd (@load_data_node Sample.env (invoke_inputs Sample.revenue_rows)
                           Sample.empty_world)))
    by (vm_compute; reflexivity).
  pose proof (@load_data_node_session_id_iff_record Sample.env _ _ _ _ Hrun) as Hmain.
  cbv beta iota in Hmain. destruct Hmain as [Hsome _].
  destruct (Hsome "session-0") as (_ & record & bytes & Hs & Hid & _).
  { right. right. left. reflexivity. }
  eexists. exists record. split; [exact Hrun|]. split; [exact Hs | exact Hid].
Defined.

(** X9 on the two revenue records with a store that refuses the
    insert. *)
Lemma load_data_node_failed_insert_keeps_blob_witness :
  exists upd w',
    @load_data_node Sample.env_store_refuses (invoke_inputs Sample.revenue_rows)
      Sample.empty_world = (Ok upd, w')
    /\ reports_failure (invoke_inputs Sample.revenue_rows) upd
    /\ sessions w' = sessions Sample.empty_world
    /\ blobs w' !! ("processeddfs", "processed_data/session-0.parquet")
       = Some "PAR1month,revenue".
Proof.
  refine (@load_data_node_failed_insert_keeps_blob Sample.env_store_refuses
            Sample.revenue_rows Sample.empty_world Sample.revenue_rows
            (Sample.frame_of Sample.revenue_rows) "Directly provided data"
            Sample.empty_world "PAR1month,revenue" (VBool true) _ _ _ _ _ _ _).
  - discriminate.
  - vm_compute. reflexivity.
  - reflexivity.
  - vm_compute. reflexivity.
  - reflexivity.
  - intros [Hfalse | (d & err & Hd & _)]; discriminate.
  - discriminate.
Defined.

(** X11 on the loaded revenue records and the stored session
    session-0. *)
Lemma analyze_data_node_stores_analysis_witness :
  exists text w',
    @analyze_data_node Sample.env Sample.loaded_state Sample.world_with_session
    = (Ok [U_analysis text], w')
    /\ sessions w'
       = <["session-0" := dict_set "initial_analysis" (VStr text) Sample.stored_session]>
           (sessions Sample.world_with_session).
Proof.
  destruct (@analyze_data_node_stores_analysis Sample.env Sample.loaded_state
              Sample.world_with_session
              [("month", VStr "Jan"); ("revenue", VInt 100)]
              [VDict [("month", VStr "Feb"); ("revenue", VInt 150)]]
              "session-0" Sample.stored_session)
    as (text & w' & Hrun & Hs & _).
  - reflexivity.
  - discriminate.
  - reflexivity.
  - reflexivity.
  - reflexivity.
  - vm_compute. reflexivity.
  - exists text, w'. split; [exact Hrun | exact Hs].
Defined.

(** X13 on the stored session session-0 with a model that answers the
    two insights of scenario C. *)
Lemma parse_insights_node_then_get_session_data_witness :
  exists final w' resp w'',
    @parse_insights_node Sample.env_insights Sample.analysed_state Sample.world_with_session
    = (Ok [U_structured_insights final], w')
    /\ @get_session_data Sample.env_insights "session-0" w' = (Ok resp, w'')
    /\ sdr_categorized_insights resp = VList final.
Proof.
  destruct (@parse_insights_node_then_get_session_data Sample.env_insights
              Sample.analysed_state Sample.world_with_session "session-0"
              Sample.stored_session)
    as (final & w' & resp & w'' & Hparse & Hget & Hins & _).
  - reflexivity.
  - vm_compute. reflexivity.
  - reflexivity.
  - reflexivity.
  - split; [eexists; reflexivity|]. split; [eexists; reflexivity|].
    right. right. eexists. reflexivity.
  - reflexivity.
  - exists final, w', resp, w''. split; [exact Hparse|]. split; [exact Hget | exact Hins].
Defined.

(** X14 on a payload of one empty record. *)
Lemma graph_ainvoke_after_failed_load_witness :
  exists final w',
    @graph_ainvoke Sample.env (invoke_inputs [VDict []]) Sample.empty_world = (Ok final, w')
    /\ session_id final = None
    /\ analysis final = "No data provided for analysis."
    /\ response final = "No data provided for analysis.".
Proof.
  destruct (@graph_ainvoke_after_failed_load Sample.env [VDict []] Sample.empty_world
              [U_error (Some "ERROR: No data loaded or DataFrame is empty after processing. Cannot create session.");
               U_loaded_data []; U_dataframe None; U_session_id None]
              (snd (@load_data_node Sample.env (invoke_inputs [VDict []])
                      Sample.empty_world)))
    as (final & w' & Hrun & Hsid & _ & Han & Hresp & _).
  - vm_compute. reflexivity.
  - eexists. right. right. reflexivity.
  - exists final, w'. split; [exact Hrun|]. split; [exact Hsid|].
    split; [exact Han | exact Hresp].
Defined.

(** X15 on a payload of one empty record. *)
Lemma invoke_graph_after_failed_load_witness :
  exists resp w',
    @invoke_graph Sample.env [VDict []] Sample.empty_world = (Ok resp, w')
    /\ ir_session_id resp = None
    /\ (exists msg, ir_error resp = Some msg)
    /\ ir_analysis resp = "No data provided for analysis."
    /\ sessions w' = sessions Sample.empty_world.
Proof.
  destruct (@invoke_graph_after_failed_load Sample.env [VDict []] Sample.empty_world
              [U_error (Some "ERROR: No data loaded or DataFrame is empty after processing. Cannot create session.");
               U_loaded_data []; U_dataframe None; U_session_id None]
              (snd (@load_data_node Sample.env (invoke_inputs [VDict []])
                      Sample.empty_world)))
    as (resp & w' & Hrun & Hsid & _ & Herr & Han & _ & _ & Hs).
  - vm_compute. reflexivity.
  - eexists. right. right. reflexivity.
  - exists resp, w'. split; [exact Hrun|]. split; [exact Hsid|].
    split; [exact Herr|]. split; [exact Han | exact Hs].
Defined.

(** X16 on the two revenue records. *)
Lemma invoke_graph_returns_on_records_witness :
  exists resp w',
    @invoke_graph Sample.env_insights Sample.revenue_rows Sample.empty_world = (Ok resp, w')
    /\ ir_response resp = ir_analysis resp
    /\ Forall complete_insight (ir_insights resp).
Proof.
  destruct (@invoke_graph_returns_on_records Sample.env_insights Sample.revenue_rows
              Sample.empty_world)
    as (resp & w' & Hrun & Hresp & Hins & _).
  - repeat constructor; eexists; (split; [reflexivity|]); reflexivity.
  - reflexivity.
  - exists resp, w'. split; [exact Hrun|]. split; [exact Hresp | exact Hins].
Defined.

(** X17 on the two revenue records, an empty store and a model that
    answers the two insights of scenario C. *)
Lemma invoke_graph_then_get_session_data_witness :
  exists resp w' fetched w'',
    @invoke_graph Sample.env_insights Sample.revenue_rows Sample.empty_world = (Ok resp, w')
    /\ ir_session_id resp = Some "session-0"
    /\ @get_session_data Sample.env_insights "session-0" w' = (Ok fetched, w'')
    /\ sdr_initial_analysis fetched = VStr (ir_analysis resp)
    /\ sdr_categorized_insights fetched = VList (ir_insights resp)
    /\ sdr_chat_history fetched = VList [].
Proof.
  destruct (@invoke_graph_then_get_session_data Sample.env_insights Sample.revenue_rows
              Sample.empty_world Sample.revenue_rows (Sample.frame_of Sample.revenue_rows)
              "session-0"
              (snd (@load_data_node Sample.env_insights (invoke_inputs Sample.revenue_rows)
                      Sample.empty_world))
              [("month", VStr "Jan"); ("revenue", VInt 100)]
              [VDict [("month", VStr "Feb"); ("revenue", VInt 150)]])
    as (resp & w' & fetched & w'' & Hrun & Hsid & _ & Hget & _ & _ & Han & Hins & Hch).
  - vm_compute. reflexivity.
  - reflexivity.
  - discriminate.
  - reflexivity.
  - discriminate.
  - intros k. reflexivity.
  - exists resp, w', fetched, w''. split; [exact Hrun|]. split; [exact Hsid|].
    split; [exact Hget|]. split; [exact Han|]. split; [exact Hins | exact Hch].
Defined.

(** X27 on a spreadsheet whose header cells are the numbers 2021 and
    2022: the session session-0 is created and the request ends with
    HTTP 500. *)
Lemma invoke_graph_non_string_header_is_500_witness :
  exists w',
    @invoke_graph Sample.env_year_sheet Sample.year_sheet_payload Sample.world_with_upload
    = (Raise (HTTPException 500
                "Internal Server Error: sequence item 0: expected str instance, int found"),
       w')
    /\ is_Some (sessions w' !! "session-0")
    /\ llm_log w' = [].
Proof.
  destruct (@invoke_graph_non_string_header_is_500 Sample.env_year_sheet
              Sample.year_sheet_payload Sample.world_with_upload Sample.year_rows
              Sample.year_frame "session-0"
              (snd (@load_data_node Sample.env_year_sheet
                      (invoke_inputs Sample.year_sheet_payload) Sample.world_with_upload))
              [(KInt 2021, VInt 1); (KInt 2022, VInt 2)] [])
    as (msg & w' & Hrun & Hs & Hsome & _ & Hllm & _).
  - vm_compute. reflexivity.
  - reflexivity.
  - intros Hkeys. discriminate Hkeys.
  - exists w'.
    assert (Hres : fst (@invoke_graph Sample.env_year_sheet Sample.year_sheet_payload
                          Sample.world_with_upload)
                   = Raise (HTTPException 500 ("Internal Server Error: " +:+ msg)))
      by (rewrite Hrun; reflexivity).
    vm_compute in Hres. inversion Hres as [Hmsg].
    split; [rewrite Hrun; f_equal; f_equal; f_equal; vm_compute; rewrite <- Hmsg; reflexivity|].
    split; [rewrite Hs; exact Hsome|].
    rewrite Hllm. vm_compute. reflexivity.
Defined.

(** X19 on the follow-up question on the stored session session-0. *)
Lemma chat_with_insight_answers_from_store_witness :
  exists row path c bytes,
    sessions Sample.world_with_session !! "session-0" = Some row
    /\ dict_get "dataframe_storage_path" row = Some path
    /\ blobs Sample.world_with_session !! ("processeddfs", @str_of Sample.env path)
       = Some (String c bytes).
Proof.
  destruct (@chat_with_insight_answers_from_store Sample.env Sample.question
              Sample.world_with_session "42"
              (snd (@chat_with_insight Sample.env Sample.question
                      Sample.world_with_session)))
    as (row & path & c & bytes & df & history & output & Hrow & Hpath & Hblob & _).
  - vm_compute. reflexivity.
  - exists row, path, c, bytes. split; [exact Hrow|]. split; [exact Hpath | exact Hblob].
Defined.

(** X20 on the stored session session-0 with a null chat history. *)
Lemma chat_with_insight_unreadable_history_witness :
  exists w',
    @chat_with_insight Sample.env Sample.question Sample.world_without_history
    = (Raise (HTTPException 500
                ("Error processing chat question: "
                 +:+ exn_str (TypeError "object is not iterable"))), w')
    /\ agent_log w' = agent_log Sample.world_without_history
    /\ sessions w' = sessions Sample.world_without_history.
Proof.
  destruct (@chat_with_insight_unreadable_history Sample.env Sample.question
              Sample.world_without_history Sample.session_without_history
              (VStr "processed_data/session-0.parquet") "P"%char "AR1month,revenue"
              (VBool true) (Sample.frame_of Sample.revenue_rows)
              (TypeError "object is not iterable"))
    as (w' & Hrun & Hagent & Hs & _);
    try (vm_compute; reflexivity).
  exists w'. split; [exact Hrun|]. split; [exact Hagent | exact Hs].
Defined.

(** X23 on a reply that is one JSON object and nothing else. *)
Lemma extract_json_from_text_keeps_plain_object_witness :
  extract_json_from_text Sample.plain_object = Sample.plain_object.
Proof.
  apply extract_json_from_text_keeps_plain_object; vm_compute; reflexivity.
Defined.
